(** * Streamlit analytics dashboard: data loading, fallback and rendering

    A shallow embedding of [app.py] and of the two modules under
    [database_connections/], and the properties of the dashboard's
    load-or-fallback layer proved about it.

    The Python code is effectful: it talks to two warehouses, draws from
    numpy's global random generator, reads the clock, writes elements to the
    page and may raise.  All of that is threaded through the monad [M] below
    (a reader over the [World] the script runs in, a state for what the script
    has consumed and written, and Python exceptions as the left summand).

    The third-party libraries (pandas, numpy, plotly, Streamlit) are not part
    of the repository; the part of their behaviour the script depends on is
    modelled in the modules [Pandas], [Numpy], [Plotly] and [Streamlit]. *)

From Stdlib Require Import ZArith QArith List String Ascii Bool Lia DecimalString.
Import ListNotations.
Open Scope string_scope.
Open Scope Z_scope.

(* ===================================================================== *)
(** ** Python values and exceptions *)
(* ===================================================================== *)

(** The exceptions that the modelled code and library calls raise.  All of
    them are subclasses of Python's [Exception]; [DatabaseError] stands for
    whatever the connection library raises (network, authentication, SQL
    syntax), with the text that [str(e)] gives. *)
Inductive Exception : Type :=
| KeyError (key : string)
| IndexError (msg : string)
| TypeError (msg : string)
| ValueError (msg : string)
| AttributeError (msg : string)
| ZeroDivisionError (msg : string)
| DatabaseError (msg : string).

(** [str(e)]. *)
Definition str_of_exception (e : Exception) : string :=
  match e with
  | KeyError k => "'" ++ k ++ "'"
  | IndexError m | TypeError m | ValueError m | AttributeError m
  | ZeroDivisionError m | DatabaseError m => m
  end.

(** [str(n)] for an integer. *)
Definition str_of_Z (z : Z) : string :=
  match z with
  | Zneg p => "-" ++ NilZero.string_of_uint (Pos.to_uint p)
  | _ => NilZero.string_of_uint (N.to_uint (Z.to_N z))
  end.

Fixpoint zeros (n : nat) : string :=
  match n with O => "" | S n' => String "0" (zeros n') end.

(** The format specification [{z:0wd}] of an f-string: decimal digits,
    padded with zeros on the left (after the sign) up to width [w]. *)
Definition format_0d (w : nat) (z : Z) : string :=
  match z with
  | Zneg p =>
      let digits := NilZero.string_of_uint (Pos.to_uint p) in
      "-" ++ zeros (w - 1 - String.length digits) ++ digits
  | _ =>
      let digits := NilZero.string_of_uint (N.to_uint (Z.to_N z)) in
      zeros (w - String.length digits) ++ digits
  end.

(** [s.lower()] on the ASCII range, which is where column labels and drug
    names of this program live: [A]..[Z] go to [a]..[z], every other byte is
    kept. *)
Definition lower_ascii (c : ascii) : ascii :=
  let n := nat_of_ascii c in
  if (Nat.leb 65 n && Nat.leb n 90)%bool then ascii_of_nat (n + 32) else c.

Fixpoint str_lower (s : string) : string :=
  match s with
  | EmptyString => EmptyString
  | String c s' => String (lower_ascii c) (str_lower s')
  end.

(* ===================================================================== *)
(** ** Pandas: tables *)
(* ===================================================================== *)

Module Pandas.

(** A 64-bit float, as far as this program can tell them apart: finite
    values are kept as exact rationals (the rounding of the binary format
    is left out), and the three special values that numpy's division
    produces instead of raising are explicit. *)
Inductive float64 : Type :=
| FFin (q : Q)
| FPosInf
| FNegInf
| FNaN.

(** [pd.Timestamp.now()] / [datetime.now()]: one reading of the clock. *)
Record Timestamp : Type := mkTimestamp
  { ts_year : Z; ts_month : Z; ts_day : Z; ts_nanos : Z }.

(** [pd.DateOffset(months=n)] and [pd.DateOffset(days=n)]. *)
Inductive DateOffset : Type :=
| Months (n : Z)
| Days (n : Z).

(** A point in time held in a cell.  Calendar arithmetic is kept symbolic:
    [Minus t o] is [t - o] and [RangePoint e f n k] is entry [k] of
    [pd.date_range(end=e, periods=n, freq=f)]. *)
Inductive datetime : Type :=
| At (t : Timestamp)
| Minus (t : Timestamp) (o : DateOffset)
| RangePoint (end_ : Timestamp) (freq : string) (periods : nat) (k : nat).

(** What a cell of a table holds.  [CInt], [CFloat] and [CBool] are the
    elements of numeric columns ([int64], [float64], [bool]); strings, points
    in time and [None] are Python objects, and so is [CPyFloat], the float
    that Python arithmetic on objects produces. *)
Inductive cell : Type :=
| CInt (z : Z)
| CFloat (f : float64)
| CStr (s : string)
| CBool (b : bool)
| CTime (t : datetime)
| CPyFloat (f : float64)
| CNone.

(** The missing value that pandas fills in ([NaN]). *)
Definition NaN : cell := CFloat FNaN.

Definition isna (c : cell) : bool :=
  match c with
  | CFloat FNaN | CPyFloat FNaN | CNone => true
  | _ => false
  end.

(** A column of values (the values of a [Series]). *)
Definition Series : Type := list cell.

(** A [DataFrame] with the default [RangeIndex]: the number of rows and the
    labelled columns, in order.  Zero columns with a positive number of
    rows is a frame too. *)
Record DataFrame : Type := mkDataFrame
  { nrows : nat; cols : list (string * Series) }.

(** [df.columns]. *)
Definition columns (df : DataFrame) : list string := map fst (cols df).

(** Every column has one cell per row. *)
Definition well_formed (df : DataFrame) : Prop :=
  Forall (fun c => List.length (snd c) = nrows df) (cols df).

(** [pd.DataFrame()]. *)
Definition empty_frame : DataFrame := mkDataFrame 0 [].

(** [df.empty]: true when any axis has length zero. *)
Definition empty (df : DataFrame) : bool :=
  match cols df, nrows df with
  | [], _ | _, O => true
  | _, _ => false
  end.

(** [len(df)]. *)
Definition len (df : DataFrame) : nat := nrows df.

(** Look a label up (the first column that carries it). *)
Fixpoint lookup {A} (label : string) (l : list (string * A)) : option A :=
  match l with
  | [] => None
  | (k, v) :: l' => if String.eqb label k then Some v else lookup label l'
  end.

(** Set a label: in place when it is there, at the end otherwise. *)
Fixpoint assign {A} (l : list (string * A)) (label : string) (v : A)
  : list (string * A) :=
  match l with
  | [] => [(label, v)]
  | (k, v') :: l' =>
      if String.eqb label k then (k, v) :: l'
      else (k, v') :: assign l' label v
  end.

(** [df[label]]. *)
Definition getitem (df : DataFrame) (label : string) : Exception + Series :=
  match lookup label (cols df) with
  | Some vs => inr vs
  | None => inl (KeyError label)
  end.

(** [df[label] = values]. *)
Definition setitem (df : DataFrame) (label : string) (values : Series)
  : Exception + DataFrame :=
  if Nat.eqb (List.length values) (nrows df)
  then inr (mkDataFrame (nrows df) (assign (cols df) label values))
  else inl (ValueError "Length of values does not match length of index").

(** [df[[l1, l2, ...]]]. *)
Fixpoint select_cols (df : DataFrame) (labels : list string)
  : Exception + list (string * Series) :=
  match labels with
  | [] => inr []
  | l :: ls =>
      match lookup l (cols df) with
      | None => inl (KeyError l)
      | Some vs =>
          match select_cols df ls with
          | inl e => inl e
          | inr rest => inr ((l, vs) :: rest)
          end
      end
  end.

Definition select (df : DataFrame) (labels : list string)
  : Exception + DataFrame :=
  match select_cols df labels with
  | inl e => inl e
  | inr cs => inr (mkDataFrame (nrows df) cs)
  end.

(** [df.columns = labels]. *)
Definition set_columns (df : DataFrame) (labels : list string)
  : Exception + DataFrame :=
  if Nat.eqb (List.length labels) (List.length (cols df))
  then inr (mkDataFrame (nrows df) (combine labels (map snd (cols df))))
  else inl (ValueError "Length mismatch").

(** [df.columns.str.lower()]. *)
Definition columns_str_lower (df : DataFrame) : list string :=
  map str_lower (columns df).

(** [df.head(n)] for a non-negative [n]. *)
Definition head (n : nat) (df : DataFrame) : DataFrame :=
  mkDataFrame (Nat.min n (nrows df))
              (map (fun c => (fst c, firstn n (snd c))) (cols df)).

(** The entries of [l] at the positions where [mask] holds. *)
Fixpoint keep {A} (mask : list bool) (l : list A) : list A :=
  match mask, l with
  | b :: mask', x :: l' => if b then x :: keep mask' l' else keep mask' l'
  | _, _ => []
  end.

(** [df[mask]]: the rows where the mask holds. *)
Definition take (mask : list bool) (df : DataFrame) : DataFrame :=
  mkDataFrame (List.length (keep mask (repeat tt (nrows df))))
              (map (fun c => (fst c, keep mask (snd c))) (cols df)).

(** [df.dropna(subset=[label])]. *)
Definition dropna (df : DataFrame) (label : string)
  : Exception + DataFrame :=
  match getitem df label with
  | inl e => inl e
  | inr vs => inr (take (map (fun c => negb (isna c)) vs) df)
  end.

(** [series.map(mapping)] for a dict: a value that is no key becomes
    [NaN]. *)
Definition series_map (mapping : list (string * string)) (vs : Series)
  : Series :=
  map (fun c => match c with
                | CStr s => match lookup s mapping with
                            | Some t => CStr t
                            | None => NaN
                            end
                | _ => NaN
                end) vs.

(** A Python [dict] with string keys: insertion-ordered, a key that is set
    again keeps its place and takes the new value. *)
Definition dict : Type := list (string * cell).

Definition dict_set (d : dict) (k : string) (v : cell) : dict := assign d k v.

Definition dict_get (d : dict) (k : string) : option cell := lookup k d.

Definition keys (d : dict) : list string := map fst d.

(** [row[label]] on a row taken from a frame. *)
Definition row_getitem (row : dict) (label : string) : Exception + cell :=
  match dict_get row label with
  | Some v => inr v
  | None => inl (KeyError label)
  end.

(** [df.iloc[-1]]: the last row, labelled by the columns. *)
Definition iloc_last (df : DataFrame) : Exception + dict :=
  match nrows df with
  | O => inl (IndexError "single positional indexer is out-of-bounds")
  | S n => inr (map (fun c => (fst c, nth n (snd c) NaN)) (cols df))
  end.

(** The labels of [pd.DataFrame(records)]: the keys of the records in order
    of first appearance. *)
Definition add_label (acc : list string) (k : string) : list string :=
  if existsb (String.eqb k) acc then acc else acc ++ [k].

Definition union_keys (records : list dict) : list string :=
  fold_left (fun acc d => fold_left add_label (keys d) acc) records [].

(** [pd.DataFrame(records)] for a list of dicts: one row per record, a
    record without a key gets [NaN] there. *)
Definition of_records (records : list dict) : DataFrame :=
  mkDataFrame (List.length records)
    (map (fun l => (l, map (fun d => match dict_get d l with
                                     | Some v => v
                                     | None => NaN
                                     end) records))
         (union_keys records)).

(** [pd.DataFrame({l1: values1, l2: values2, ...})]: the lists must have
    one length. *)
Definition of_columns (data : list (string * Series))
  : Exception + DataFrame :=
  match data with
  | [] => inr empty_frame
  | (_, vs) :: _ =>
      if forallb (fun c => Nat.eqb (List.length (snd c)) (List.length vs)) data
      then inr (mkDataFrame (List.length vs)
                            (fold_left (fun acc c => assign acc (fst c) (snd c))
                                       data []))
      else inl (ValueError "All arrays must be of the same length")
  end.

(** [df.set_index(label)]. *)
Record IndexedFrame : Type := mkIndexedFrame
  { index_name : string; index : Series; body : DataFrame }.

Definition set_index (df : DataFrame) (label : string)
  : Exception + IndexedFrame :=
  match getitem df label with
  | inl e => inl e
  | inr vs =>
      inr (mkIndexedFrame label vs
             (mkDataFrame (nrows df)
                (filter (fun c => negb (String.eqb (fst c) label)) (cols df))))
  end.

(** [indexed[[l1, l2, ...]]]: the index stays. *)
Definition indexed_select (f : IndexedFrame) (labels : list string)
  : Exception + IndexedFrame :=
  match select (body f) labels with
  | inl e => inl e
  | inr b => inr (mkIndexedFrame (index_name f) (index f) b)
  end.

(** *** Arithmetic on columns

    A column whose cells are all integers, floats or bools has a numeric
    dtype, and pandas hands its arithmetic to numpy: true division follows
    IEEE 754 with the warnings silenced, so a zero divisor gives an infinity
    or [NaN] and no exception.  Any other column has dtype [object]: there
    Python's own operator is applied cell by cell, and Python's division by
    zero raises.  (Signed zeros are not told apart.) *)
Definition is_numeric (c : cell) : bool :=
  match c with
  | CInt _ | CFloat _ | CBool _ => true
  | _ => false
  end.

Definition numeric_dtype (vs : Series) : bool := forallb is_numeric vs.

(** The number a cell holds, if it holds one. *)
Definition number_of (c : cell) : option float64 :=
  match c with
  | CInt z => Some (FFin (inject_Z z))
  | CFloat f | CPyFloat f => Some f
  | CBool b => Some (FFin (if b then 1 else 0)%Q)
  | _ => None
  end.

Definition as_float (c : cell) : float64 :=
  match number_of c with
  | Some f => f
  | None => FNaN
  end.

Definition is_zero (f : float64) : bool :=
  match f with
  | FFin q => Z.eqb (Qnum q) 0
  | _ => false
  end.

Definition Qsign (q : Q) : comparison := (Qnum q ?= 0)%Z.

Definition fdiv (a b : float64) : float64 :=
  match a, b with
  | FNaN, _ | _, FNaN => FNaN
  | FFin x, FFin y =>
      match Qsign y with
      | Eq => match Qsign x with
              | Eq => FNaN
              | Gt => FPosInf
              | Lt => FNegInf
              end
      | _ => FFin (Qred (x / y))
      end
  | FFin _, _ => FFin 0
  | FPosInf, FFin y => match Qsign y with Lt => FNegInf | _ => FPosInf end
  | FNegInf, FFin y => match Qsign y with Lt => FPosInf | _ => FNegInf end
  | _, _ => FNaN
  end.

Definition fmul (a b : float64) : float64 :=
  match a, b with
  | FNaN, _ | _, FNaN => FNaN
  | FFin x, FFin y => FFin (Qred (x * y))
  | FFin x, FPosInf | FPosInf, FFin x =>
      match Qsign x with Eq => FNaN | Gt => FPosInf | Lt => FNegInf end
  | FFin x, FNegInf | FNegInf, FFin x =>
      match Qsign x with Eq => FNaN | Gt => FNegInf | Lt => FPosInf end
  | FPosInf, FPosInf | FNegInf, FNegInf => FPosInf
  | _, _ => FNegInf
  end.

(** Round a rational to the nearest integer, ties to the even one. *)
Definition rint (q : Q) : Z :=
  let d := Zpos (Qden q) in
  let fl := (Qnum q / d)%Z in
  let r := (Qnum q - fl * d)%Z in          (* q = fl + r / d, 0 <= r < d *)
  match (2 * r ?= d)%Z with
  | Lt => fl
  | Gt => (fl + 1)%Z
  | Eq => if Z.even fl then fl else (fl + 1)%Z
  end.

(** [round(decimals)] on a float. *)
Definition fround (decimals : nat) (a : float64) : float64 :=
  match a with
  | FFin x =>
      let scale := inject_Z (10 ^ Z.of_nat decimals) in
      FFin (Qred (inject_Z (rint (x * scale)) / scale))
  | other => other
  end.

Fixpoint traverse {A B} (f : A -> Exception + B) (l : list A)
  : Exception + list B :=
  match l with
  | [] => inr []
  | x :: l' =>
      match f x with
      | inl e => inl e
      | inr y => match traverse f l' with
                 | inl e => inl e
                 | inr ys => inr (y :: ys)
                 end
      end
  end.

(** Python's [x / y] on two objects. *)
Definition py_truediv (x y : cell) : Exception + cell :=
  match number_of x, number_of y with
  | Some a, Some b =>
      if is_zero b then inl (ZeroDivisionError "division by zero")
      else inr (CPyFloat (fdiv a b))
  | _, _ => inl (TypeError "unsupported operand type(s) for /")
  end.

Fixpoint str_repeat (s : string) (n : nat) : string :=
  match n with
  | O => ""
  | S n' => s ++ str_repeat s n'
  end.

(** Python's [x * k] on an object and an integer [k]: a number is
    multiplied, a string repeated. *)
Definition py_mul (x : cell) (k : Z) : Exception + cell :=
  match x with
  | CStr s => inr (CStr (str_repeat s (Z.to_nat k)))
  | _ =>
      match number_of x with
      | Some a => inr (CPyFloat (fmul a (FFin (inject_Z k))))
      | None => inl (TypeError "unsupported operand type(s) for *")
      end
  end.

(** [a / b] on two columns of one frame (same index, so the values pair
    up by position). *)
Definition series_truediv (a b : Series) : Exception + Series :=
  if (numeric_dtype a && numeric_dtype b)%bool
  then inr (map (fun p => CFloat (fdiv (as_float (fst p)) (as_float (snd p))))
                (combine a b))
  else traverse (fun p => py_truediv (fst p) (snd p)) (combine a b).

(** [a * k] for an integer [k] (a numeric column is given back as
    floats). *)
Definition series_mul (a : Series) (k : Z) : Exception + Series :=
  if numeric_dtype a
  then inr (map (fun c => CFloat (fmul (as_float c) (FFin (inject_Z k)))) a)
  else traverse (fun c => py_mul c k) a.

(** [a.round(decimals)]: for numeric columns only. *)
Definition series_round (a : Series) (decimals : nat) : Exception + Series :=
  if numeric_dtype a
  then inr (map (fun c => CFloat (fround decimals (as_float c))) a)
  else inl (TypeError "Expected numeric dtype, got object instead.").

End Pandas.
Export Pandas.

(* ===================================================================== *)
(** ** The world the script runs in, and the monad of the script *)
(* ===================================================================== *)

(** What [conn.query(query, params=params)] does. *)
Inductive QueryOutcome : Type :=
| QueryRaises (e : Exception)
| QueryReturns (df : option DataFrame).

(** What [st.connection(name, ...)] does: it raises, or gives a connection,
    which is its [query] method. *)
Inductive ConnOutcome : Type :=
| ConnRaises (e : Exception)
| Connected (query : string -> option (list cell) -> QueryOutcome).

Inductive Warehouse : Type := Redshift | Snowflake.

(** Everything outside the script: the [k]-th raw draw of numpy's global
    generator, the [k]-th reading of the clock, and how the [k]-th attempt to
    reach a warehouse goes. *)
Record World : Type := mkWorld
  { raw_draw : nat -> N;
    clock : nat -> Timestamp;
    connect : Warehouse -> nat -> ConnOutcome }.

(* ===================================================================== *)
(** ** Plotly figures and Streamlit page elements *)
(* ===================================================================== *)

Module Plotly.

(** The figures the pages build, with the arguments the script passes. *)
Inductive Figure : Type :=
| Line (data : DataFrame) (x : string) (y : list string) (title : string)
| Bar (data : DataFrame) (x : string) (y : list string) (title : string)
      (color : option string)
| Pie (data : DataFrame) (values names title : string) (hole : Q)
| Choropleth (data : DataFrame) (locations color hover_name : string)
             (hover_data : list string) (title : string).

(** Plotly Express refuses a column argument that is no column of the
    frame. *)
Definition missing_column (df : DataFrame) (names : list string)
  : option string :=
  find (fun n => match lookup n (cols df) with
                 | Some _ => false
                 | None => true
                 end) names.

Definition px (df : DataFrame) (names : list string) (fig : Figure)
  : Exception + Figure :=
  match missing_column df names with
  | Some n => inl (ValueError ("Value of argument is not the name of a column in 'data_frame': " ++ n))
  | None => inr fig
  end.

End Plotly.
Export Plotly.

(** What the script puts on the page. *)
Inductive Element : Type :=
| Markdown (text : string)
| Warning (text : string)
| Error (text : string)
| Metric (label value : string)
| PlotlyChart (fig : Figure)
| DataframeView (df : DataFrame)
| StyledView (df : IndexedFrame) (cmap : string).

(** The two bundles: Python tuples of five and of six tables.  A member is
    whatever the loader returned, so it can be [None]. *)
Definition FdaBundle : Type :=
  (option DataFrame * option DataFrame * option DataFrame
   * option DataFrame * option DataFrame)%type.

Definition HealthcareBundle : Type :=
  (option DataFrame * option DataFrame * option DataFrame
   * option DataFrame * option DataFrame * option DataFrame)%type.

(** One entry of [st.cache_data]: when it was stored, the value, and the
    page elements the function wrote, which a hit replays. *)
Record CacheEntry (A : Type) : Type := mkCacheEntry
  { stored_at : Z; cached_value : A; recorded : list Element }.
Arguments mkCacheEntry {A}.
Arguments stored_at {A}.
Arguments cached_value {A}.
Arguments recorded {A}.

(** The state of the running script: how much of the world it has consumed,
    the queries it has sent, the page so far, the timer's reading in seconds
    (advanced from outside, between runs) and the process-wide memo tables of
    the two cached functions. *)
Record ScriptState : Type := mkState
  { draws : nat;
    clock_reads : nat;
    connections : nat;
    queries : list (Warehouse * string);
    page : list Element;
    timer : Z;
    cache_fda : option (CacheEntry FdaBundle);
    cache_healthcare : option (CacheEntry HealthcareBundle) }.

Definition M (A : Type) : Type :=
  World -> ScriptState -> (Exception + A) * ScriptState.

Definition ret {A} (a : A) : M A := fun _ s => (inr a, s).

Definition bind {A B} (m : M A) (k : A -> M B) : M B :=
  fun w s =>
    match m w s with
    | (inr a, s') => k a w s'
    | (inl e, s') => (inl e, s')
    end.

Definition raise {A} (e : Exception) : M A := fun _ s => (inl e, s).

(** [try: m  except Exception as e: handler e].  What [m] did to the state
    before it raised stays done. *)
Definition try_except {A} (m : M A) (handler : Exception -> M A) : M A :=
  fun w s =>
    match m w s with
    | (inl e, s') => handler e w s'
    | r => r
    end.

(** A pure computation that may raise, run inside the script. *)
Definition lift {A} (r : Exception + A) : M A :=
  match r with
  | inl e => raise e
  | inr a => ret a
  end.

Declare Scope script_scope.
Delimit Scope script_scope with script.
Notation "x <- m ;; k" := (bind m (fun x => k))
  (at level 61, m at next level, right associativity) : script_scope.
Notation "m ;;; k" := (bind m (fun _ => k))
  (at level 61, right associativity) : script_scope.
Open Scope script_scope.

(** [data = []; for x in xs: body], with [body] working on the list built so
    far: the loop threads the accumulator through the iterations. *)
Fixpoint for_in {A S} (xs : list A) (body : A -> S -> M S) (acc : S) : M S :=
  match xs with
  | [] => ret acc
  | x :: xs' => acc' <- body x acc ;; for_in xs' body acc'
  end.

(** [data.append(row)]. *)
Definition append {A} (data : list A) (row : A) : list A := data ++ [row].

(** [range(n)]. *)
Definition range (n : nat) : list Z := map Z.of_nat (seq 0 n).

(** A dict display [{k1: e1, k2: e2, ...}]: the value expressions are
    evaluated left to right, each key is set in turn. *)
Fixpoint dict_display_from (d : dict) (items : list (string * M cell)) : M dict :=
  match items with
  | [] => ret d
  | (k, e) :: items' => v <- e ;; dict_display_from (dict_set d k v) items'
  end.

Definition dict_display (items : list (string * M cell)) : M dict :=
  dict_display_from [] items.

Module Streamlit.

(** The state with [elements] added at the end of the page. *)
Definition shown (elements : list Element) (s : ScriptState) : ScriptState :=
  mkState (draws s) (clock_reads s) (connections s) (queries s)
          (page s ++ elements) (timer s) (cache_fda s) (cache_healthcare s).

Definition write (e : Element) : M unit :=
  fun _ s => (inr tt, shown [e] s).

Definition warning (text : string) : M unit := write (Warning text).
Definition error (text : string) : M unit := write (Error text).
Definition markdown (text : string) : M unit := write (Markdown text).
Definition plotly_chart (fig : Figure) : M unit := write (PlotlyChart fig).

(** [st.connection(name, ...)]: one more attempt to reach the warehouse. *)
Definition connection (wh : Warehouse)
  : M (string -> option (list cell) -> QueryOutcome) :=
  fun w s =>
    let s' := mkState (draws s) (clock_reads s) (S (connections s))
                      (queries s) (page s) (timer s)
                      (cache_fda s) (cache_healthcare s) in
    match connect w wh (connections s) with
    | ConnRaises e => (inl e, s')
    | Connected q => (inr q, s')
    end.

(** [conn.query(query, params=params)]: the query goes to the warehouse. *)
Definition conn_query (wh : Warehouse)
           (conn : string -> option (list cell) -> QueryOutcome)
           (query : string) (params : option (list cell))
  : M (option DataFrame) :=
  fun _ s =>
    let s' := mkState (draws s) (clock_reads s) (connections s)
                      (queries s ++ [(wh, query)]) (page s) (timer s)
                      (cache_fda s) (cache_healthcare s) in
    match conn query params with
    | QueryRaises e => (inl e, s')
    | QueryReturns df => (inr df, s')
    end.

(** Where a cached function keeps its entry.  The functions of this script
    take no argument, so each has one entry. *)
Record Slot (A : Type) : Type := mkSlot
  { slot_get : ScriptState -> option (CacheEntry A);
    slot_set : option (CacheEntry A) -> ScriptState -> ScriptState }.
Arguments mkSlot {A}.
Arguments slot_get {A}.
Arguments slot_set {A}.

Definition fda_slot : Slot FdaBundle :=
  mkSlot cache_fda
    (fun e s => mkState (draws s) (clock_reads s) (connections s) (queries s)
                        (page s) (timer s) e (cache_healthcare s)).

Definition healthcare_slot : Slot HealthcareBundle :=
  mkSlot cache_healthcare
    (fun e s => mkState (draws s) (clock_reads s) (connections s) (queries s)
                        (page s) (timer s) (cache_fda s) e).

(** An entry is fresh while the timer has not reached [stored_at + ttl]. *)
Definition fresh {A} (ttl : Z) (now : Z) (e : CacheEntry A) : bool :=
  now <? stored_at e + ttl.

(** [@st.cache_data(ttl=ttl)] around a function without arguments: a fresh
    entry is returned (and the elements it recorded are replayed) without
    running the function; otherwise the function runs and, unless it
    raises, its value is stored with the elements it wrote. *)
Definition cache_data {A} (ttl : Z) (slot : Slot A) (f : M A) : M A :=
  fun w s =>
    match slot_get slot s with
    | Some e =>
        if fresh ttl (timer s) e
        then (inr (cached_value e), shown (recorded e) s)
        else
          match f w s with
          | (inr a, s') =>
              (inr a,
               slot_set slot
                 (Some (mkCacheEntry (timer s) a
                          (skipn (List.length (page s)) (page s')))) s')
          | r => r
          end
    | None =>
        match f w s with
        | (inr a, s') =>
            (inr a,
             slot_set slot
               (Some (mkCacheEntry (timer s) a
                        (skipn (List.length (page s)) (page s')))) s')
        | r => r
        end
    end.


End Streamlit.

Module Numpy.

(** The next raw draw of the global generator. *)
Definition next_raw : M N :=
  fun w s =>
    (inr (raw_draw w (draws s)),
     mkState (S (draws s)) (clock_reads s) (connections s) (queries s)
             (page s) (timer s) (cache_fda s) (cache_healthcare s)).

(** [np.random.randint(low, high)]: an integer in [low, high). *)
Definition randint (low high : Z) : M Z :=
  if low <? high
  then r <- next_raw ;; ret (low + Z.of_N r mod (high - low))
  else raise (ValueError "low >= high").

(** [np.random.uniform(low, high)]: a float in [low, high). *)
Definition uniform (low high : Q) : M float64 :=
  r <- next_raw ;;
  ret (FFin (low + (high - low)
                     * (Z.of_N r mod 2 ^ 53 # Pos.pow 2 53))%Q).

(** [np.random.choice(options)]: one of the options. *)
Definition choice (options : list string) : M string :=
  match options with
  | [] => raise (ValueError "'a' cannot be empty")
  | o :: _ =>
      r <- next_raw ;;
      ret (nth (N.to_nat r mod List.length options) options o)
  end.

End Numpy.

(** [pd.Timestamp.now()] and [datetime.now()]: the next reading of the
    clock. *)
Definition Timestamp_now : M Timestamp :=
  fun w s =>
    (inr (clock w (clock_reads s)),
     mkState (draws s) (S (clock_reads s)) (connections s) (queries s)
             (page s) (timer s) (cache_fda s) (cache_healthcare s)).

(** [pd.date_range(end=end_, periods=periods, freq=freq)]: [periods]
    points. *)
Definition date_range (end_ : Timestamp) (periods : nat) (freq : string)
  : list datetime :=
  map (RangePoint end_ freq periods) (seq 0 periods).

(* ===================================================================== *)
(** ** database_connections/redshift_connection.py *)
(* ===================================================================== *)

Module RedshiftConnection.

(** [execute_redshift_query(query, params=None)]. *)
Definition execute_redshift_query (query : string)
           (params : option (list cell)) : M (option DataFrame) :=
  try_except
    (conn <- Streamlit.connection Redshift ;;
     df <- Streamlit.conn_query Redshift conn query params ;;
     match df with
     | Some d =>
         if negb (empty d) then ret (Some d)
         else ret (Some empty_frame)
     | None => ret (Some empty_frame)
     end)
    (fun e =>
       Streamlit.error ("❌ Query execution failed on Redshift: "
                        ++ str_of_exception e) ;;;
       ret None).

Definition volume_query : string := "
        select
            COUNT(*) as total_reports,
            SUM(case when serious = '1' then 1 else 0 end) as serious_reports,
            SUM(case when seriousnessdeath = '1' then 1 else 0 end) as fatal_reports,
            COUNT(distinct occurcountry) as countries_affected,
            DATE_TRUNC('month', receivedate) as report_month
        from
            public.dim_reports
        group by
            DATE_TRUNC('month', receivedate)
        order by
            report_month
        LIMIT 1000
    ".

Definition load_fda_volume_analysis : M (option DataFrame) :=
  execute_redshift_query volume_query None.

Definition top_drugs_query : string := "
        SELECT
            d.medicinalproduct,
            d.generic_name,
            COUNT(*) as report_count,
            SUM(CASE WHEN fr.reactionoutcome = '1' THEN 1 ELSE 0 END) as recovered_count,
            SUM(CASE WHEN fr.reactionoutcome = '5' THEN 1 ELSE 0 END) as fatal_count,
            AVG(p.patient_age) as avg_age,
            SUM(CASE WHEN p.patient_sex = '1' THEN 1 ELSE 0 END) as male_count,
            SUM(CASE WHEN p.patient_sex = '2' THEN 1 ELSE 0 END) as female_count
        FROM
            public.fact_drugs d
        JOIN
            public.dim_reports p ON d.safetyreportid = p.safetyreportid
        LEFT JOIN
            public.fact_reactions fr ON d.safetyreportid = fr.safetyreportid
        WHERE
            d.medicinalproduct IS NOT NULL
            AND d.medicinalproduct != ''
        GROUP BY
            d.medicinalproduct, d.generic_name
        ORDER BY
            report_count DESC
        LIMIT 10
    ".

Definition load_top_drugs_analysis : M (option DataFrame) :=
  execute_redshift_query top_drugs_query None.

Definition global_distribution_query : string := "
        SELECT
            occurcountry,
            COUNT(*) as report_count,
            SUM(CASE WHEN serious = '1' THEN 1 ELSE 0 END) as serious_reports,
            SUM(CASE WHEN seriousnessdeath = '1' THEN 1 ELSE 0 END) as fatal_reports,
            COUNT(DISTINCT CASE WHEN serious = '1' THEN safetyreportid END) as unique_serious_reports
        FROM
            public.dim_reports
        WHERE
            occurcountry IS NOT NULL
            AND occurcountry != ''
        GROUP BY
            occurcountry
        ORDER BY
            report_count DESC
        LIMIT 20
    ".

Definition load_global_adverse_distribution : M (option DataFrame) :=
  execute_redshift_query global_distribution_query None.

Definition safety_trends_query : string := "
        select
            receivedate,
            COUNT(*) as total_reports,
            SUM(case when serious = '1' then 1 else 0 end) as serious_reports,
            SUM(case when seriousnessdeath = '1' then 1 else 0 end) as fatal_reports,
            SUM(case when seriousnesshospitalization = '1' then 1 else 0 end) as hospitalization_reports
        from
            public.dim_reports
        group by
            receivedate
        ORDER BY
            receivedate DESC
        LIMIT 500
    ".

Definition load_fda_safety_trends : M (option DataFrame) :=
  execute_redshift_query safety_trends_query None.

Definition suspect_drugs_query : string := "
        SELECT
            d.medicinalproduct,
            d.generic_name,
            d.drugcharacterization,
            COUNT(*) as report_count,
            SUM(CASE WHEN fr.reactionoutcome = '1' THEN 1 ELSE 0 END) as recovered_count,
            SUM(CASE WHEN fr.reactionoutcome = '5' THEN 1 ELSE 0 END) as fatal_count,
            COUNT(DISTINCT d.safetyreportid) as unique_reports
        FROM
            public.fact_drugs d
        LEFT JOIN
            public.fact_reactions fr ON d.safetyreportid = fr.safetyreportid
        WHERE
            d.drugcharacterization = '1'  -- Suspect drugs only
            AND d.medicinalproduct IS NOT NULL
            AND d.medicinalproduct != ''
        GROUP BY
            d.medicinalproduct, d.generic_name, d.drugcharacterization
        ORDER BY
            report_count DESC
        LIMIT 10
    ".

Definition load_top_suspect_drugs : M (option DataFrame) :=
  execute_redshift_query suspect_drugs_query None.

End RedshiftConnection.

(* ===================================================================== *)
(** ** database_connections/snowflake_connection.py *)
(* ===================================================================== *)

Module SnowflakeConnection.

(** [execute_snowflake_query(query, params=None)]. *)
Definition execute_snowflake_query (query : string)
           (params : option (list cell)) : M (option DataFrame) :=
  try_except
    (conn <- Streamlit.connection Snowflake ;;
     df <- Streamlit.conn_query Snowflake conn query params ;;
     match df with
     | Some d =>
         if negb (empty d) then ret (Some d)
         else ret (Some empty_frame)
     | None => ret (Some empty_frame)
     end)
    (fun e =>
       Streamlit.error ("❌ Query execution failed on Snowflake: "
                        ++ str_of_exception e) ;;;
       ret None).

Definition executive_query : string := "
    SELECT * FROM HEALTHCARE_INSURANCE_DB.ANALYTICS.VW_EXECUTIVE_DASHBOARD
    ORDER BY MONTH_DATE DESC
    LIMIT 1000
    ".

Definition load_executive_dashboard_data : M (option DataFrame) :=
  execute_snowflake_query executive_query None.

Definition patient_query : string := "
    SELECT * FROM HEALTHCARE_INSURANCE_DB.ANALYTICS.VW_PATIENT_DEMOGRAPHICS
    LIMIT 5000
    ".

Definition load_patient_demographics_data : M (option DataFrame) :=
  execute_snowflake_query patient_query None.

Definition encounter_query : string := "
    SELECT * FROM HEALTHCARE_INSURANCE_DB.ANALYTICS.VW_ENCOUNTER_ANALYSIS
    WHERE ENCOUNTER_DATE >= DATEADD(year, -2, CURRENT_DATE())
    LIMIT 10000
    ".

Definition load_encounter_analysis_data : M (option DataFrame) :=
  execute_snowflake_query encounter_query None.

Definition claims_query : string := "
    SELECT * FROM HEALTHCARE_INSURANCE_DB.ANALYTICS.VW_CLAIMS_MANAGEMENT
    WHERE SERVICE_DATE >= DATEADD(year, -2, CURRENT_DATE())
    LIMIT 5000
    ".

Definition load_claims_management_data : M (option DataFrame) :=
  execute_snowflake_query claims_query None.

Definition financial_query : string := "
    SELECT * FROM HEALTHCARE_INSURANCE_DB.ANALYTICS.VW_FINANCIAL_INSIGHTS
    LIMIT 5000
    ".

Definition load_financial_insights_data : M (option DataFrame) :=
  execute_snowflake_query financial_query None.

Definition geographic_query : string := "
    SELECT * FROM HEALTHCARE_INSURANCE_DB.ANALYTICS.VW_GEOGRAPHIC_ANALYSIS
    ORDER BY PATIENT_COUNT DESC
    LIMIT 1000
    ".

Definition load_geographic_analysis_data : M (option DataFrame) :=
  execute_snowflake_query geographic_query None.

End SnowflakeConnection.

(* ===================================================================== *)
(** ** app.py *)
(* ===================================================================== *)

Module App.

Import RedshiftConnection SnowflakeConnection.

(** The value expressions of the mock rows, as cells. *)
Definition randint (low high : Z) : M cell :=
  z <- Numpy.randint low high ;; ret (CInt z).

Definition uniform (low high : Q) : M cell :=
  f <- Numpy.uniform low high ;; ret (CFloat f).
Arguments uniform (low high)%_Q_scope.

Definition choice (options : list string) : M cell :=
  s <- Numpy.choice options ;; ret (CStr s).

Definition const (c : cell) : M cell := ret c.

(** [f'{prefix}{np.random.randint(low, high):0{w}d}']. *)
Definition randint_id (prefix : string) (w : nat) (low high : Z) : M cell :=
  z <- Numpy.randint low high ;; ret (CStr (prefix ++ format_0d w z)).

(** [pd.Timestamp.now() - pd.DateOffset(days=np.random.randint(low, high))]. *)
Definition now_minus_random_days (low high : Z) : M cell :=
  t <- Timestamp_now ;;
  d <- Numpy.randint low high ;;
  ret (CTime (Minus t (Days d))).

(** An integer computed from one reading of the clock. *)
Definition now_int (f : Timestamp -> Z) : M cell :=
  t <- Timestamp_now ;; ret (CInt (f t)).

Definition is_not_None {A} (x : option A) : bool :=
  match x with Some _ => true | None => false end.

(** *** AWS + OpenFDA page *)

Definition drugs : list string :=
  ["ASPIRIN"; "IBUPROFEN"; "ACETAMINOPHEN"; "LISINOPRIL"; "METFORMIN";
   "ATORVASTATIN"; "AMLODIPINE"; "OMEPRAZOLE"; "SIMVASTATIN"; "PANTOPRAZOLE"].

Definition countries : list string :=
  ["US"; "GB"; "CA"; "AU"; "DE"; "FR"; "JP"; "IT"; "ES"; "BR"].

(** The fallback block of [load_fda_dashboard_data] (from the warning to
    the second [return]). *)
Definition fda_mock_data : M FdaBundle :=
  Streamlit.warning "⚠️ Using mock data - database connection not available" ;;;
  (* Mock volume data *)
  now <- Timestamp_now ;;
  let dates := date_range now 12 "M" in
  volume_data <-
    for_in dates (fun date volume_data =>
      row <- dict_display
        [("total_reports", randint 1000 5000);
         ("serious_reports", randint 100 500);
         ("fatal_reports", randint 5 50);
         ("countries_affected", randint 10 30);
         ("report_month", const (CTime date))] ;;
      ret (append volume_data row)) [] ;;
  let volume_df := of_records volume_data in
  (* Mock top drugs data *)
  top_drugs_data <-
    for_in drugs (fun drug top_drugs_data =>
      row <- dict_display
        [("medicinalproduct", const (CStr drug));
         ("generic_name", const (CStr (str_lower drug)));
         ("report_count", randint 100 1000);
         ("recovered_count", randint 50 800);
         ("fatal_count", randint 0 20);
         ("avg_age", randint 30 80);
         ("male_count", randint 40 200);
         ("female_count", randint 40 200)] ;;
      ret (append top_drugs_data row)) [] ;;
  let top_drugs_df := of_records top_drugs_data in
  (* Mock global distribution data *)
  global_dist_data <-
    for_in countries (fun country global_dist_data =>
      row <- dict_display
        [("occurcountry", const (CStr country));
         ("report_count", randint 100 2000);
         ("serious_reports", randint 10 200);
         ("fatal_reports", randint 0 20);
         ("unique_serious_reports", randint 10 150)] ;;
      ret (append global_dist_data row)) [] ;;
  let global_dist_df := of_records global_dist_data in
  (* Mock trends data *)
  now' <- Timestamp_now ;;
  let trend_dates := date_range now' 26 "W" in
  trends_data <-
    for_in trend_dates (fun date trends_data =>
      row <- dict_display
        [("receivedate", const (CTime date));
         ("total_reports", randint 200 1000);
         ("serious_reports", randint 20 100);
         ("fatal_reports", randint 0 10);
         ("hospitalization_reports", randint 10 80)] ;;
      ret (append trends_data row)) [] ;;
  let trends_df := of_records trends_data in
  (* Mock suspect drugs data *)
  suspect_drugs_data <-
    for_in (firstn 8 drugs) (fun drug suspect_drugs_data =>
      row <- dict_display
        [("medicinalproduct", const (CStr drug));
         ("generic_name", const (CStr (str_lower drug)));
         ("drugcharacterization", const (CStr "1"));
         ("report_count", randint 80 800);
         ("recovered_count", randint 40 600);
         ("fatal_count", randint 0 15);
         ("unique_reports", randint 50 400)] ;;
      ret (append suspect_drugs_data row)) [] ;;
  let suspect_drugs_df := of_records suspect_drugs_data in
  ret (Some volume_df, Some top_drugs_df, Some global_dist_df,
       Some trends_df, Some suspect_drugs_df).

(** The five loader calls that open [load_fda_dashboard_data]. *)
Definition fda_loaders : M FdaBundle :=
  volume_df <- load_fda_volume_analysis ;;
  top_drugs_df <- load_top_drugs_analysis ;;
  global_dist_df <- load_global_adverse_distribution ;;
  trends_df <- load_fda_safety_trends ;;
  suspect_drugs_df <- load_top_suspect_drugs ;;
  ret (volume_df, top_drugs_df, global_dist_df, trends_df, suspect_drugs_df).

(** The body of [load_fda_dashboard_data], before the decorator. *)
Definition load_fda_dashboard_data_body : M FdaBundle :=
  loaded <- fda_loaders ;;
  let '(volume_df, top_drugs_df, global_dist_df, trends_df,
        suspect_drugs_df) := loaded in
  if (is_not_None volume_df && is_not_None top_drugs_df)%bool
  then ret (volume_df, top_drugs_df, global_dist_df, trends_df,
            suspect_drugs_df)
  else fda_mock_data.

(** [@st.cache_data(ttl=15 * 60) def load_fda_dashboard_data(): ...]. *)
Definition load_fda_dashboard_data : M FdaBundle :=
  Streamlit.cache_data (15 * 60) Streamlit.fda_slot
                       load_fda_dashboard_data_body.

(** *** Snowflake + Synthea page *)

(** [pd.Timestamp.now() - pd.DateOffset(months=i)]. *)
Definition now_minus_months (i : Z) : M cell :=
  t <- Timestamp_now ;; ret (CTime (Minus t (Months i))).

(** The fallback block of [load_healthcare_dashboard_data] (from the
    warning to the second [return]). *)
Definition healthcare_mock_data : M HealthcareBundle :=
  Streamlit.warning "⚠️ Using mock data - database connection not available" ;;;
  (* Mock executive dashboard data *)
  exec_data <-
    for_in (range 24) (fun i exec_data =>
      row <- dict_display
        [("month_date", now_minus_months i);
         ("year", now_int (fun t => ts_year t - (i / 12)));
         ("month", now_int (fun t => ts_month t - (i mod 12)));
         ("encounter_count", randint 1000 5000);
         ("unique_patients", randint 800 4000);
         ("total_revenue", uniform 500000 2000000);
         ("avg_cost_per_encounter", uniform 200 800);
         ("total_payer_coverage", uniform 400000 1500000);
         ("total_patient_payment", uniform 100000 500000);
         ("avg_coverage_percentage", uniform 70 95);
         ("encounter_class", choice ["ambulatory"; "emergency"; "inpatient"; "wellness"]);
         ("cost_category", choice ["low"; "medium"; "high"]);
         ("encounter_day_name", choice ["Monday"; "Tuesday"; "Wednesday"; "Thursday"; "Friday"; "Saturday"; "Sunday"]);
         ("state", choice ["MA"; "NY"; "CA"; "TX"; "FL"])] ;;
      ret (append exec_data row)) [] ;;
  let exec_df := of_records exec_data in
  (* Mock patient demographics data *)
  patient_data <-
    for_in (range 1000) (fun i patient_data =>
      row <- dict_display
        [("patient_id", const (CStr ("P" ++ format_0d 5 i)));
         ("full_name", const (CStr ("Patient " ++ str_of_Z i)));
         ("age", randint 18 90);
         ("age_group", choice ["18-30"; "31-45"; "46-60"; "61-75"; "75+"]);
         ("gender", choice ["M"; "F"]);
         ("gender_full", choice ["Male"; "Female"]);
         ("race", choice ["White"; "Black"; "Asian"; "Hispanic"; "Other"]);
         ("ethnicity", choice ["Non-Hispanic"; "Hispanic"]);
         ("marital_status", choice ["Single"; "Married"; "Divorced"; "Widowed"]);
         ("state", choice ["MA"; "NY"; "CA"; "TX"; "FL"]);
         ("county", choice ["Suffolk"; "Middlesex"; "Essex"; "Norfolk"; "Bristol"]);
         ("city", choice ["Boston"; "NYC"; "Los Angeles"; "Houston"; "Miami"]);
         ("zip", randint 1000 9999);
         ("income", uniform 20000 200000);
         ("income_level", choice ["Very Low"; "Low"; "Medium"; "High"; "Very High"]);
         ("healthcare_expenses", uniform 1000 50000);
         ("healthcare_coverage", uniform 0.5 1.0);
         ("coverage_tier", choice ["Bronze"; "Silver"; "Gold"; "Platinum"]);
         ("is_alive", const (CBool true));
         ("total_encounters", randint 1 50);
         ("total_medical_costs", uniform 1000 100000);
         ("avg_cost_per_encounter", uniform 100 1000);
         ("total_out_of_pocket", uniform 100 10000)] ;;
      ret (append patient_data row)) [] ;;
  let patient_df := of_records patient_data in
  (* Mock encounter data *)
  encounter_data <-
    for_in (range 5000) (fun i encounter_data =>
      row <- dict_display
        [("encounter_id", const (CStr ("E" ++ format_0d 5 i)));
         ("encounter_date", now_minus_random_days 0 730);
         ("encounter_year", now_int ts_year);
         ("encounter_month", now_int ts_month);
         ("encounter_quarter", now_int (fun t => (ts_month t - 1) / 3 + 1));
         ("encounter_day_of_week", randint 0 7);
         ("encounter_day_name", choice ["Monday"; "Tuesday"; "Wednesday"; "Thursday"; "Friday"; "Saturday"; "Sunday"]);
         ("encounter_class", choice ["ambulatory"; "emergency"; "inpatient"; "wellness"]);
         ("encounter_code", choice ["Z00"; "Z01"; "Z02"; "Z03"]);
         ("encounter_description", choice ["Routine"; "Emergency"; "Surgical"; "Preventive"]);
         ("reason_code", choice ["R10"; "R20"; "R30"; "R40"]);
         ("reason_description", choice ["Abdominal Pain"; "Skin Rash"; "Fever"; "Chest Pain"]);
         ("cost_category", choice ["low"; "medium"; "high"]);
         ("duration_minutes", randint 15 480);
         ("duration_hours", uniform 0.25 8);
         ("base_encounter_cost", uniform 100 5000);
         ("total_claim_cost", uniform 200 10000);
         ("payer_coverage", uniform 100 8000);
         ("patient_out_of_pocket", uniform 50 2000);
         ("payer_coverage_percentage", uniform 70 95);
         ("patient_id", randint_id "P" 5 0 1000);
         ("provider_id", randint_id "PR" 3 0 100);
         ("payer_id", randint_id "PY" 3 0 50);
         ("organization_id", randint_id "ORG" 2 0 20);
         ("age", randint 18 90);
         ("age_group", choice ["18-30"; "31-45"; "46-60"; "61-75"; "75+"]);
         ("gender_full", choice ["Male"; "Female"]);
         ("state", choice ["MA"; "NY"; "CA"; "TX"; "FL"]);
         ("income_level", choice ["Very Low"; "Low"; "Medium"; "High"; "Very High"]);
         ("coverage_tier", choice ["Bronze"; "Silver"; "Gold"; "Platinum"])] ;;
      ret (append encounter_data row)) [] ;;
  let encounter_df := of_records encounter_data in
  (* Mock claims data *)
  claims_data <-
    for_in (range 2000) (fun i claims_data =>
      row <- dict_display
        [("claim_id", const (CStr ("C" ++ format_0d 5 i)));
         ("patient_id", randint_id "P" 5 0 1000);
         ("provider_id", randint_id "PR" 3 0 100);
         ("service_date", now_minus_random_days 0 730);
         ("service_year", now_int ts_year);
         ("service_month", now_int ts_month);
         ("service_quarter", now_int (fun t => (ts_month t - 1) / 3 + 1));
         ("current_illness_date", now_minus_random_days 1 30);
         ("primary_insurance_id", randint_id "INS" 3 0 50);
         ("secondary_insurance_id", randint_id "INS" 3 0 50);
         ("insurance_coverage_type", choice ["PPO"; "HMO"; "POS"; "EPO"]);
         ("primary_status", choice ["Pending"; "Approved"; "Denied"; "In Review"]);
         ("secondary_status", choice ["Pending"; "Approved"; "Denied"; "In Review"]);
         ("patient_status", choice ["Pending"; "Approved"; "Denied"; "In Review"]);
         ("primary_outstanding", uniform 0 5000);
         ("secondary_outstanding", uniform 0 3000);
         ("patient_outstanding", uniform 0 2000);
         ("total_outstanding", uniform 0 10000);
         ("outstanding_risk_level", choice ["Low Risk"; "Medium Risk"; "High Risk"]);
         ("primary_last_billed_date", now_minus_random_days 1 90);
         ("secondary_last_billed_date", now_minus_random_days 1 90);
         ("patient_last_billed_date", now_minus_random_days 1 90);
         ("primary_claim_type", choice ["Medical"; "Dental"; "Vision"; "Pharmacy"]);
         ("secondary_claim_type", choice ["Medical"; "Dental"; "Vision"; "Pharmacy"]);
         ("age", randint 18 90);
         ("age_group", choice ["18-30"; "31-45"; "46-60"; "61-75"; "75+"]);
         ("gender_full", choice ["Male"; "Female"]);
         ("state", choice ["MA"; "NY"; "CA"; "TX"; "FL"]);
         ("income_level", choice ["Very Low"; "Low"; "Medium"; "High"; "Very High"]);
         ("coverage_tier", choice ["Bronze"; "Silver"; "Gold"; "Platinum"]);
         ("diagnosis1", choice ["R10"; "R20"; "R30"; "R40"]);
         ("diagnosis2", choice ["R10"; "R20"; "R30"; "R40"]);
         ("diagnosis3", choice ["R10"; "R20"; "R30"; "R40"]);
         ("diagnosis4", choice ["R10"; "R20"; "R30"; "R40"]);
         ("diagnosis5", choice ["R10"; "R20"; "R30"; "R40"]);
         ("diagnosis6", choice ["R10"; "R20"; "R30"; "R40"]);
         ("diagnosis7", choice ["R10"; "R20"; "R30"; "R40"]);
         ("diagnosis8", choice ["R10"; "R20"; "R30"; "R40"]);
         ("diagnosis_count", randint 1 8)] ;;
      ret (append claims_data row)) [] ;;
  let claims_df := of_records claims_data in
  (* Mock financial insights data *)
  financial_data <-
    for_in (range 1000) (fun i financial_data =>
      row <- dict_display
        [("encounter_date", now_minus_random_days 0 730);
         ("encounter_year", now_int ts_year);
         ("encounter_month", now_int ts_month);
         ("encounter_quarter", now_int (fun t => (ts_month t - 1) / 3 + 1));
         ("encounter_class", choice ["ambulatory"; "emergency"; "inpatient"; "wellness"]);
         ("cost_category", choice ["low"; "medium"; "high"]);
         ("patient_id", randint_id "P" 5 0 1000);
         ("provider_id", randint_id "PR" 3 0 100);
         ("payer_id", randint_id "PY" 3 0 50);
         ("base_encounter_cost", uniform 100 5000);
         ("total_claim_cost", uniform 200 10000);
         ("payer_coverage", uniform 100 8000);
         ("patient_out_of_pocket", uniform 50 2000);
         ("payer_coverage_percentage", uniform 70 95);
         ("state", choice ["MA"; "NY"; "CA"; "TX"; "FL"]);
         ("county", choice ["Suffolk"; "Middlesex"; "Essex"; "Norfolk"; "Bristol"]);
         ("age_group", choice ["18-30"; "31-45"; "46-60"; "61-75"; "75+"]);
         ("gender_full", choice ["Male"; "Female"]);
         ("income_level", choice ["Very Low"; "Low"; "Medium"; "High"; "Very High"]);
         ("income", uniform 20000 200000);
         ("healthcare_expenses", uniform 1000 50000);
         ("healthcare_coverage", uniform 0.5 1.0);
         ("total_claim_outstanding", uniform 0 10000);
         ("total_claims", randint 1 20);
         ("monthly_total_revenue", uniform 500000 2000000);
         ("monthly_payer_coverage", uniform 400000 1500000);
         ("monthly_patient_payment", uniform 100000 500000);
         ("state_total_revenue", uniform 1000000 5000000);
         ("state_payer_coverage", uniform 800000 4000000);
         ("state_patient_payment", uniform 200000 1000000);
         ("class_total_revenue", uniform 500000 2000000);
         ("payer_total_revenue", uniform 200000 1000000);
         ("monthly_payer_coverage", uniform 400000 1500000);
         ("monthly_patient_payment", uniform 100000 500000);
         ("avg_coverage_by_payer", uniform 70 95);
         ("avg_coverage_by_income", uniform 70 95);
         ("avg_coverage_by_age", uniform 70 95);
         ("avg_cost_by_class", uniform 200 1000);
         ("avg_cost_by_provider", uniform 200 1000);
         ("patient_burden_percentage", uniform 1 20);
         ("financial_burden_category", choice ["Low Burden"; "Medium Burden"; "High Burden"])] ;;
      ret (append financial_data row)) [] ;;
  let financial_df := of_records financial_data in
  (* Mock geographic analysis data *)
  let states := ["MA"; "NY"; "CA"; "TX"; "FL"] in
  geo_data <-
    for_in states (fun state geo_data =>
      for_in ["Suffolk"; "Middlesex"; "Essex"; "Norfolk"; "Bristol"]
        (fun county geo_data =>
          for_in ["Boston"; "NYC"; "Los Angeles"; "Houston"; "Miami"]
            (fun city geo_data =>
              row <- dict_display
                [("state", const (CStr state));
                 ("county", const (CStr county));
                 ("city", const (CStr city));
                 ("patient_count", randint 100 5000);
                 ("avg_age", uniform 30 70);
                 ("avg_income", uniform 30000 150000);
                 ("avg_coverage_rate", uniform 0.7 0.95);
                 ("total_expenses", uniform 100000 5000000);
                 ("avg_expenses_per_patient", uniform 1000 10000);
                 ("encounter_count", randint 500 25000);
                 ("total_medical_costs", uniform 200000 10000000);
                 ("avg_cost_per_encounter", uniform 200 1000);
                 ("total_insurance_paid", uniform 150000 8000000);
                 ("total_patient_paid", uniform 50000 2000000);
                 ("avg_coverage_percentage", uniform 70 95);
                 ("unique_encounter_patients", randint 400 4000);
                 ("claim_count", randint 200 10000);
                 ("total_outstanding", uniform 10000 500000);
                 ("avg_outstanding_per_claim", uniform 50 500);
                 ("unique_claim_patients", randint 150 3000);
                 ("encounters_per_patient", uniform 1 10);
                 ("medical_cost_per_patient", uniform 1000 20000);
                 ("outstanding_per_patient", uniform 50 1000);
                 ("outstanding_percentage", uniform 5 30);
                 ("geographic_risk_level", choice ["Low Risk"; "Medium Risk"; "High Risk"])] ;;
              ret (append geo_data row)) geo_data) geo_data) [] ;;
  let geo_df := of_records geo_data in
  ret (Some exec_df, Some patient_df, Some encounter_df, Some claims_df,
       Some financial_df, Some geo_df).

(** The six loader calls that open [load_healthcare_dashboard_data]. *)
Definition healthcare_loaders : M HealthcareBundle :=
  exec_df <- load_executive_dashboard_data ;;
  patient_df <- load_patient_demographics_data ;;
  encounter_df <- load_encounter_analysis_data ;;
  claims_df <- load_claims_management_data ;;
  financial_df <- load_financial_insights_data ;;
  geo_df <- load_geographic_analysis_data ;;
  ret (exec_df, patient_df, encounter_df, claims_df, financial_df, geo_df).

(** [df.columns = df.columns.str.lower()] on what a loader returned; on
    [None] the attribute access raises. *)
Definition lower_columns (df : option DataFrame) : M (option DataFrame) :=
  match df with
  | Some d =>
      d' <- lift (set_columns d (columns_str_lower d)) ;; ret (Some d')
  | None => raise (AttributeError "'NoneType' object has no attribute 'columns'")
  end.

(** The body of [load_healthcare_dashboard_data], before the decorator. *)
Definition load_healthcare_dashboard_data_body : M HealthcareBundle :=
  loaded <- healthcare_loaders ;;
  let '(exec_df, patient_df, encounter_df, claims_df, financial_df,
        geo_df) := loaded in
  if forallb is_not_None
       [exec_df; patient_df; encounter_df; claims_df; financial_df; geo_df]
  then
    (* Standardize all column names to lowercase for consistency *)
    exec_df <- lower_columns exec_df ;;
    patient_df <- lower_columns patient_df ;;
    encounter_df <- lower_columns encounter_df ;;
    claims_df <- lower_columns claims_df ;;
    financial_df <- lower_columns financial_df ;;
    geo_df <- lower_columns geo_df ;;
    ret (exec_df, patient_df, encounter_df, claims_df, financial_df, geo_df)
  else healthcare_mock_data.

(** [@st.cache_data(ttl=15 * 60) def load_healthcare_dashboard_data(): ...]. *)
Definition load_healthcare_dashboard_data : M HealthcareBundle :=
  Streamlit.cache_data (15 * 60) Streamlit.healthcare_slot
                       load_healthcare_dashboard_data_body.


(** *** Sections of the AWS + OpenFDA page

    The variables of the page hold what the bundle loader returned, so a
    section receives a table or [None]; an attribute of [None] raises.
    The layout containers ([st.columns], [st.tabs]) only place the
    elements and are left out. *)
Definition attr {A} (x : option A) (name : string) : M A :=
  match x with
  | Some a => ret a
  | None => raise (AttributeError
                     ("'NoneType' object has no attribute '" ++ name ++ "'"))
  end.

(** Manual mapping from 2-letter to 3-letter ISO codes. *)
Definition code_mapping : list (string * string) :=
  [("US", "USA"); ("GB", "GBR"); ("CA", "CAN"); ("AU", "AUS"); ("DE", "DEU");
   ("FR", "FRA"); ("JP", "JPN"); ("IT", "ITA"); ("ES", "ESP"); ("BR", "BRA");
   ("CN", "CHN"); ("IN", "IND"); ("MX", "MEX"); ("RU", "RUS"); ("ZA", "ZAF");
   ("KR", "KOR"); ("NL", "NLD"); ("CH", "CHE"); ("SE", "SWE"); ("AR", "ARG")].

(** "Global Report Distribution": the choropleth map and the heatmap
    table. *)
Definition global_report_distribution (global_dist_df : option DataFrame)
  : M unit :=
  Streamlit.markdown "#### Global Report Distribution" ;;;
  map_df <- attr global_dist_df "copy" ;;
  codes <- lift (getitem map_df "occurcountry") ;;
  map_df <- lift (setitem map_df "iso_alpha" (series_map code_mapping codes)) ;;
  (* tab1 *)
  located <- lift (dropna map_df "iso_alpha") ;;
  fig_map <- lift (px located
                      ["iso_alpha"; "report_count"; "occurcountry";
                       "serious_reports"; "fatal_reports"]
                      (Choropleth located "iso_alpha" "report_count"
                         "occurcountry" ["serious_reports"; "fatal_reports"]
                         "Global Distribution of Adverse Event Reports")) ;;
  Streamlit.plotly_chart fig_map ;;;
  (* tab2 *)
  Streamlit.markdown "Top 15 Countries by Report Metrics" ;;;
  top <- attr global_dist_df "head" ;;
  heatmap_df <- lift (set_index (head 15 top) "occurcountry") ;;
  view <- lift (indexed_select heatmap_df
                  ["report_count"; "serious_reports"; "fatal_reports"]) ;;
  Streamlit.write (StyledView view "Reds").

(** "Report Type Distribution": the pie chart of the latest week. *)
Definition report_type_distribution (trends_df : option DataFrame)
  : M unit :=
  Streamlit.markdown "#### Report Type Distribution" ;;;
  (* Check if trends_df is not empty before accessing the last row *)
  trends <- attr trends_df "empty" ;;
  if negb (empty trends) then
    latest_week <- lift (iloc_last trends) ;;
    total <- lift (row_getitem latest_week "total_reports") ;;
    serious <- lift (row_getitem latest_week "serious_reports") ;;
    fatal <- lift (row_getitem latest_week "fatal_reports") ;;
    hospitalization <-
      lift (row_getitem latest_week "hospitalization_reports") ;;
    trend_data <- lift (of_columns
      [("Report Type", [CStr "Total Reports"; CStr "Serious Reports";
                        CStr "Fatal Reports"; CStr "Hospitalization Reports"]);
       ("Count", [total; serious; fatal; hospitalization])]) ;;
    fig_pie <- lift (px trend_data ["Count"; "Report Type"]
                        (Pie trend_data "Count" "Report Type"
                             "Latest Week Report Distribution" 0.3)) ;;
    Streamlit.plotly_chart fig_pie
  else
    Streamlit.warning "No trend data available for visualization".

(** "Suspect Drugs Recovery Rate". *)
Definition suspect_drugs_recovery_rate (suspect_drugs_df : option DataFrame)
  : M unit :=
  Streamlit.markdown "#### Suspect Drugs Recovery Rate" ;;;
  suspects <- attr suspect_drugs_df "head" ;;
  let top_suspect := head 10 suspects in
  recovered <- lift (getitem top_suspect "recovered_count") ;;
  reports <- lift (getitem top_suspect "report_count") ;;
  ratio <- lift (series_truediv recovered reports) ;;
  percent <- lift (series_mul ratio 100) ;;
  recovery_rate <- lift (series_round percent 1) ;;
  top_suspect <- lift (setitem top_suspect "recovery_rate" recovery_rate) ;;
  fig_recovery <- lift (px top_suspect ["medicinalproduct"; "recovery_rate"]
                           (Bar top_suspect "medicinalproduct"
                                ["recovery_rate"]
                                "Recovery Rate by Suspect Drug"
                                (Some "recovery_rate"))) ;;
  Streamlit.plotly_chart fig_recovery.

End App.

(* ===================================================================== *)
(** ** The shape of the mock tables *)
(* ===================================================================== *)

(** The column labels and row counts that the fallback blocks are written to
    produce, table by table. *)
Module Schema.

Definition volume_columns : list string :=
  ["total_reports"; "serious_reports"; "fatal_reports";
   "countries_affected"; "report_month"].

Definition top_drugs_columns : list string :=
  ["medicinalproduct"; "generic_name"; "report_count"; "recovered_count";
   "fatal_count"; "avg_age"; "male_count"; "female_count"].

Definition global_dist_columns : list string :=
  ["occurcountry"; "report_count"; "serious_reports"; "fatal_reports";
   "unique_serious_reports"].

Definition trends_columns : list string :=
  ["receivedate"; "total_reports"; "serious_reports"; "fatal_reports";
   "hospitalization_reports"].

Definition suspect_drugs_columns : list string :=
  ["medicinalproduct"; "generic_name"; "drugcharacterization";
   "report_count"; "recovered_count"; "fatal_count"; "unique_reports"].

Definition exec_columns : list string :=
  ["month_date"; "year"; "month"; "encounter_count"; "unique_patients";
   "total_revenue"; "avg_cost_per_encounter"; "total_payer_coverage";
   "total_patient_payment"; "avg_coverage_percentage"; "encounter_class";
   "cost_category"; "encounter_day_name"; "state"].

Definition patient_columns : list string :=
  ["patient_id"; "full_name"; "age"; "age_group"; "gender"; "gender_full";
   "race"; "ethnicity"; "marital_status"; "state"; "county"; "city"; "zip";
   "income"; "income_level"; "healthcare_expenses"; "healthcare_coverage";
   "coverage_tier"; "is_alive"; "total_encounters"; "total_medical_costs";
   "avg_cost_per_encounter"; "total_out_of_pocket"].

Definition encounter_columns : list string :=
  ["encounter_id"; "encounter_date"; "encounter_year"; "encounter_month";
   "encounter_quarter"; "encounter_day_of_week"; "encounter_day_name";
   "encounter_class"; "encounter_code"; "encounter_description";
   "reason_code"; "reason_description"; "cost_category";
   "duration_minutes"; "duration_hours"; "base_encounter_cost";
   "total_claim_cost"; "payer_coverage"; "patient_out_of_pocket";
   "payer_coverage_percentage"; "patient_id"; "provider_id"; "payer_id";
   "organization_id"; "age"; "age_group"; "gender_full"; "state";
   "income_level"; "coverage_tier"].

Definition claims_columns : list string :=
  ["claim_id"; "patient_id"; "provider_id"; "service_date"; "service_year";
   "service_month"; "service_quarter"; "current_illness_date";
   "primary_insurance_id"; "secondary_insurance_id";
   "insurance_coverage_type"; "primary_status"; "secondary_status";
   "patient_status"; "primary_outstanding"; "secondary_outstanding";
   "patient_outstanding"; "total_outstanding"; "outstanding_risk_level";
   "primary_last_billed_date"; "secondary_last_billed_date";
   "patient_last_billed_date"; "primary_claim_type";
   "secondary_claim_type"; "age"; "age_group"; "gender_full"; "state";
   "income_level"; "coverage_tier"; "diagnosis1"; "diagnosis2";
   "diagnosis3"; "diagnosis4"; "diagnosis5"; "diagnosis6"; "diagnosis7";
   "diagnosis8"; "diagnosis_count"].

Definition financial_columns : list string :=
  ["encounter_date"; "encounter_year"; "encounter_month";
   "encounter_quarter"; "encounter_class"; "cost_category"; "patient_id";
   "provider_id"; "payer_id"; "base_encounter_cost"; "total_claim_cost";
   "payer_coverage"; "patient_out_of_pocket"; "payer_coverage_percentage";
   "state"; "county"; "age_group"; "gender_full"; "income_level"; "income";
   "healthcare_expenses"; "healthcare_coverage"; "total_claim_outstanding";
   "total_claims"; "monthly_total_revenue"; "monthly_payer_coverage";
   "monthly_patient_payment"; "state_total_revenue";
   "state_payer_coverage"; "state_patient_payment"; "class_total_revenue";
   "payer_total_revenue"; "avg_coverage_by_payer";
   "avg_coverage_by_income"; "avg_coverage_by_age"; "avg_cost_by_class";
   "avg_cost_by_provider"; "patient_burden_percentage";
   "financial_burden_category"].

Definition geo_columns : list string :=
  ["state"; "county"; "city"; "patient_count"; "avg_age"; "avg_income";
   "avg_coverage_rate"; "total_expenses"; "avg_expenses_per_patient";
   "encounter_count"; "total_medical_costs"; "avg_cost_per_encounter";
   "total_insurance_paid"; "total_patient_paid"; "avg_coverage_percentage";
   "unique_encounter_patients"; "claim_count"; "total_outstanding";
   "avg_outstanding_per_claim"; "unique_claim_patients";
   "encounters_per_patient"; "medical_cost_per_patient";
   "outstanding_per_patient"; "outstanding_percentage";
   "geographic_risk_level"].

(** A bundle member that is a table with these labels and this many rows,
    every column filled. *)
Definition shaped (labels : list string) (n : nat) (df : option DataFrame)
  : Prop :=
  match df with
  | Some d => columns d = labels /\ nrows d = n /\ well_formed d
  | None => False
  end.

Definition fda_shaped (b : FdaBundle) : Prop :=
  let '(volume_df, top_drugs_df, global_dist_df, trends_df,
        suspect_drugs_df) := b in
  shaped volume_columns 12 volume_df
  /\ shaped top_drugs_columns 10 top_drugs_df
  /\ shaped global_dist_columns 10 global_dist_df
  /\ shaped trends_columns 26 trends_df
  /\ shaped suspect_drugs_columns 8 suspect_drugs_df.

Definition healthcare_shaped (b : HealthcareBundle) : Prop :=
  let '(exec_df, patient_df, encounter_df, claims_df, financial_df,
        geo_df) := b in
  shaped exec_columns 24 exec_df
  /\ shaped patient_columns 1000 patient_df
  /\ shaped encounter_columns 5000 encounter_df
  /\ shaped claims_columns 2000 claims_df
  /\ shaped financial_columns 1000 financial_df
  /\ shaped geo_columns 125 geo_df.

End Schema.

(* ===================================================================== *)
(** ** Reasoning about scripts *)
(* ===================================================================== *)

(** [returns m P]: wherever it is run, [m] returns (it does not raise) and
    what it returns satisfies [P]. *)
Definition returns {A} (m : M A) (P : A -> Prop) : Prop :=
  forall w s, exists a s', m w s = (inr a, s') /\ P a.

Definition total {A} (m : M A) : Prop := returns m (fun _ => True).

Lemma returns_ret {A} (a : A) (P : A -> Prop) : P a -> returns (ret a) P.
Proof. intros H w s. exists a, s. split; [reflexivity | exact H]. Qed.

Lemma returns_bind {A B} (m : M A) (k : A -> M B) (Q : A -> Prop)
      (P : B -> Prop) :
  returns m Q -> (forall a, Q a -> returns (k a) P) -> returns (bind m k) P.
Proof.
  intros Hm Hk w s.
  destruct (Hm w s) as (a & s1 & E1 & Qa).
  destruct (Hk a Qa w s1) as (b & s2 & E2 & Pb).
  exists b, s2. unfold bind. rewrite E1. split; assumption.
Qed.

Lemma returns_weaken {A} (m : M A) (P Q : A -> Prop) :
  returns m P -> (forall a, P a -> Q a) -> returns m Q.
Proof.
  intros Hm HPQ w s. destruct (Hm w s) as (a & s' & E & Pa).
  exists a, s'. split; [exact E | apply HPQ, Pa].
Qed.

Lemma total_bind {A B} (m : M A) (k : A -> M B) :
  total m -> (forall a, total (k a)) -> total (bind m k).
Proof.
  intros Hm Hk. apply returns_bind with (Q := fun _ => True); [exact Hm |].
  intros a _. apply Hk.
Qed.

Lemma total_ret {A} (a : A) : total (ret a).
Proof. apply returns_ret. exact I. Qed.

(** A loop keeps an invariant that each iteration carries one step on. *)
Lemma returns_for_in {A S} (xs : list A) (body : A -> S -> M S)
      (I : nat -> S -> Prop) :
  (forall k x acc, In x xs -> I k acc -> returns (body x acc) (I (Datatypes.S k))) ->
  forall acc, I O acc -> returns (for_in xs body acc) (I (List.length xs)).
Proof.
  revert I. induction xs as [| x xs IH]; intros I Hbody acc H0; simpl.
  - apply returns_ret. exact H0.
  - apply returns_bind with (Q := I 1%nat).
    + apply Hbody; [left; reflexivity | exact H0].
    + intros acc' H1.
      apply (IH (fun k => I (Datatypes.S k))); [| exact H1].
      intros k y acc'' Hy Hk. apply Hbody; [right; exact Hy | exact Hk].
Qed.

(** *** The primitives never raise on the arguments the script gives them *)

Lemma total_next_raw : total Numpy.next_raw.
Proof. intros w s. eexists _, _. split; [reflexivity | exact I]. Qed.

Lemma total_Numpy_randint low high :
  (low <? high) = true -> total (Numpy.randint low high).
Proof.
  intros H. unfold Numpy.randint. rewrite H.
  apply total_bind; [apply total_next_raw | intros; apply total_ret].
Qed.

Lemma total_Numpy_uniform low high : total (Numpy.uniform low high).
Proof.
  apply total_bind; [apply total_next_raw | intros; apply total_ret].
Qed.

Lemma total_Numpy_choice options :
  options <> [] -> total (Numpy.choice options).
Proof.
  destruct options as [| o os]; [congruence |]. intros _.
  apply total_bind; [apply total_next_raw | intros; apply total_ret].
Qed.

Lemma total_Timestamp_now : total Timestamp_now.
Proof. intros w s. eexists _, _. split; [reflexivity | exact I]. Qed.

Lemma total_write e : total (Streamlit.write e).
Proof. intros w s. eexists _, _. split; [reflexivity | exact I]. Qed.

Lemma total_randint low high : (low <? high) = true -> total (App.randint low high).
Proof.
  intros H. apply total_bind; [apply total_Numpy_randint, H | intros; apply total_ret].
Qed.

Lemma total_uniform low high : total (App.uniform low high).
Proof.
  apply total_bind; [apply total_Numpy_uniform | intros; apply total_ret].
Qed.

Lemma total_choice options : options <> [] -> total (App.choice options).
Proof.
  intros H. apply total_bind; [apply total_Numpy_choice, H | intros; apply total_ret].
Qed.

Lemma total_const c : total (App.const c).
Proof. apply total_ret. Qed.

Lemma total_randint_id prefix n low high :
  (low <? high) = true -> total (App.randint_id prefix n low high).
Proof.
  intros H. apply total_bind; [apply total_Numpy_randint, H | intros; apply total_ret].
Qed.

Lemma total_now_minus_random_days low high :
  (low <? high) = true -> total (App.now_minus_random_days low high).
Proof.
  intros H. apply total_bind; [apply total_Timestamp_now | intros t].
  apply total_bind; [apply total_Numpy_randint, H | intros; apply total_ret].
Qed.

Lemma total_now_int f : total (App.now_int f).
Proof.
  apply total_bind; [apply total_Timestamp_now | intros; apply total_ret].
Qed.

Lemma total_now_minus_months i : total (App.now_minus_months i).
Proof.
  apply total_bind; [apply total_Timestamp_now | intros; apply total_ret].
Qed.

Create HintDb script discriminated.
#[export] Hint Resolve total_randint total_uniform total_choice total_const
  total_randint_id total_now_minus_random_days total_now_int
  total_now_minus_months : script.
#[export] Hint Extern 1 ((_ <? _) = true) => reflexivity : script.
#[export] Hint Extern 1 (_ <> []) => discriminate : script.

(** *** Dicts, records and the frame built from them *)

Lemma keys_assign (d : dict) k v : keys (dict_set d k v) = add_label (keys d) k.
Proof.
  unfold dict_set, add_label, keys.
  induction d as [| [k' v'] d IH]; simpl; [reflexivity |].
  destruct (String.eqb k k'); simpl; [reflexivity |].
  rewrite IH. destruct (existsb (String.eqb k) (map fst d)); reflexivity.
Qed.

(** A dict display whose value expressions all return yields a dict whose
    keys are the display's keys, in order of first appearance. *)
Lemma returns_dict_display_from items :
  Forall (fun it => total (snd it)) items ->
  forall d,
    returns (dict_display_from d items)
            (fun d' => keys d' = fold_left add_label (map fst items) (keys d)).
Proof.
  induction 1 as [| [k e] items He _ IH]; intros d; simpl.
  - apply returns_ret. reflexivity.
  - apply returns_bind with (Q := fun _ => True); [exact He |].
    intros v _. eapply returns_weaken; [apply IH |].
    intros d' E. rewrite E, keys_assign. reflexivity.
Qed.

Lemma returns_dict_display items labels :
  Forall (fun it => total (snd it)) items ->
  fold_left add_label (map fst items) [] = labels ->
  returns (dict_display items) (fun d => keys d = labels).
Proof.
  intros Ht El. eapply returns_weaken; [apply returns_dict_display_from, Ht |].
  simpl. intros d E. rewrite E. exact El.
Qed.

Lemma add_label_known acc k : In k acc -> add_label acc k = acc.
Proof.
  intros H. unfold add_label.
  replace (existsb (String.eqb k) acc) with true; [reflexivity |].
  symmetry. apply existsb_exists. exists k. split; [exact H | apply String.eqb_refl].
Qed.

Lemma fold_add_label_known ks acc :
  incl ks acc -> fold_left add_label ks acc = acc.
Proof.
  induction ks as [| k ks IH]; intros H; simpl; [reflexivity |].
  rewrite add_label_known by (apply H; left; reflexivity).
  apply IH. intros x Hx. apply H. right. exact Hx.
Qed.

(** The labels that a row leaves behind: its own keys, once each. *)
Definition labels_of (ks : list string) : list string := fold_left add_label ks [].

Lemma add_label_incl acc k : incl acc (add_label acc k) /\ In k (add_label acc k).
Proof.
  unfold add_label. destruct (existsb (String.eqb k) acc) eqn:E.
  - split; [apply incl_refl |].
    apply existsb_exists in E. destruct E as (x & Hx & Ex).
    apply String.eqb_eq in Ex. subst. exact Hx.
  - split; [apply incl_appl, incl_refl | apply in_or_app; right; left; reflexivity].
Qed.

Lemma fold_add_label_incl ks acc :
  incl acc (fold_left add_label ks acc) /\ incl ks (fold_left add_label ks acc).
Proof.
  revert acc. induction ks as [| k ks IH]; intros acc; simpl.
  - split; [apply incl_refl | intros x []].
  - destruct (IH (add_label acc k)) as [H1 H2].
    destruct (add_label_incl acc k) as [H3 H4]. split.
    + eapply incl_tran; eassumption.
    + intros x [<- | Hx]; [apply H1, H4 | apply H2, Hx].
Qed.

(** Records that all carry the keys [ks]: the frame has one row per record
    and the labels of [ks]. *)
Lemma union_keys_same ks records acc :
  Forall (fun d => keys d = ks) records ->
  incl ks acc ->
  fold_left (fun acc d => fold_left add_label (keys d) acc) records acc = acc.
Proof.
  induction 1 as [| d records Hd _ IH]; intros Hacc; simpl; [reflexivity |].
  rewrite Hd, fold_add_label_known by exact Hacc. apply IH, Hacc.
Qed.

Lemma of_records_shape ks records :
  Forall (fun d => keys d = ks) records ->
  records <> [] ->
  columns (of_records records) = labels_of ks
  /\ nrows (of_records records) = List.length records
  /\ well_formed (of_records records).
Proof.
  intros Hk Hne. unfold columns, of_records, well_formed; simpl.
  rewrite map_map; simpl. rewrite map_id. split; [| split].
  - destruct Hk as [| d records Hd Hk]; [congruence |].
    unfold union_keys; simpl. rewrite Hd.
    apply (union_keys_same ks); [exact Hk |].
    apply (fold_add_label_incl ks []).
  - reflexivity.
  - apply Forall_map. apply Forall_forall. intros l _. simpl.
    apply length_map.
Qed.

(** *** Loops that append rows *)

Section RowLoops.

Variable ks : list string.

Let rows_ok (data : list dict) : Prop := Forall (fun d => keys d = ks) data.

(** [row = {...}; data.append(row)]. *)
Lemma returns_append_row (row : M dict) (data : list dict) :
  returns row (fun d => keys d = ks) ->
  rows_ok data ->
  returns (r <- row ;; ret (append data r))
          (fun data' => List.length data' = (List.length data + 1)%nat
                        /\ rows_ok data').
Proof.
  intros Hrow Hdata. eapply returns_bind; [exact Hrow |].
  intros d Hd. apply returns_ret. unfold append. split.
  - apply length_app.
  - apply Forall_app. split; [exact Hdata | repeat constructor; exact Hd].
Qed.

(** A loop whose every iteration adds [c] rows adds [c] rows per element. *)
Lemma returns_block_loop {A} (xs : list A)
      (body : A -> list dict -> M (list dict)) (c : nat) :
  (forall x data, rows_ok data ->
     returns (body x data)
             (fun data' => List.length data' = (List.length data + c)%nat
                           /\ rows_ok data')) ->
  forall data, rows_ok data ->
    returns (for_in xs body data)
            (fun data' =>
               List.length data' = (List.length data + c * List.length xs)%nat
               /\ rows_ok data').
Proof.
  intros Hbody data Hdata.
  eapply returns_weaken.
  - apply (returns_for_in xs body
             (fun k acc => List.length acc = (List.length data + c * k)%nat
                           /\ rows_ok acc)).
    + intros k x acc _ [Hl Hr]. eapply returns_weaken; [apply Hbody, Hr |].
      simpl. intros data' [Hl' Hr']. split; [lia | exact Hr'].
    + split; [lia | exact Hdata].
  - simpl. intros data' H. exact H.
Qed.

(** The plain loop of the fallback blocks: start from the empty list,
    append one row per element. *)
Lemma returns_rows_loop {A} (xs : list A) (row : A -> M dict) (n : nat) :
  (forall x, returns (row x) (fun d => keys d = ks)) ->
  List.length xs = n ->
  returns (for_in xs (fun x data => r <- row x ;; ret (append data r)) [])
          (fun data => List.length data = n /\ rows_ok data).
Proof.
  intros Hrow Hn. eapply returns_weaken.
  - apply (returns_block_loop xs _ 1); [| constructor].
    intros x data Hdata. apply returns_append_row; [apply Hrow | exact Hdata].
  - simpl. intros data [Hl Hr]. split; [lia | exact Hr].
Qed.

(** The frame built from what such a loop collected. *)
Lemma shaped_of_records labels n (data : list dict) :
  labels_of ks = labels ->
  (0 < n)%nat ->
  List.length data = n /\ rows_ok data ->
  Schema.shaped labels n (Some (of_records data)).
Proof.
  intros El Hn [Hlen Hdata].
  destruct (of_records_shape ks data Hdata) as (Hc & Hr & Hw).
  - intros ->. simpl in Hlen. lia.
  - unfold Schema.shaped. subst labels.
    split; [exact Hc | split; [rewrite Hr; exact Hlen | exact Hw]].
Qed.

End RowLoops.

Ltac all_total :=
  repeat (apply Forall_cons; [simpl; auto with script |]); apply Forall_nil.

Lemma length_range n : List.length (range n) = n.
Proof. unfold range. rewrite length_map. apply length_seq. Qed.

(** One plain loop of a fallback block, with the labels its rows carry and
    the number of its iterations. *)
Ltac mock_rows labels count :=
  apply (returns_rows_loop labels _ _ count);
  [ intros ?; apply returns_dict_display; [all_total | vm_compute; reflexivity]
  | first [apply length_range | reflexivity] ].

Ltac mock_shape :=
  match goal with
  | |- Schema.shaped ?labels _ _ =>
      apply (shaped_of_records labels);
      [ vm_compute; reflexivity | apply Nat.ltb_lt; vm_compute; reflexivity
      | assumption ]
  end.

Lemma fda_mock_data_shaped : returns App.fda_mock_data Schema.fda_shaped.
Proof.
  unfold App.fda_mock_data.
  apply returns_bind with (Q := fun _ => True); [apply total_write | intros _ _].
  apply returns_bind with (Q := fun _ => True); [apply total_Timestamp_now | intros now _].
  cbv zeta.
  eapply returns_bind; [mock_rows Schema.volume_columns 12%nat | intros volume_data Hv].
  eapply returns_bind; [mock_rows Schema.top_drugs_columns 10%nat | intros top_drugs_data Ht].
  eapply returns_bind; [mock_rows Schema.global_dist_columns 10%nat | intros global_dist_data Hg].
  apply returns_bind with (Q := fun _ => True); [apply total_Timestamp_now | intros now' _].
  eapply returns_bind; [mock_rows Schema.trends_columns 26%nat | intros trends_data Htr].
  eapply returns_bind; [mock_rows Schema.suspect_drugs_columns 8%nat | intros suspect_drugs_data Hs].
  apply returns_ret. unfold Schema.fda_shaped.
  split; [| split; [| split; [| split]]]; mock_shape.
Qed.

Lemma healthcare_mock_data_shaped :
  returns App.healthcare_mock_data Schema.healthcare_shaped.
Proof.
  unfold App.healthcare_mock_data.
  apply returns_bind with (Q := fun _ => True); [apply total_write | intros _ _].
  cbv zeta.
  eapply returns_bind; [mock_rows Schema.exec_columns 24%nat | intros exec_data He].
  eapply returns_bind; [mock_rows Schema.patient_columns 1000%nat | intros patient_data Hp].
  eapply returns_bind; [mock_rows Schema.encounter_columns 5000%nat | intros encounter_data Hen].
  eapply returns_bind; [mock_rows Schema.claims_columns 2000%nat | intros claims_data Hc].
  eapply returns_bind; [mock_rows Schema.financial_columns 1000%nat | intros financial_data Hf].
  apply returns_bind
    with (Q := fun data => List.length data = 125%nat
                           /\ Forall (fun d => keys d = Schema.geo_columns) data).
  - eapply returns_weaken.
    + apply (returns_block_loop Schema.geo_columns) with (c := 25%nat) (data := []);
        [| constructor].
      intros state data Hd. eapply returns_weaken.
      * apply (returns_block_loop Schema.geo_columns) with (c := 5%nat); [| exact Hd].
        intros county data1 Hd1. eapply returns_weaken.
        -- apply (returns_block_loop Schema.geo_columns) with (c := 1%nat);
             [| exact Hd1].
           intros city data2 Hd2. apply returns_append_row; [| exact Hd2].
           apply returns_dict_display; [all_total | vm_compute; reflexivity].
        -- simpl. intros d' H. exact H.
      * simpl. intros d' H. exact H.
    + simpl. intros d' H. exact H.
  - intros geo_data Hg. apply returns_ret. unfold Schema.healthcare_shaped.
    split; [| split; [| split; [| split; [| split]]]]; mock_shape.
Qed.

(* ===================================================================== *)
(** ** The query executors *)
(* ===================================================================== *)

(** What the warehouse does with the next query sent from state [s]: the
    connection and the query, taken together. *)
Definition warehouse_outcome (w : World) (s : ScriptState) (wh : Warehouse)
           (query : string) (params : option (list cell)) : QueryOutcome :=
  match connect w wh (connections s) with
  | ConnRaises e => QueryRaises e
  | Connected q => q query params
  end.

(** What an executor hands back for an outcome. *)
Definition executor_result (o : QueryOutcome) : option DataFrame :=
  match o with
  | QueryRaises _ => None
  | QueryReturns (Some d) => if empty d then Some empty_frame else Some d
  | QueryReturns None => Some empty_frame
  end.

Lemma execute_redshift_query_result query params w s :
  fst (RedshiftConnection.execute_redshift_query query params w s)
  = inr (executor_result (warehouse_outcome w s Redshift query params)).
Proof.
  unfold RedshiftConnection.execute_redshift_query, warehouse_outcome,
    try_except, bind, Streamlit.connection, Streamlit.conn_query.
  destruct (connect w Redshift (connections s)) as [e | q]; [reflexivity |].
  destruct (q query params) as [e | [d |]]; try reflexivity.
  simpl. destruct (empty d); reflexivity.
Qed.

Lemma execute_snowflake_query_result query params w s :
  fst (SnowflakeConnection.execute_snowflake_query query params w s)
  = inr (executor_result (warehouse_outcome w s Snowflake query params)).
Proof.
  unfold SnowflakeConnection.execute_snowflake_query, warehouse_outcome,
    try_except, bind, Streamlit.connection, Streamlit.conn_query.
  destruct (connect w Snowflake (connections s)) as [e | q]; [reflexivity |].
  destruct (q query params) as [e | [d |]]; try reflexivity.
  simpl. destruct (empty d); reflexivity.
Qed.

Lemma executor_result_None o :
  executor_result o = None <-> exists e, o = QueryRaises e.
Proof.
  split.
  - destruct o as [e | [d |]]; simpl; intros H.
    + exists e. reflexivity.
    + destruct (empty d); discriminate.
    + discriminate.
  - intros [e ->]. reflexivity.
Qed.

Lemma executor_result_zero_rows d :
  nrows d = 0%nat -> executor_result (QueryReturns (Some d)) = Some empty_frame.
Proof.
  intros H. simpl. unfold empty. rewrite H. destruct (cols d); reflexivity.
Qed.

(** C2.  Each query executor, for every query string (and parameters),
    wherever it is run: it returns and never raises; what it returns is
    [None] exactly when the connection or the query raised; and a query that
    succeeds with zero rows comes back as the empty table, which is not
    [None] and has no rows. *)
Theorem C2_executors_report_failure_as_None :
  forall (query : string) (params : option (list cell))
         (w : World) (s : ScriptState),
    (exists r s',
        RedshiftConnection.execute_redshift_query query params w s = (inr r, s')
        /\ (r = None <->
            exists e, warehouse_outcome w s Redshift query params = QueryRaises e)
        /\ (forall d, warehouse_outcome w s Redshift query params
                      = QueryReturns (Some d) ->
                      nrows d = 0%nat ->
                      r = Some empty_frame /\ r <> None
                      /\ nrows empty_frame = 0%nat))
    /\
    (exists r s',
        SnowflakeConnection.execute_snowflake_query query params w s = (inr r, s')
        /\ (r = None <->
            exists e, warehouse_outcome w s Snowflake query params = QueryRaises e)
        /\ (forall d, warehouse_outcome w s Snowflake query params
                      = QueryReturns (Some d) ->
                      nrows d = 0%nat ->
                      r = Some empty_frame /\ r <> None
                      /\ nrows empty_frame = 0%nat)).
Proof.
  intros query params w s. split.
  - pose proof (execute_redshift_query_result query params w s) as H.
    destruct (RedshiftConnection.execute_redshift_query query params w s)
      as [r s'] eqn:E.
    simpl in H. subst r. eexists _, s'. split; [reflexivity |]. split.
    + apply executor_result_None.
    + intros d Hd Hz. rewrite Hd, executor_result_zero_rows by exact Hz.
      repeat split. discriminate.
  - pose proof (execute_snowflake_query_result query params w s) as H.
    destruct (SnowflakeConnection.execute_snowflake_query query params w s)
      as [r s'] eqn:E.
    simpl in H. subst r. eexists _, s'. split; [reflexivity |]. split.
    + apply executor_result_None.
    + intros d Hd Hz. rewrite Hd, executor_result_zero_rows by exact Hz.
      repeat split. discriminate.
Qed.





(* ===================================================================== *)
(** ** The success path of the bundle loaders *)
(* ===================================================================== *)


Definition lowered (d : DataFrame) : DataFrame :=
  mkDataFrame (nrows d) (combine (map str_lower (columns d)) (map snd (cols d))).

Lemma set_columns_lower d :
  set_columns d (columns_str_lower d) = inr (lowered d).
Proof.
  unfold set_columns, columns_str_lower, columns.
  rewrite !length_map, Nat.eqb_refl. reflexivity.
Qed.




Lemma lower_columns_Some d w s :
  App.lower_columns (Some d) w s = (inr (Some (lowered d)), s).
Proof.
  unfold App.lower_columns, bind, lift. rewrite set_columns_lower. reflexivity.
Qed.


(** *** Concrete worlds, used to run the script *)

Module Examples.

Definition sample_table : DataFrame :=
  mkDataFrame 2 [("PATIENT_ID", [CStr "P00001"; CStr "P00002"]);
                 ("Total_Cost", [CInt 120; CInt 75])].

(** Both warehouses answer every query with [sample_table]. *)
Definition all_up : World :=
  mkWorld (fun k => N.of_nat k)
          (fun _ => mkTimestamp 2025 1 15 0)
          (fun _ _ => Connected (fun _ _ => QueryReturns (Some sample_table))).

(** No warehouse can be reached. *)
Definition all_down : World :=
  mkWorld (fun k => N.of_nat k)
          (fun _ => mkTimestamp 2025 1 15 0)
          (fun _ _ => ConnRaises (DatabaseError "connection refused")).

(** The first two connections work, every later one fails. *)
Definition two_up_then_down : World :=
  mkWorld (fun k => N.of_nat k)
          (fun _ => mkTimestamp 2025 1 15 0)
          (fun _ k =>
             if Nat.ltb k 2
             then Connected (fun _ _ => QueryReturns (Some sample_table))
             else ConnRaises (DatabaseError "connection refused")).

(** A run that starts with nothing consumed, an empty page and empty
    memo tables. *)
Definition start : ScriptState := mkState 0 0 0 [] [] 0 None None.

End Examples.


(* ===================================================================== *)
(** ** Lower-case labels on the Snowflake page *)
(* ===================================================================== *)











(* ===================================================================== *)
(** ** The fallback path *)
(* ===================================================================== *)

(** C4.  Whatever the random generator draws and whatever the clock reads,
    each fallback block returns (it does not raise) a bundle whose every
    table has its fixed labels and its fixed number of rows ([Schema]): on
    the OpenFDA page 12, 10, 10, 26 and 8 rows, on the Synthea page 24, 1000,
    5000, 2000, 1000 and 125 rows.  In particular the mock volume table has
    exactly 12 rows and exactly the columns total_reports, serious_reports,
    fatal_reports, countries_affected and report_month. *)
Theorem C4_mock_tables_have_fixed_shape :
  forall w s,
    (exists b s', App.fda_mock_data w s = (inr b, s') /\ Schema.fda_shaped b)
    /\ (exists b s', App.healthcare_mock_data w s = (inr b, s')
                     /\ Schema.healthcare_shaped b)
    /\ (exists volume_df top_drugs_df global_dist_df trends_df
                suspect_drugs_df s',
           App.fda_mock_data w s
           = (inr (Some volume_df, top_drugs_df, global_dist_df, trends_df,
                   suspect_drugs_df), s')
           /\ nrows volume_df = 12%nat
           /\ columns volume_df
              = ["total_reports"; "serious_reports"; "fatal_reports";
                 "countries_affected"; "report_month"]).
Proof.
  intros w s. split; [apply fda_mock_data_shaped |].
  split; [apply healthcare_mock_data_shaped |].
  destruct (fda_mock_data_shaped w s) as (b & s' & E & H).
  destruct b as [[[[v t] g] tr] sd]. destruct H as (Hv & _).
  destruct v as [v |]; [| destruct Hv].
  destruct Hv as (Hc & Hn & _).
  exists v, t, g, tr, sd, s'. split; [| split; [exact Hn | exact Hc]].
  exact E.
Qed.

(** The Snowflake loader falls back as soon as one of its six loaders
    returned [None]: the bundle is then the one the fallback block builds,
    from the state the loaders left. *)
Lemma healthcare_fallback_all_or_nothing w s s1
      exec_df patient_df encounter_df claims_df financial_df geo_df :
  App.healthcare_loaders w s
  = (inr (exec_df, patient_df, encounter_df, claims_df, financial_df, geo_df),
     s1) ->
  In None [exec_df; patient_df; encounter_df; claims_df; financial_df; geo_df] ->
  App.load_healthcare_dashboard_data_body w s = App.healthcare_mock_data w s1.
Proof.
  intros H Hnone. unfold App.load_healthcare_dashboard_data_body, bind.
  rewrite H. cbv beta iota.
  replace (forallb App.is_not_None
             [exec_df; patient_df; encounter_df; claims_df; financial_df; geo_df])
    with false; [reflexivity |].
  symmetry. apply Bool.not_true_is_false. intros Hall.
  rewrite forallb_forall in Hall. specialize (Hall None Hnone). discriminate.
Qed.

(** The Redshift loader falls back when the first or the second loader
    returned [None]; the other three are not looked at. *)
Lemma fda_fallback_on_first_two w s s1
      volume_df top_drugs_df global_dist_df trends_df suspect_drugs_df :
  App.fda_loaders w s
  = (inr (volume_df, top_drugs_df, global_dist_df, trends_df,
          suspect_drugs_df), s1) ->
  App.load_fda_dashboard_data_body w s
  = if (App.is_not_None volume_df && App.is_not_None top_drugs_df)%bool
    then (inr (volume_df, top_drugs_df, global_dist_df, trends_df,
               suspect_drugs_df), s1)
    else App.fda_mock_data w s1.
Proof.
  intros H. unfold App.load_fda_dashboard_data_body, bind. rewrite H.
  cbv beta iota.
  destruct (App.is_not_None volume_df && App.is_not_None top_drugs_df)%bool;
    reflexivity.
Qed.

(** C1, at a failing input.  In a world where the first two connections to
    Redshift work and the third, fourth and fifth fail, three loaders return
    [None], and the body of [load_fda_dashboard_data] returns the two real
    tables together with three [None] members: neither a fully real nor a
    fully synthetic bundle.  The page section that reads the third member
    then raises. *)
Theorem C1_fda_bundle_mixes_real_tables_and_None :
  fst (App.load_fda_dashboard_data_body Examples.two_up_then_down Examples.start)
  = inr (Some Examples.sample_table, Some Examples.sample_table,
         None, None, None)
  /\ fst (App.global_report_distribution None
            Examples.two_up_then_down Examples.start)
     = inl (AttributeError "'NoneType' object has no attribute 'copy'").
Proof. split; vm_compute; reflexivity. Qed.

(* ===================================================================== *)
(** ** The sections of the OpenFDA page *)
(* ===================================================================== *)

Lemma shown_shown l1 l2 s :
  Streamlit.shown l2 (Streamlit.shown l1 s) = Streamlit.shown (l1 ++ l2) s.
Proof. unfold Streamlit.shown; simpl. rewrite app_assoc. reflexivity. Qed.

Lemma lookup_map_values {A B} (f : A -> B) label (cs : list (string * A)) :
  lookup label (map (fun c => (fst c, f (snd c))) cs)
  = option_map f (lookup label cs).
Proof.
  induction cs as [| [k v] cs IH]; simpl; [reflexivity |].
  destruct (String.eqb label k); [reflexivity | exact IH].
Qed.

Lemma lookup_In {A} label (cs : list (string * A)) v :
  lookup label cs = Some v -> In (label, v) cs.
Proof.
  induction cs as [| [k v'] cs IH]; simpl; [discriminate |].
  destruct (String.eqb label k) eqn:E.
  - intros [= ->]. apply String.eqb_eq in E. subst. left. reflexivity.
  - intros H. right. apply IH, H.
Qed.

Lemma lookup_length df label vs :
  well_formed df -> lookup label (cols df) = Some vs ->
  List.length vs = nrows df.
Proof.
  intros Hw H. apply lookup_In in H.
  unfold well_formed in Hw. rewrite Forall_forall in Hw. apply (Hw _ H).
Qed.

Lemma lookup_columns {A} label (cs : list (string * A)) :
  In label (map fst cs) -> exists v, lookup label cs = Some v.
Proof.
  induction cs as [| [k v] cs IH]; simpl; [intros [] |].
  destruct (String.eqb label k) eqn:E; [eexists; reflexivity |].
  intros [H | H]; [| apply IH, H].
  subst. rewrite String.eqb_refl in E. discriminate.
Qed.

Lemma nth_last {A} (l : list A) n d :
  List.length l = S n -> nth n l d = last l d.
Proof.
  revert n. induction l as [| x l IH]; intros n H; simpl in H; [discriminate |].
  destruct l as [| y l].
  - injection H as <-. reflexivity.
  - destruct n as [| n]; [discriminate |].
    change (nth n (y :: l) d = last (y :: l) d). apply IH. simpl in *. lia.
Qed.

(** The pie chart of one week: its frame has the four report types and the
    four counts. *)
Definition latest_week_pie (total serious fatal hospitalization : cell)
  : Figure :=
  Pie (mkDataFrame 4
         [("Report Type", [CStr "Total Reports"; CStr "Serious Reports";
                           CStr "Fatal Reports";
                           CStr "Hospitalization Reports"]);
          ("Count", [total; serious; fatal; hospitalization])])
      "Count" "Report Type" "Latest Week Report Distribution" 0.3.

Lemma report_type_distribution_no_rows df w s :
  nrows df = 0%nat ->
  App.report_type_distribution (Some df) w s
  = (inr tt,
     Streamlit.shown [Markdown "#### Report Type Distribution";
                      Warning "No trend data available for visualization"] s).
Proof.
  intros H. unfold App.report_type_distribution, bind, App.attr, ret,
    Streamlit.markdown, Streamlit.warning, Streamlit.write.
  replace (empty df) with true
    by (unfold empty; rewrite H; destruct (cols df); reflexivity).
  simpl. rewrite shown_shown. reflexivity.
Qed.

Lemma report_type_distribution_chart df n total serious fatal hosp w s :
  nrows df = S n ->
  lookup "total_reports" (cols df) = Some total ->
  lookup "serious_reports" (cols df) = Some serious ->
  lookup "fatal_reports" (cols df) = Some fatal ->
  lookup "hospitalization_reports" (cols df) = Some hosp ->
  App.report_type_distribution (Some df) w s
  = (inr tt,
     Streamlit.shown
       [Markdown "#### Report Type Distribution";
        PlotlyChart (latest_week_pie (nth n total NaN) (nth n serious NaN)
                                     (nth n fatal NaN) (nth n hosp NaN))] s).
Proof.
  intros Hn Ht Hs Hf Hh.
  assert (He : empty df = false).
  { unfold empty. rewrite Hn. destruct (cols df); [discriminate | reflexivity]. }
  unfold App.report_type_distribution, bind, App.attr, ret,
    Streamlit.markdown, Streamlit.plotly_chart, Streamlit.write.
  rewrite He. cbn [negb]. unfold iloc_last. rewrite Hn.
  unfold row_getitem, dict_get. cbn [lift ret].
  rewrite !(lookup_map_values (fun vs : Series => nth n vs NaN)), Ht, Hs, Hf, Hh.
  simpl. rewrite shown_shown. reflexivity.
Qed.

(** C7.  The "Report Type Distribution" section, given a trends table with
    zero rows, shows its heading and the warning and nothing else: the last
    row is not read and nothing is raised.  Given a trends table that has at
    least one row (and the four count columns of the trends query, filled),
    it shows the pie chart built from the four counts of the last row. *)
Theorem C7_pie_section_guards_the_last_row :
  (forall df w s,
      nrows df = 0%nat ->
      App.report_type_distribution (Some df) w s
      = (inr tt,
         Streamlit.shown
           [Markdown "#### Report Type Distribution";
            Warning "No trend data available for visualization"] s))
  /\
  (forall df total serious fatal hospitalization w s,
      well_formed df ->
      nrows df <> 0%nat ->
      getitem df "total_reports" = inr total ->
      getitem df "serious_reports" = inr serious ->
      getitem df "fatal_reports" = inr fatal ->
      getitem df "hospitalization_reports" = inr hospitalization ->
      App.report_type_distribution (Some df) w s
      = (inr tt,
         Streamlit.shown
           [Markdown "#### Report Type Distribution";
            PlotlyChart (latest_week_pie (last total NaN) (last serious NaN)
                           (last fatal NaN) (last hospitalization NaN))] s)).
Proof.
  split; [exact report_type_distribution_no_rows |].
  intros df total serious fatal hosp w s Hw Hn Ht Hs Hf Hh.
  unfold getitem in Ht, Hs, Hf, Hh.
  destruct (lookup "total_reports" (cols df)) as [t |] eqn:Et; [| discriminate].
  destruct (lookup "serious_reports" (cols df)) as [se |] eqn:Es; [| discriminate].
  destruct (lookup "fatal_reports" (cols df)) as [f |] eqn:Ef; [| discriminate].
  destruct (lookup "hospitalization_reports" (cols df)) as [h |] eqn:Eh;
    [| discriminate].
  injection Ht as <-. injection Hs as <-. injection Hf as <-. injection Hh as <-.
  destruct (nrows df) as [| n] eqn:En; [congruence |].
  rewrite (report_type_distribution_chart df n t se f h w s En Et Es Ef Eh).
  rewrite !nth_last; [reflexivity | | | |];
    rewrite <- En; eapply lookup_length; eassumption.
Qed.

Module TrendsExamples.

Definition no_rows : DataFrame :=
  mkDataFrame 0 [("receivedate", []); ("total_reports", []);
                 ("serious_reports", []); ("fatal_reports", []);
                 ("hospitalization_reports", [])].

Definition two_weeks : DataFrame :=
  mkDataFrame 2
    [("receivedate", [CStr "2025-01-12"; CStr "2025-01-05"]);
     ("total_reports", [CInt 40; CInt 31]);
     ("serious_reports", [CInt 12; CInt 9]);
     ("fatal_reports", [CInt 1; CInt 0]);
     ("hospitalization_reports", [CInt 7; CInt 5])].

End TrendsExamples.

(** C7 on a trends table without rows and on one with two weeks: the pie
    shows the counts of the second week. *)
Lemma C7_pie_section_witness :
  App.report_type_distribution (Some TrendsExamples.no_rows)
    Examples.all_up Examples.start
  = (inr tt,
     Streamlit.shown
       [Markdown "#### Report Type Distribution";
        Warning "No trend data available for visualization"] Examples.start)
  /\
  App.report_type_distribution (Some TrendsExamples.two_weeks)
    Examples.all_up Examples.start
  = (inr tt,
     Streamlit.shown
       [Markdown "#### Report Type Distribution";
        PlotlyChart (latest_week_pie (CInt 31) (CInt 9) (CInt 0) (CInt 5))]
       Examples.start).
Proof.
  split.
  - apply (proj1 C7_pie_section_guards_the_last_row). reflexivity.
  - apply (proj2 C7_pie_section_guards_the_last_row TrendsExamples.two_weeks
             [CInt 40; CInt 31] [CInt 12; CInt 9] [CInt 1; CInt 0]
             [CInt 7; CInt 5]).
    + repeat constructor.
    + discriminate.
    + reflexivity.
    + reflexivity.
    + reflexivity.
    + reflexivity.
Defined.

(** C10.  On the fallback path of the OpenFDA loader the trends table has
    exactly 26 rows, whatever is drawn; it is therefore not empty, and the
    "Report Type Distribution" section given this table shows a pie chart and
    never the "No trend data available" warning. *)
Theorem C10_mock_trends_always_render_the_pie :
  forall w s,
  exists volume_df top_drugs_df global_dist_df trends suspect_drugs_df s',
    App.fda_mock_data w s
    = (inr (volume_df, top_drugs_df, global_dist_df, Some trends,
            suspect_drugs_df), s')
    /\ nrows trends = 26%nat
    /\ empty trends = false
    /\ forall w' s0, exists fig,
         App.report_type_distribution (Some trends) w' s0
         = (inr tt,
            Streamlit.shown [Markdown "#### Report Type Distribution";
                             PlotlyChart fig] s0).
Proof.
  intros w s.
  destruct (fda_mock_data_shaped w s) as (b & s' & E & H).
  destruct b as [[[[v t] g] tr] sd]. destruct H as (_ & _ & _ & Htr & _).
  destruct tr as [tr |]; [| destruct Htr].
  destruct Htr as (Hc & Hn & Hw).
  exists v, t, g, tr, sd, s'. split; [exact E |]. split; [exact Hn |].
  assert (Hin : forall l, In l Schema.trends_columns ->
                          exists vs, lookup l (cols tr) = Some vs).
  { intros l Hl. apply lookup_columns. fold (columns tr). rewrite Hc. exact Hl. }
  destruct (Hin "total_reports") as (c1 & E1); [simpl; tauto |].
  destruct (Hin "serious_reports") as (c2 & E2); [simpl; tauto |].
  destruct (Hin "fatal_reports") as (c3 & E3); [simpl; tauto |].
  destruct (Hin "hospitalization_reports") as (c4 & E4); [simpl; tauto |].
  split.
  - unfold empty. rewrite Hn. destruct (cols tr); [discriminate | reflexivity].
  - intros w' s0. eexists.
    apply (report_type_distribution_chart tr 25 c1 c2 c3 c4 w' s0 Hn E1 E2 E3 E4).
Qed.

(** *** The recovery rate *)

(** The recovery rate of one row with numeric counts:
    [(recovered_count / report_count * 100).round(1)]. *)
Definition recovery_rate_of (recovered reports : cell) : cell :=
  CFloat (fround 1 (fmul (fdiv (as_float recovered) (as_float reports))
                         (FFin 100))).

Lemma numeric_dtype_floats {A} (f : A -> float64) l :
  numeric_dtype (map (fun x => CFloat (f x)) l) = true.
Proof.
  unfold numeric_dtype. induction l as [| x l IH]; simpl; [reflexivity | exact IH].
Qed.

Lemma numeric_dtype_firstn n vs :
  numeric_dtype vs = true -> numeric_dtype (firstn n vs) = true.
Proof.
  unfold numeric_dtype. revert n.
  induction vs as [| v vs IH]; intros [| n] H; simpl in *; try reflexivity.
  apply andb_true_iff in H. destruct H as [Hv Hvs].
  rewrite Hv. apply IH, Hvs.
Qed.

Lemma recovery_rate_column recovered reports :
  numeric_dtype recovered = true -> numeric_dtype reports = true ->
  exists ratio percent,
    series_truediv recovered reports = inr ratio
    /\ series_mul ratio 100 = inr percent
    /\ series_round percent 1
       = inr (map (fun p => recovery_rate_of (fst p) (snd p))
                  (combine recovered reports)).
Proof.
  intros Ha Hb.
  pose (quotient := fun p : cell * cell =>
                      fdiv (as_float (fst p)) (as_float (snd p))).
  pose (scaled := fun c : cell => fmul (as_float c) (FFin (inject_Z 100))).
  exists (map (fun p => CFloat (quotient p)) (combine recovered reports)).
  exists (map (fun c => CFloat (scaled c))
              (map (fun p => CFloat (quotient p)) (combine recovered reports))).
  split; [| split].
  - unfold series_truediv. rewrite Ha, Hb. reflexivity.
  - unfold series_mul. rewrite (numeric_dtype_floats quotient). reflexivity.
  - unfold series_round. rewrite (numeric_dtype_floats scaled).
    rewrite !map_map. reflexivity.
Qed.

(** On an object column the division is Python's, and a zero divisor
    raises: the numeric dtype of the counts is what keeps the section from
    a division error. *)
Lemma object_columns_divide_as_Python :
  series_truediv [CInt 3; CNone] [CInt 0; CInt 1]
  = inl (ZeroDivisionError "division by zero").
Proof. reflexivity. Qed.

Lemma lookup_assign_same {A} label (cs : list (string * A)) v :
  lookup label (assign cs label v) = Some v.
Proof.
  induction cs as [| [k v'] cs IH]; simpl.
  - rewrite String.eqb_refl. reflexivity.
  - destruct (String.eqb label k) eqn:E; simpl; rewrite E; [reflexivity | exact IH].
Qed.

Lemma lookup_assign_other {A} label other (cs : list (string * A)) v :
  String.eqb other label = false ->
  lookup other (assign cs label v) = lookup other cs.
Proof.
  intros Hne. induction cs as [| [k v'] cs IH]; simpl.
  - rewrite Hne. reflexivity.
  - destruct (String.eqb label k) eqn:E; simpl.
    + apply String.eqb_eq in E. subst k. rewrite Hne. reflexivity.
    + rewrite IH. reflexivity.
Qed.

Lemma getitem_head df label vs n :
  getitem df label = inr vs -> getitem (head n df) label = inr (firstn n vs).
Proof.
  unfold getitem, head; cbn [cols].
  rewrite (@lookup_map_values Series Series (firstn n)).
  destruct (lookup label (cols df)); [| discriminate].
  intros [= ->]. reflexivity.
Qed.

Lemma getitem_length df label vs :
  well_formed df -> getitem df label = inr vs -> List.length vs = nrows df.
Proof.
  intros Hw H. unfold getitem in H.
  destruct (lookup label (cols df)) as [v |] eqn:E; [| discriminate].
  injection H as <-. eapply lookup_length; eassumption.
Qed.

(** The bar chart of the section: the first ten rows with the new
    [recovery_rate] column. *)
Definition recovery_rate_chart (df : DataFrame) (recovered reports : Series)
  : Figure :=
  Bar (mkDataFrame (Nat.min 10 (nrows df))
         (assign (cols (head 10 df)) "recovery_rate"
            (map (fun p => recovery_rate_of (fst p) (snd p))
                 (combine (firstn 10 recovered) (firstn 10 reports)))))
      "medicinalproduct" ["recovery_rate"] "Recovery Rate by Suspect Drug"
      (Some "recovery_rate").

Lemma recovery_rate_section_completes df products recovered reports w s :
  well_formed df ->
  getitem df "medicinalproduct" = inr products ->
  getitem df "recovered_count" = inr recovered ->
  getitem df "report_count" = inr reports ->
  numeric_dtype recovered = true ->
  numeric_dtype reports = true ->
  App.suspect_drugs_recovery_rate (Some df) w s
  = (inr tt,
     Streamlit.shown [Markdown "#### Suspect Drugs Recovery Rate";
                      PlotlyChart (recovery_rate_chart df recovered reports)] s).
Proof.
  intros Hw Hp Hr Hn Nr Nn.
  destruct (recovery_rate_column (firstn 10 recovered) (firstn 10 reports))
    as (ratio & percent & E1 & E2 & E3);
    [apply numeric_dtype_firstn, Nr | apply numeric_dtype_firstn, Nn |].
  unfold App.suspect_drugs_recovery_rate, bind, Streamlit.markdown,
    Streamlit.plotly_chart, Streamlit.write, App.attr, ret.
  cbv zeta.
  rewrite (getitem_head _ _ _ 10 Hr), (getitem_head _ _ _ 10 Hn).
  cbn [lift ret]. rewrite E1. cbn [lift ret]. rewrite E2. cbn [lift ret].
  rewrite E3. cbn [lift ret].
  unfold setitem.
  replace (Nat.eqb _ (nrows (head 10 df))) with true.
  2:{ symmetry. apply Nat.eqb_eq.
      rewrite length_map, length_combine, !length_firstn.
      rewrite (getitem_length _ _ _ Hw Hr), (getitem_length _ _ _ Hw Hn).
      simpl. lia. }
  cbn [lift ret]. unfold px, missing_column. cbn [find cols].
  rewrite lookup_assign_other by reflexivity.
  pose proof (getitem_head _ _ _ 10 Hp) as Hp'. unfold getitem in Hp'.
  destruct (lookup "medicinalproduct" (cols (head 10 df))); [| discriminate].
  rewrite lookup_assign_same.
  cbn [lift ret]. rewrite shown_shown. reflexivity.
Qed.



Module SuspectExamples.


End SuspectExamples.


(** *** The country codes *)

(** The 3-letter code of a cell of the [occurcountry] column, when the
    lookup table has one. *)
Definition iso_of (c : cell) : option string :=
  match c with
  | CStr s => lookup s App.code_mapping
  | _ => None
  end.

(** The codes that reach the map: those the table knows, in order. *)
Definition located_codes (codes : Series) : Series :=
  filter (fun c => match iso_of c with Some _ => true | None => false end) codes.

(** Their 3-letter codes. *)
Definition located_iso (codes : Series) : Series :=
  flat_map (fun c => match iso_of c with
                     | Some t => [CStr t]
                     | None => []
                     end) codes.

Definition notna_mask (vs : Series) : list bool :=
  map (fun c => negb (isna c)) vs.

Section Mapping.

Variable mapping : list (string * string).

Let target (c : cell) : option string :=
  match c with
  | CStr s => lookup s mapping
  | _ => None
  end.

Lemma keep_mapped_targets codes :
  keep (notna_mask (series_map mapping codes)) (series_map mapping codes)
  = flat_map (fun c => match target c with
                       | Some t => [CStr t]
                       | None => []
                       end) codes.
Proof.
  induction codes as [| c codes IH]; simpl; [reflexivity |].
  destruct c as [z | f | s | b | t | f |]; simpl; try exact IH.
  destruct (lookup s mapping); simpl; [f_equal |]; exact IH.
Qed.

Lemma keep_mapped_sources codes :
  keep (notna_mask (series_map mapping codes)) codes
  = filter (fun c => match target c with
                     | Some _ => true
                     | None => false
                     end) codes.
Proof.
  induction codes as [| c codes IH]; simpl; [reflexivity |].
  destruct c as [z | f | s | b | t | f |]; simpl; try exact IH.
  destruct (lookup s mapping); simpl; [f_equal |]; exact IH.
Qed.

End Mapping.

Lemma keep_mapped_iso codes :
  keep (notna_mask (series_map App.code_mapping codes))
       (series_map App.code_mapping codes)
  = located_iso codes.
Proof. exact (keep_mapped_targets App.code_mapping codes). Qed.

Lemma keep_mapped_codes codes :
  keep (notna_mask (series_map App.code_mapping codes)) codes
  = located_codes codes.
Proof. exact (keep_mapped_sources App.code_mapping codes). Qed.

Lemma lookup_filter_other {A} label removed (cs : list (string * A)) :
  String.eqb label removed = false ->
  lookup label (filter (fun c => negb (String.eqb (fst c) removed)) cs)
  = lookup label cs.
Proof.
  intros Hne. induction cs as [| [k v] cs IH]; simpl; [reflexivity |].
  destruct (String.eqb k removed) eqn:E; simpl.
  - apply String.eqb_eq in E. subst k. rewrite Hne. exact IH.
  - rewrite IH. reflexivity.
Qed.

Lemma getitem_lookup df label vs :
  getitem df label = inr vs -> lookup label (cols df) = Some vs.
Proof.
  unfold getitem. destruct (lookup label (cols df)); [| discriminate].
  intros [= ->]. reflexivity.
Qed.

(** The choropleth of the section, over the rows that were kept. *)
Definition choropleth_of (located : DataFrame) : Figure :=
  Choropleth located "iso_alpha" "report_count" "occurcountry"
             ["serious_reports"; "fatal_reports"]
             "Global Distribution of Adverse Event Reports".

Lemma global_report_distribution_runs df codes counts serious fatal w s :
  well_formed df ->
  getitem df "occurcountry" = inr codes ->
  getitem df "report_count" = inr counts ->
  getitem df "serious_reports" = inr serious ->
  getitem df "fatal_reports" = inr fatal ->
  exists located view,
    App.global_report_distribution (Some df) w s
    = (inr tt,
       Streamlit.shown
         [Markdown "#### Global Report Distribution";
          PlotlyChart (choropleth_of located);
          Markdown "Top 15 Countries by Report Metrics";
          StyledView view "Reds"] s)
    /\ getitem located "iso_alpha" = inr (located_iso codes)
    /\ getitem located "occurcountry" = inr (located_codes codes)
    /\ index view = firstn 15 codes
    /\ columns (body view)
       = ["report_count"; "serious_reports"; "fatal_reports"].
Proof.
  intros Hw Hc Hn Hs Hf.
  pose (iso := series_map App.code_mapping codes).
  pose (mapped := mkDataFrame (nrows df) (assign (cols df) "iso_alpha" iso)).
  pose (located := take (notna_mask iso) mapped).
  pose proof (getitem_lookup _ _ _ Hc) as Lc.
  pose proof (getitem_lookup _ _ _ Hn) as Ln.
  pose proof (getitem_lookup _ _ _ Hs) as Ls.
  pose proof (getitem_lookup _ _ _ Hf) as Lf.
  assert (Li : forall l, lookup l (cols located)
                         = option_map (keep (notna_mask iso))
                                      (lookup l (cols mapped))).
  { intros l. unfold located, take; cbn [cols].
    apply (@lookup_map_values Series Series (keep (notna_mask iso))). }
  assert (Lh : forall l, lookup l (cols (head 15 df))
                         = option_map (firstn 15) (lookup l (cols df))).
  { intros l. unfold head; cbn [cols].
    apply (@lookup_map_values Series Series (firstn 15)). }
  eexists located, (mkIndexedFrame "occurcountry" (firstn 15 codes)
                      (mkDataFrame (Nat.min 15 (nrows df))
                         [("report_count", firstn 15 counts);
                          ("serious_reports", firstn 15 serious);
                          ("fatal_reports", firstn 15 fatal)])).
  split; [| split; [| split; [| split]]].
  - unfold App.global_report_distribution, bind, Streamlit.markdown,
      Streamlit.plotly_chart, Streamlit.write, App.attr, ret.
    rewrite Hc. cbn [lift ret].
    unfold setitem. fold iso.
    replace (Nat.eqb (List.length iso) (nrows df)) with true.
    2:{ symmetry. apply Nat.eqb_eq. unfold iso, series_map.
        rewrite length_map. apply (getitem_length _ _ _ Hw Hc). }
    cbn [lift ret]. fold mapped.
    unfold dropna, getitem. unfold mapped at 1. cbn [cols].
    rewrite lookup_assign_same. fold mapped. fold (notna_mask iso).
    fold located. cbn [lift ret].
    unfold px, missing_column. cbn [find]. rewrite !Li.
    unfold mapped; cbn [cols]. rewrite lookup_assign_same.
    rewrite !lookup_assign_other by reflexivity.
    rewrite Ln, Lc, Ls, Lf. cbn [option_map lift ret].
    unfold set_index, getitem. rewrite Lh, Lc. cbn [option_map lift ret].
    unfold indexed_select, select, select_cols; cbn [body cols nrows head].
    fold (cols (head 15 df)).
    rewrite !lookup_filter_other by reflexivity.
    change (map (fun c : string * Series => (fst c, firstn 15 (snd c))) (cols df))
      with (cols (head 15 df)).
    rewrite !Lh, Ln, Ls, Lf. cbn [option_map lift ret index_name index].
    rewrite !shown_shown. reflexivity.
  - unfold getitem. rewrite Li. unfold mapped; cbn [cols].
    rewrite lookup_assign_same. cbn [option_map]. unfold iso.
    rewrite keep_mapped_iso. reflexivity.
  - unfold getitem. rewrite Li. unfold mapped; cbn [cols].
    rewrite lookup_assign_other by reflexivity. rewrite Lc. cbn [option_map].
    unfold iso. rewrite keep_mapped_codes. reflexivity.
  - reflexivity.
  - reflexivity.
Qed.

Lemma located_iso_In codes c t :
  In c codes -> iso_of c = Some t -> In (CStr t) (located_iso codes).
Proof.
  intros Hc Ht. unfold located_iso. apply in_flat_map. exists c.
  split; [exact Hc |]. rewrite Ht. left. reflexivity.
Qed.

Lemma located_codes_In codes c :
  In c (located_codes codes) <-> In c codes /\ iso_of c <> None.
Proof.
  unfold located_codes. rewrite filter_In.
  destruct (iso_of c); split; intros [H1 H2]; split; auto; congruence.
Qed.

(** C8, as the code has it.  For every global-distribution table (with the
    columns of its query, filled): the rows that reach the choropleth are
    those whose country code is in the lookup table, each with the 3-letter
    code of the table in [iso_alpha]; a code the table does not have is in no
    row of the choropleth; and the heatmap table is indexed by the codes of
    the first 15 rows of the table, in the lookup table or not. *)
Theorem C8_country_codes_on_the_map_and_in_the_heatmap :
  forall df codes counts serious fatal w s,
    well_formed df ->
    getitem df "occurcountry" = inr codes ->
    getitem df "report_count" = inr counts ->
    getitem df "serious_reports" = inr serious ->
    getitem df "fatal_reports" = inr fatal ->
    exists located view,
      App.global_report_distribution (Some df) w s
      = (inr tt,
         Streamlit.shown
           [Markdown "#### Global Report Distribution";
            PlotlyChart (choropleth_of located);
            Markdown "Top 15 Countries by Report Metrics";
            StyledView view "Reds"] s)
      /\ getitem located "iso_alpha" = inr (located_iso codes)
      /\ getitem located "occurcountry" = inr (located_codes codes)
      /\ (forall c t, In c codes -> iso_of c = Some t ->
                      In c (located_codes codes)
                      /\ In (CStr t) (located_iso codes))
      /\ (forall c, iso_of c = None -> ~ In c (located_codes codes))
      /\ index view = firstn 15 codes.
Proof.
  intros df codes counts serious fatal w s Hw Hc Hn Hs Hf.
  destruct (global_report_distribution_runs df codes counts serious fatal w s
              Hw Hc Hn Hs Hf) as (located & view & E & Hi & Ho & Hx & _).
  exists located, view. repeat split; try assumption.
  - apply located_codes_In. split; [assumption | congruence].
  - eapply located_iso_In; eassumption.
  - intros c Hnone Hin. apply located_codes_In in Hin. tauto.
Qed.

Module CountryExamples.

(** Sixteen countries, by falling report count.  "XK" is not in the lookup
    table; "NL" is, and sits in the sixteenth row. *)
Definition codes : Series :=
  [CStr "US"; CStr "GB"; CStr "CA"; CStr "AU"; CStr "DE"; CStr "FR";
   CStr "JP"; CStr "XK"; CStr "IT"; CStr "ES"; CStr "BR"; CStr "CN";
   CStr "IN"; CStr "MX"; CStr "RU"; CStr "NL"].

Definition counts : Series :=
  map CInt [160; 150; 140; 130; 120; 110; 100; 90; 80; 70; 60; 50; 40; 30;
            20; 10].

Definition serious : Series :=
  map CInt [16; 15; 14; 13; 12; 11; 10; 9; 8; 7; 6; 5; 4; 3; 2; 1].

Definition fatal : Series :=
  map CInt [1; 1; 1; 1; 1; 1; 1; 0; 0; 0; 0; 0; 0; 0; 0; 0].

Definition sixteen_countries : DataFrame :=
  mkDataFrame 16
    [("occurcountry", codes); ("report_count", counts);
     ("serious_reports", serious); ("fatal_reports", fatal);
     ("unique_serious_reports", serious)].

End CountryExamples.

(** C8 on the table of sixteen countries. *)
Lemma C8_country_codes_witness :
  exists located view,
    App.global_report_distribution (Some CountryExamples.sixteen_countries)
      Examples.all_up Examples.start
    = (inr tt,
       Streamlit.shown
         [Markdown "#### Global Report Distribution";
          PlotlyChart (choropleth_of located);
          Markdown "Top 15 Countries by Report Metrics";
          StyledView view "Reds"] Examples.start)
    /\ getitem located "iso_alpha"
       = inr (located_iso CountryExamples.codes)
    /\ getitem located "occurcountry"
       = inr (located_codes CountryExamples.codes)
    /\ (forall c t, In c CountryExamples.codes -> iso_of c = Some t ->
                    In c (located_codes CountryExamples.codes)
                    /\ In (CStr t) (located_iso CountryExamples.codes))
    /\ (forall c, iso_of c = None ->
                  ~ In c (located_codes CountryExamples.codes))
    /\ index view = firstn 15 CountryExamples.codes.
Proof.
  apply (C8_country_codes_on_the_map_and_in_the_heatmap
           CountryExamples.sixteen_countries CountryExamples.codes
           CountryExamples.counts CountryExamples.serious
           CountryExamples.fatal).
  - repeat constructor.
  - reflexivity.
  - reflexivity.
  - reflexivity.
  - reflexivity.
Defined.

(** C8 as it stands fails on the heatmap: in a table of sixteen
    countries the code of the sixteenth row ("NL") is a code of the table and
    is not in the heatmap view, which the section does show. *)
Lemma C8_heatmap_omits_the_sixteenth_code :
  exists located view,
    App.global_report_distribution (Some CountryExamples.sixteen_countries)
      Examples.all_up Examples.start
    = (inr tt,
       Streamlit.shown
         [Markdown "#### Global Report Distribution";
          PlotlyChart (choropleth_of located);
          Markdown "Top 15 Countries by Report Metrics";
          StyledView view "Reds"] Examples.start)
    /\ getitem CountryExamples.sixteen_countries "occurcountry"
       = inr CountryExamples.codes
    /\ In (CStr "NL") CountryExamples.codes
    /\ ~ In (CStr "NL") (index view).
Proof.
  eexists _, _. split; [vm_compute; reflexivity |].
  split; [reflexivity |]. split.
  - simpl. tauto.
  - simpl. intros H.
    repeat (destruct H as [H | H]; [discriminate H |]). exact H.
Qed.

(* ===================================================================== *)
(** ** The cache layer *)
(* ===================================================================== *)

(** [m] opens no connection and sends no query. *)
Definition offline {A} (m : M A) : Prop :=
  forall w s, connections (snd (m w s)) = connections s
              /\ queries (snd (m w s)) = queries s.

Lemma offline_ret {A} (a : A) : offline (ret a).
Proof. intros w s. split; reflexivity. Qed.

Lemma offline_raise {A} e : offline (@raise A e).
Proof. intros w s. split; reflexivity. Qed.

Lemma offline_bind {A B} (m : M A) (k : A -> M B) :
  offline m -> (forall a, offline (k a)) -> offline (bind m k).
Proof.
  intros Hm Hk w s. unfold bind. specialize (Hm w s).
  destruct (m w s) as [[e | a] s1]; simpl in *; [exact Hm |].
  specialize (Hk a w s1). destruct Hm as [<- <-]. exact Hk.
Qed.

Lemma offline_for_in {A S} (xs : list A) (body : A -> S -> M S) :
  (forall x acc, offline (body x acc)) -> forall acc, offline (for_in xs body acc).
Proof.
  intros Hb. induction xs as [| x xs IH]; intros acc; simpl.
  - apply offline_ret.
  - apply offline_bind; [apply Hb | exact IH].
Qed.

Lemma offline_dict_display_from items :
  Forall (fun it => offline (snd it)) items ->
  forall d, offline (dict_display_from d items).
Proof.
  induction 1 as [| [k e] items He _ IH]; intros d; simpl.
  - apply offline_ret.
  - apply offline_bind; [exact He | intros v; apply IH].
Qed.

Lemma offline_dict_display items :
  Forall (fun it => offline (snd it)) items -> offline (dict_display items).
Proof. intros H. apply offline_dict_display_from, H. Qed.

Lemma offline_write e : offline (Streamlit.write e).
Proof. intros w s. split; reflexivity. Qed.

Lemma offline_next_raw : offline Numpy.next_raw.
Proof. intros w s. split; reflexivity. Qed.

Lemma offline_Timestamp_now : offline Timestamp_now.
Proof. intros w s. split; reflexivity. Qed.

Lemma offline_Numpy_randint low high : offline (Numpy.randint low high).
Proof.
  unfold Numpy.randint. destruct (low <? high); [| apply offline_raise].
  apply offline_bind; [apply offline_next_raw | intros; apply offline_ret].
Qed.

Lemma offline_Numpy_uniform low high : offline (Numpy.uniform low high).
Proof.
  apply offline_bind; [apply offline_next_raw | intros; apply offline_ret].
Qed.

Lemma offline_Numpy_choice options : offline (Numpy.choice options).
Proof.
  destruct options; [apply offline_raise |].
  apply offline_bind; [apply offline_next_raw | intros; apply offline_ret].
Qed.

Lemma offline_randint low high : offline (App.randint low high).
Proof.
  apply offline_bind; [apply offline_Numpy_randint | intros; apply offline_ret].
Qed.

Lemma offline_uniform low high : offline (App.uniform low high).
Proof.
  apply offline_bind; [apply offline_Numpy_uniform | intros; apply offline_ret].
Qed.

Lemma offline_choice options : offline (App.choice options).
Proof.
  apply offline_bind; [apply offline_Numpy_choice | intros; apply offline_ret].
Qed.

Lemma offline_const c : offline (App.const c).
Proof. apply offline_ret. Qed.

Lemma offline_randint_id prefix n low high :
  offline (App.randint_id prefix n low high).
Proof.
  apply offline_bind; [apply offline_Numpy_randint | intros; apply offline_ret].
Qed.

Lemma offline_now_minus_random_days low high :
  offline (App.now_minus_random_days low high).
Proof.
  apply offline_bind; [apply offline_Timestamp_now | intros t].
  apply offline_bind; [apply offline_Numpy_randint | intros; apply offline_ret].
Qed.

Lemma offline_now_int f : offline (App.now_int f).
Proof.
  apply offline_bind; [apply offline_Timestamp_now | intros; apply offline_ret].
Qed.

Lemma offline_now_minus_months i : offline (App.now_minus_months i).
Proof.
  apply offline_bind; [apply offline_Timestamp_now | intros; apply offline_ret].
Qed.

#[export] Hint Resolve offline_randint offline_uniform offline_choice
  offline_const offline_randint_id offline_now_minus_random_days
  offline_now_int offline_now_minus_months : script.

Ltac all_offline :=
  repeat (apply Forall_cons; [simpl; auto with script |]); apply Forall_nil.

(** A loop of a fallback block: rows from a dict display, appended. *)
Ltac offline_rows :=
  apply offline_for_in; intros ? ?;
  apply offline_bind;
  [ apply offline_dict_display; all_offline | intros ?; apply offline_ret ].

Lemma offline_fda_mock_data : offline App.fda_mock_data.
Proof.
  unfold App.fda_mock_data, Streamlit.warning.
  apply offline_bind; [apply offline_write | intros _].
  apply offline_bind; [apply offline_Timestamp_now | intros now].
  cbv zeta.
  do 3 (apply offline_bind; [offline_rows | intros ?]).
  apply offline_bind; [apply offline_Timestamp_now | intros now'].
  do 2 (apply offline_bind; [offline_rows | intros ?]).
  apply offline_ret.
Qed.

Lemma offline_healthcare_mock_data : offline App.healthcare_mock_data.
Proof.
  unfold App.healthcare_mock_data, Streamlit.warning.
  apply offline_bind; [apply offline_write | intros _].
  cbv zeta.
  do 5 (apply offline_bind; [offline_rows | intros ?]).
  apply offline_bind; [| intros ?; apply offline_ret].
  apply offline_for_in; intros state data.
  apply offline_for_in; intros county data1.
  apply offline_for_in; intros city data2.
  apply offline_bind;
    [apply offline_dict_display; all_offline | intros ?; apply offline_ret].
Qed.
















Module CacheExamples.




End CacheExamples.


(* ===================================================================== *)
(** ** More about the executors and the loaders *)
(* ===================================================================== *)

(** The executor of a warehouse, and the name it puts in its error
    message. *)
Definition executor_of (wh : Warehouse)
  : string -> option (list cell) -> M (option DataFrame) :=
  match wh with
  | Redshift => RedshiftConnection.execute_redshift_query
  | Snowflake => SnowflakeConnection.execute_snowflake_query
  end.

Definition failure_message (wh : Warehouse) (e : Exception) : string :=
  match wh with
  | Redshift => "❌ Query execution failed on Redshift: " ++ str_of_exception e
  | Snowflake => "❌ Query execution failed on Snowflake: " ++ str_of_exception e
  end.

(** Whether the next connection attempt from state [s] succeeds. *)
Definition connects_now (w : World) (s : ScriptState) (wh : Warehouse) : bool :=
  match connect w wh (connections s) with
  | Connected _ => true
  | ConnRaises _ => false
  end.

(** A failure of the connection or of the query is caught: the executor
    returns [None], shows exactly one error element carrying the text of the
    exception, and has sent the query only if the connection itself was
    made. *)
Theorem executor_failure_is_shown_and_returns_None wh query params w s e :
  warehouse_outcome w s wh query params = QueryRaises e ->
  exists s',
    executor_of wh query params w s = (inr None, s')
    /\ page s' = (page s ++ [Error (failure_message wh e)])%list
    /\ connections s' = S (connections s)
    /\ queries s' = (if connects_now w s wh
                     then (queries s ++ [(wh, query)])%list
                     else queries s)
    /\ draws s' = draws s.
Proof.
  intros H. unfold warehouse_outcome in H. unfold connects_now.
  destruct wh; simpl executor_of;
    unfold RedshiftConnection.execute_redshift_query,
      SnowflakeConnection.execute_snowflake_query, try_except, bind,
      Streamlit.connection, Streamlit.conn_query, Streamlit.error,
      Streamlit.write, ret.
  - destruct (connect w Redshift (connections s)) as [e' | q].
    + injection H as ->. eexists. repeat split.
    + rewrite H. eexists. repeat split.
  - destruct (connect w Snowflake (connections s)) as [e' | q].
    + injection H as ->. eexists. repeat split.
    + rewrite H. eexists. repeat split.
Qed.

(** A query that returns a table with at least one row and one column: the
    executor hands back that very table, shows nothing, and has sent this one
    query. *)
Theorem executor_passes_a_nonempty_table_through wh query params w s d :
  warehouse_outcome w s wh query params = QueryReturns (Some d) ->
  empty d = false ->
  exists s',
    executor_of wh query params w s = (inr (Some d), s')
    /\ page s' = page s
    /\ queries s' = (queries s ++ [(wh, query)])%list
    /\ connections s' = S (connections s)
    /\ draws s' = draws s.
Proof.
  intros H He. unfold warehouse_outcome in H.
  destruct wh; simpl executor_of;
    unfold RedshiftConnection.execute_redshift_query,
      SnowflakeConnection.execute_snowflake_query, try_except, bind,
      Streamlit.connection, Streamlit.conn_query, ret.
  - destruct (connect w Redshift (connections s)) as [e' | q]; [discriminate |].
    rewrite H, He. eexists. repeat split.
  - destruct (connect w Snowflake (connections s)) as [e' | q]; [discriminate |].
    rewrite H, He. eexists. repeat split.
Qed.

(** A query that succeeds with nothing in it (no table at all, no rows, or
    no columns): the executor returns a new empty frame in its place.  The
    column labels of the result are gone with the rows, so asking the
    returned table for any column raises [KeyError]. *)
Theorem executor_returns_a_frame_without_columns_for_an_empty_result
        wh query params w s r :
  warehouse_outcome w s wh query params = QueryReturns r ->
  match r with Some d => empty d = true | None => True end ->
  exists s',
    executor_of wh query params w s = (inr (Some empty_frame), s')
    /\ page s' = page s
    /\ columns empty_frame = []
    /\ nrows empty_frame = 0%nat
    /\ forall label, getitem empty_frame label = inl (KeyError label).
Proof.
  intros H He. unfold warehouse_outcome in H.
  destruct wh; simpl executor_of;
    unfold RedshiftConnection.execute_redshift_query,
      SnowflakeConnection.execute_snowflake_query, try_except, bind,
      Streamlit.connection, Streamlit.conn_query, ret.
  - destruct (connect w Redshift (connections s)) as [e' | q]; [discriminate |].
    rewrite H. destruct r as [d |]; [rewrite He |]; eexists; repeat split.
  - destruct (connect w Snowflake (connections s)) as [e' | q]; [discriminate |].
    rewrite H. destruct r as [d |]; [rewrite He |]; eexists; repeat split.
Qed.

(** Everything one run of an executor does to the state. *)
Lemma executor_run wh query params w s :
  exists s',
    executor_of wh query params w s
    = (inr (executor_result (warehouse_outcome w s wh query params)), s')
    /\ connections s' = S (connections s)
    /\ queries s' = (if connects_now w s wh
                     then (queries s ++ [(wh, query)])%list
                     else queries s)
    /\ page s' = (page s
                  ++ match warehouse_outcome w s wh query params with
                     | QueryRaises e => [Error (failure_message wh e)]
                     | QueryReturns _ => []
                     end)%list
    /\ draws s' = draws s /\ clock_reads s' = clock_reads s
    /\ timer s' = timer s
    /\ cache_fda s' = cache_fda s /\ cache_healthcare s' = cache_healthcare s.
Proof.
  unfold warehouse_outcome, connects_now.
  destruct wh; simpl executor_of;
    unfold RedshiftConnection.execute_redshift_query,
      SnowflakeConnection.execute_snowflake_query, try_except, bind,
      Streamlit.connection, Streamlit.conn_query, Streamlit.error,
      Streamlit.write, ret.
  - destruct (connect w Redshift (connections s)) as [e | q].
    + eexists. repeat split.
    + destruct (q query params) as [e | [d |]].
      * eexists. repeat split.
      * simpl. destruct (empty d); simpl; eexists; repeat split;
          simpl; rewrite ?app_nil_r; reflexivity.
      * eexists. repeat split. simpl. rewrite app_nil_r. reflexivity.
  - destruct (connect w Snowflake (connections s)) as [e | q].
    + eexists. repeat split.
    + destruct (q query params) as [e | [d |]].
      * eexists. repeat split.
      * simpl. destruct (empty d); simpl; eexists; repeat split;
          simpl; rewrite ?app_nil_r; reflexivity.
      * eexists. repeat split. simpl. rewrite app_nil_r. reflexivity.
Qed.

(** A warehouse that can be reached at every attempt. *)
Definition always_up (w : World) (wh : Warehouse) : Prop :=
  forall k, exists q, connect w wh k = Connected q.

Lemma always_up_connects_now w s wh : always_up w wh -> connects_now w s wh = true.
Proof.
  intros H. unfold connects_now. destruct (H (connections s)) as [q ->].
  reflexivity.
Qed.

(** One executor call in a row of calls: it returns, and the log grows by
    its query. *)
Lemma executor_step wh query params w s :
  always_up w wh ->
  exists r s',
    executor_of wh query params w s = (inr r, s')
    /\ queries s' = (queries s ++ [(wh, query)])%list.
Proof.
  intros Hup. destruct (executor_run wh query params w s)
    as (s' & E & _ & Hq & _).
  rewrite (always_up_connects_now _ _ _ Hup) in Hq. eauto.
Qed.

Lemma fda_loaders_queries w s :
  always_up w Redshift ->
  exists loaded s1,
    App.fda_loaders w s = (inr loaded, s1)
    /\ queries s1
       = (queries s
          ++ [(Redshift, RedshiftConnection.volume_query);
              (Redshift, RedshiftConnection.top_drugs_query);
              (Redshift, RedshiftConnection.global_distribution_query);
              (Redshift, RedshiftConnection.safety_trends_query);
              (Redshift, RedshiftConnection.suspect_drugs_query)])%list.
Proof.
  intros Hup.
  unfold App.fda_loaders, RedshiftConnection.load_fda_volume_analysis,
    RedshiftConnection.load_top_drugs_analysis,
    RedshiftConnection.load_global_adverse_distribution,
    RedshiftConnection.load_fda_safety_trends,
    RedshiftConnection.load_top_suspect_drugs, bind.
  change RedshiftConnection.execute_redshift_query with (executor_of Redshift).
  destruct (executor_step Redshift RedshiftConnection.volume_query None w s Hup)
    as (r1 & s1 & -> & Q1).
  destruct (executor_step Redshift RedshiftConnection.top_drugs_query None w s1 Hup)
    as (r2 & s2 & -> & Q2).
  destruct (executor_step Redshift RedshiftConnection.global_distribution_query
              None w s2 Hup) as (r3 & s3 & -> & Q3).
  destruct (executor_step Redshift RedshiftConnection.safety_trends_query
              None w s3 Hup) as (r4 & s4 & -> & Q4).
  destruct (executor_step Redshift RedshiftConnection.suspect_drugs_query
              None w s4 Hup) as (r5 & s5 & -> & Q5).
  eexists _, s5. split; [reflexivity |].
  rewrite Q5, Q4, Q3, Q2, Q1, <- !app_assoc. reflexivity.
Qed.

Lemma healthcare_loaders_queries w s :
  always_up w Snowflake ->
  exists loaded s1,
    App.healthcare_loaders w s = (inr loaded, s1)
    /\ queries s1
       = (queries s
          ++ [(Snowflake, SnowflakeConnection.executive_query);
              (Snowflake, SnowflakeConnection.patient_query);
              (Snowflake, SnowflakeConnection.encounter_query);
              (Snowflake, SnowflakeConnection.claims_query);
              (Snowflake, SnowflakeConnection.financial_query);
              (Snowflake, SnowflakeConnection.geographic_query)])%list.
Proof.
  intros Hup.
  unfold App.healthcare_loaders,
    SnowflakeConnection.load_executive_dashboard_data,
    SnowflakeConnection.load_patient_demographics_data,
    SnowflakeConnection.load_encounter_analysis_data,
    SnowflakeConnection.load_claims_management_data,
    SnowflakeConnection.load_financial_insights_data,
    SnowflakeConnection.load_geographic_analysis_data, bind.
  change SnowflakeConnection.execute_snowflake_query with (executor_of Snowflake).
  destruct (executor_step Snowflake SnowflakeConnection.executive_query None w s Hup)
    as (r1 & s1 & -> & Q1).
  destruct (executor_step Snowflake SnowflakeConnection.patient_query None w s1 Hup)
    as (r2 & s2 & -> & Q2).
  destruct (executor_step Snowflake SnowflakeConnection.encounter_query None w s2 Hup)
    as (r3 & s3 & -> & Q3).
  destruct (executor_step Snowflake SnowflakeConnection.claims_query None w s3 Hup)
    as (r4 & s4 & -> & Q4).
  destruct (executor_step Snowflake SnowflakeConnection.financial_query None w s4 Hup)
    as (r5 & s5 & -> & Q5).
  destruct (executor_step Snowflake SnowflakeConnection.geographic_query None w s5 Hup)
    as (r6 & s6 & -> & Q6).
  eexists _, s6. split; [reflexivity |].
  rewrite Q6, Q5, Q4, Q3, Q2, Q1, <- !app_assoc. reflexivity.
Qed.

(** After its loaders, a body either returns from the state they left or
    runs its fallback block from that state. *)
Lemma fda_body_cases w s loaded s1 :
  App.fda_loaders w s = (inr loaded, s1) ->
  (exists b, App.load_fda_dashboard_data_body w s = (inr b, s1))
  \/ App.load_fda_dashboard_data_body w s = App.fda_mock_data w s1.
Proof.
  intros H. destruct loaded as [[[[v t] g] tr] sd].
  rewrite (fda_fallback_on_first_two _ _ _ _ _ _ _ _ H).
  destruct (App.is_not_None v && App.is_not_None t)%bool; eauto.
Qed.

Lemma healthcare_body_cases w s loaded s1 :
  App.healthcare_loaders w s = (inr loaded, s1) ->
  (exists b, App.load_healthcare_dashboard_data_body w s = (inr b, s1))
  \/ App.load_healthcare_dashboard_data_body w s
     = App.healthcare_mock_data w s1.
Proof.
  intros H. destruct loaded as [[[[[e p] en] c] f] g].
  unfold App.load_healthcare_dashboard_data_body, bind. rewrite H.
  cbv beta iota.
  destruct (forallb App.is_not_None [e; p; en; c; f; g]) eqn:Hall;
    [| right; reflexivity].
  destruct e as [e |], p as [p |], en as [en |], c as [c |], f as [f |],
    g as [g |]; try discriminate Hall.
  left. repeat (rewrite lower_columns_Some; cbv beta iota).
  eexists. reflexivity.
Qed.

(** With the warehouse reachable, a bundle loader's body sends exactly its
    loaders' queries, each to its own warehouse and in the order of the
    calls, whatever the warehouse answers: a failed query does not stop the
    later loaders, and the fallback block sends nothing. *)
Theorem bodies_send_their_queries_in_order :
  forall w s,
    (always_up w Redshift ->
     queries (snd (App.load_fda_dashboard_data_body w s))
     = (queries s
        ++ [(Redshift, RedshiftConnection.volume_query);
            (Redshift, RedshiftConnection.top_drugs_query);
            (Redshift, RedshiftConnection.global_distribution_query);
            (Redshift, RedshiftConnection.safety_trends_query);
            (Redshift, RedshiftConnection.suspect_drugs_query)])%list)
    /\
    (always_up w Snowflake ->
     queries (snd (App.load_healthcare_dashboard_data_body w s))
     = (queries s
        ++ [(Snowflake, SnowflakeConnection.executive_query);
            (Snowflake, SnowflakeConnection.patient_query);
            (Snowflake, SnowflakeConnection.encounter_query);
            (Snowflake, SnowflakeConnection.claims_query);
            (Snowflake, SnowflakeConnection.financial_query);
            (Snowflake, SnowflakeConnection.geographic_query)])%list).
Proof.
  intros w s. split; intros Hup.
  - destruct (fda_loaders_queries w s Hup) as (loaded & s1 & E & Q).
    destruct (fda_body_cases w s loaded s1 E) as [[b ->] | ->].
    + exact Q.
    + destruct (offline_fda_mock_data w s1) as [_ ->]. exact Q.
  - destruct (healthcare_loaders_queries w s Hup) as (loaded & s1 & E & Q).
    destruct (healthcare_body_cases w s loaded s1 E) as [[b ->] | ->].
    + exact Q.
    + destruct (offline_healthcare_mock_data w s1) as [_ ->]. exact Q.
Qed.

(** In a world where every connection is made. *)
Lemma bodies_send_their_queries_in_order_witness :
  queries (snd (App.load_fda_dashboard_data_body Examples.all_up Examples.start))
  = [(Redshift, RedshiftConnection.volume_query);
     (Redshift, RedshiftConnection.top_drugs_query);
     (Redshift, RedshiftConnection.global_distribution_query);
     (Redshift, RedshiftConnection.safety_trends_query);
     (Redshift, RedshiftConnection.suspect_drugs_query)]
  /\
  queries (snd (App.load_healthcare_dashboard_data_body
                  Examples.all_up Examples.start))
  = [(Snowflake, SnowflakeConnection.executive_query);
     (Snowflake, SnowflakeConnection.patient_query);
     (Snowflake, SnowflakeConnection.encounter_query);
     (Snowflake, SnowflakeConnection.claims_query);
     (Snowflake, SnowflakeConnection.financial_query);
     (Snowflake, SnowflakeConnection.geographic_query)].
Proof.
  split.
  - apply (proj1 (bodies_send_their_queries_in_order
                    Examples.all_up Examples.start)).
    intros k. eexists. reflexivity.
  - apply (proj2 (bodies_send_their_queries_in_order
                    Examples.all_up Examples.start)).
    intros k. eexists. reflexivity.
Defined.

(** Witnesses for the executors: a connection that fails, a query that
    returns [Examples.sample_table], and a query that returns a table with
    labels and no row. *)
Module ExecutorExamples.

Definition no_rows : DataFrame :=
  mkDataFrame 0 [("receivedate", []); ("total_reports", [])].

(** Every query succeeds and returns [no_rows]. *)
Definition nothing_found : World :=
  mkWorld (fun k => N.of_nat k)
          (fun _ => mkTimestamp 2025 1 15 0)
          (fun _ _ => Connected (fun _ _ => QueryReturns (Some no_rows))).

End ExecutorExamples.

Lemma executor_failure_witness :
  exists s',
    executor_of Redshift "select 1" None Examples.all_down Examples.start
    = (inr None, s')
    /\ page s' = (page Examples.start
                  ++ [Error (failure_message Redshift
                               (DatabaseError "connection refused"))])%list
    /\ connections s' = S (connections Examples.start)
    /\ queries s' = (if connects_now Examples.all_down Examples.start Redshift
                     then (queries Examples.start
                           ++ [(Redshift, "select 1")])%list
                     else queries Examples.start)
    /\ draws s' = draws Examples.start.
Proof.
  apply (executor_failure_is_shown_and_returns_None Redshift "select 1" None
           Examples.all_down Examples.start
           (DatabaseError "connection refused")).
  reflexivity.
Defined.

Lemma executor_passes_through_witness :
  exists s',
    executor_of Snowflake "select 1" None Examples.all_up Examples.start
    = (inr (Some Examples.sample_table), s')
    /\ page s' = page Examples.start
    /\ queries s' = (queries Examples.start ++ [(Snowflake, "select 1")])%list
    /\ connections s' = S (connections Examples.start)
    /\ draws s' = draws Examples.start.
Proof.
  apply (executor_passes_a_nonempty_table_through Snowflake "select 1" None
           Examples.all_up Examples.start Examples.sample_table);
    reflexivity.
Defined.

Lemma executor_empty_result_witness :
  exists s',
    executor_of Redshift "select 1" None ExecutorExamples.nothing_found
      Examples.start
    = (inr (Some empty_frame), s')
    /\ page s' = page Examples.start
    /\ columns empty_frame = []
    /\ nrows empty_frame = 0%nat
    /\ forall label, getitem empty_frame label = inl (KeyError label).
Proof.
  apply (executor_returns_a_frame_without_columns_for_an_empty_result
           Redshift "select 1" None ExecutorExamples.nothing_found
           Examples.start (Some ExecutorExamples.no_rows));
    reflexivity.
Defined.

(* ===================================================================== *)
(** ** What the fallback blocks and the bodies do to the state *)
(* ===================================================================== *)

(** [s'] differs from [s] at most in how many draws and clock readings have
    been consumed. *)
Definition only_consumes (s s' : ScriptState) : Prop :=
  connections s' = connections s /\ queries s' = queries s
  /\ page s' = page s /\ timer s' = timer s
  /\ cache_fda s' = cache_fda s /\ cache_healthcare s' = cache_healthcare s.

Lemma only_consumes_refl s : only_consumes s s.
Proof. repeat split. Qed.

Lemma only_consumes_trans s1 s2 s3 :
  only_consumes s1 s2 -> only_consumes s2 s3 -> only_consumes s1 s3.
Proof.
  unfold only_consumes.
  intros (A1 & A2 & A3 & A4 & A5 & A6) (B1 & B2 & B3 & B4 & B5 & B6).
  repeat split; congruence.
Qed.

(** [m] only samples: it draws and reads the clock, nothing else. *)
Definition sampling {A} (m : M A) : Prop :=
  forall w s, only_consumes s (snd (m w s)).

Lemma sampling_ret {A} (a : A) : sampling (ret a).
Proof. intros w s. apply only_consumes_refl. Qed.

Lemma sampling_raise {A} e : sampling (@raise A e).
Proof. intros w s. apply only_consumes_refl. Qed.

Lemma sampling_bind {A B} (m : M A) (k : A -> M B) :
  sampling m -> (forall a, sampling (k a)) -> sampling (bind m k).
Proof.
  intros Hm Hk w s. unfold bind. specialize (Hm w s).
  destruct (m w s) as [[e | a] s1]; simpl in *; [exact Hm |].
  eapply only_consumes_trans; [exact Hm | apply Hk].
Qed.

Lemma sampling_for_in {A S} (xs : list A) (body : A -> S -> M S) :
  (forall x acc, sampling (body x acc)) ->
  forall acc, sampling (for_in xs body acc).
Proof.
  intros Hb. induction xs as [| x xs IH]; intros acc; simpl.
  - apply sampling_ret.
  - apply sampling_bind; [apply Hb | exact IH].
Qed.

Lemma sampling_dict_display_from items :
  Forall (fun it => sampling (snd it)) items ->
  forall d, sampling (dict_display_from d items).
Proof.
  induction 1 as [| [k e] items He _ IH]; intros d; simpl.
  - apply sampling_ret.
  - apply sampling_bind; [exact He | intros v; apply IH].
Qed.

Lemma sampling_dict_display items :
  Forall (fun it => sampling (snd it)) items -> sampling (dict_display items).
Proof. intros H. apply sampling_dict_display_from, H. Qed.

Lemma sampling_next_raw : sampling Numpy.next_raw.
Proof. intros w s. repeat split. Qed.

Lemma sampling_Timestamp_now : sampling Timestamp_now.
Proof. intros w s. repeat split. Qed.

Lemma sampling_Numpy_randint low high : sampling (Numpy.randint low high).
Proof.
  unfold Numpy.randint. destruct (low <? high); [| apply sampling_raise].
  apply sampling_bind; [apply sampling_next_raw | intros; apply sampling_ret].
Qed.

Lemma sampling_Numpy_uniform low high : sampling (Numpy.uniform low high).
Proof.
  apply sampling_bind; [apply sampling_next_raw | intros; apply sampling_ret].
Qed.

Lemma sampling_Numpy_choice options : sampling (Numpy.choice options).
Proof.
  destruct options; [apply sampling_raise |].
  apply sampling_bind; [apply sampling_next_raw | intros; apply sampling_ret].
Qed.

Lemma sampling_randint low high : sampling (App.randint low high).
Proof.
  apply sampling_bind; [apply sampling_Numpy_randint | intros; apply sampling_ret].
Qed.

Lemma sampling_uniform low high : sampling (App.uniform low high).
Proof.
  apply sampling_bind; [apply sampling_Numpy_uniform | intros; apply sampling_ret].
Qed.

Lemma sampling_choice options : sampling (App.choice options).
Proof.
  apply sampling_bind; [apply sampling_Numpy_choice | intros; apply sampling_ret].
Qed.

Lemma sampling_const c : sampling (App.const c).
Proof. apply sampling_ret. Qed.

Lemma sampling_randint_id prefix n low high :
  sampling (App.randint_id prefix n low high).
Proof.
  apply sampling_bind; [apply sampling_Numpy_randint | intros; apply sampling_ret].
Qed.

Lemma sampling_now_minus_random_days low high :
  sampling (App.now_minus_random_days low high).
Proof.
  apply sampling_bind; [apply sampling_Timestamp_now | intros t].
  apply sampling_bind; [apply sampling_Numpy_randint | intros; apply sampling_ret].
Qed.

Lemma sampling_now_int f : sampling (App.now_int f).
Proof.
  apply sampling_bind; [apply sampling_Timestamp_now | intros; apply sampling_ret].
Qed.

Lemma sampling_now_minus_months i : sampling (App.now_minus_months i).
Proof.
  apply sampling_bind; [apply sampling_Timestamp_now | intros; apply sampling_ret].
Qed.

#[export] Hint Resolve sampling_randint sampling_uniform sampling_choice
  sampling_const sampling_randint_id sampling_now_minus_random_days
  sampling_now_int sampling_now_minus_months : script.

Ltac all_sampling :=
  repeat (apply Forall_cons; [simpl; auto with script |]); apply Forall_nil.

Ltac sampling_rows :=
  apply sampling_for_in; intros ? ?;
  apply sampling_bind;
  [ apply sampling_dict_display; all_sampling | intros ?; apply sampling_ret ].

Definition mock_warning : Element :=
  Warning "⚠️ Using mock data - database connection not available".

Lemma fda_mock_data_effects w s :
  only_consumes (Streamlit.shown [mock_warning] s) (snd (App.fda_mock_data w s)).
Proof.
  unfold App.fda_mock_data.
  match goal with
  | |- only_consumes ?s1 (snd (bind _ ?k w s)) =>
      assert (H : sampling (k tt)); [cbv beta | exact (H w s1)]
  end.
  apply sampling_bind; [apply sampling_Timestamp_now | intros now].
  cbv zeta.
  do 3 (apply sampling_bind; [sampling_rows | intros ?]).
  apply sampling_bind; [apply sampling_Timestamp_now | intros now'].
  do 2 (apply sampling_bind; [sampling_rows | intros ?]).
  apply sampling_ret.
Qed.

Lemma healthcare_mock_data_effects w s :
  only_consumes (Streamlit.shown [mock_warning] s)
                (snd (App.healthcare_mock_data w s)).
Proof.
  unfold App.healthcare_mock_data.
  match goal with
  | |- only_consumes ?s1 (snd (bind _ ?k w s)) =>
      assert (H : sampling (k tt)); [cbv beta | exact (H w s1)]
  end.
  cbv zeta.
  do 5 (apply sampling_bind; [sampling_rows | intros ?]).
  apply sampling_bind; [| intros ?; apply sampling_ret].
  apply sampling_for_in; intros state data.
  apply sampling_for_in; intros county data1.
  apply sampling_for_in; intros city data2.
  apply sampling_bind;
    [apply sampling_dict_display; all_sampling | intros ?; apply sampling_ret].
Qed.

Lemma fda_mock_data_frame w s :
  page (snd (App.fda_mock_data w s)) = (page s ++ [mock_warning])%list
  /\ connections (snd (App.fda_mock_data w s)) = connections s
  /\ queries (snd (App.fda_mock_data w s)) = queries s
  /\ timer (snd (App.fda_mock_data w s)) = timer s
  /\ cache_fda (snd (App.fda_mock_data w s)) = cache_fda s
  /\ cache_healthcare (snd (App.fda_mock_data w s)) = cache_healthcare s.
Proof.
  destruct (fda_mock_data_effects w s) as (A1 & A2 & A3 & A4 & A5 & A6).
  repeat split; assumption.
Qed.

Lemma healthcare_mock_data_frame w s :
  page (snd (App.healthcare_mock_data w s)) = (page s ++ [mock_warning])%list
  /\ connections (snd (App.healthcare_mock_data w s)) = connections s
  /\ queries (snd (App.healthcare_mock_data w s)) = queries s
  /\ timer (snd (App.healthcare_mock_data w s)) = timer s
  /\ cache_fda (snd (App.healthcare_mock_data w s)) = cache_fda s
  /\ cache_healthcare (snd (App.healthcare_mock_data w s))
     = cache_healthcare s.
Proof.
  destruct (healthcare_mock_data_effects w s) as (A1 & A2 & A3 & A4 & A5 & A6).
  repeat split; assumption.
Qed.

(** Both fallback blocks put exactly one element on the page, the "Using
    mock data" warning, and apart from that only consume random draws and
    clock readings: they open no connection, send no query, and leave the
    timer and both memo tables alone. *)
Theorem fallback_blocks_only_show_the_warning :
  forall w s,
    (let s' := snd (App.fda_mock_data w s) in
     page s' = (page s ++ [mock_warning])%list
     /\ connections s' = connections s /\ queries s' = queries s
     /\ timer s' = timer s
     /\ cache_fda s' = cache_fda s /\ cache_healthcare s' = cache_healthcare s)
    /\
    (let s' := snd (App.healthcare_mock_data w s) in
     page s' = (page s ++ [mock_warning])%list
     /\ connections s' = connections s /\ queries s' = queries s
     /\ timer s' = timer s
     /\ cache_fda s' = cache_fda s /\ cache_healthcare s' = cache_healthcare s).
Proof.
  intros w s. split; cbv zeta.
  - apply fda_mock_data_frame.
  - apply healthcare_mock_data_frame.
Qed.

Definition is_error (e : Element) : Prop := exists text, e = Error text.

(** How many of the loaders returned [None]. *)
Definition count_None (results : list (option DataFrame)) : nat :=
  List.length (filter (fun r => negb (App.is_not_None r)) results).

(** What an executor call shows: one error when it returns [None], nothing
    otherwise; the timer and the memo tables stay. *)
Lemma executor_shows wh query params w s :
  exists r s' errors,
    executor_of wh query params w s = (inr r, s')
    /\ page s' = (page s ++ errors)%list
    /\ Forall is_error errors
    /\ List.length errors = (if App.is_not_None r then 0 else 1)%nat
    /\ timer s' = timer s
    /\ cache_fda s' = cache_fda s /\ cache_healthcare s' = cache_healthcare s.
Proof.
  destruct (executor_run wh query params w s)
    as (s' & E & _ & _ & Hp & _ & _ & Ht & Hf & Hh).
  destruct (warehouse_outcome w s wh query params) as [e | [d |]]; simpl in *.
  - exists None, s', [Error (failure_message wh e)].
    split; [exact E |]. split; [exact Hp |]. split.
    + constructor; [eexists; reflexivity | constructor].
    + repeat split; assumption.
  - eexists _, s', []. split; [exact E |]. split; [exact Hp |]. split.
    + constructor.
    + split; [destruct (empty d); reflexivity | repeat split; assumption].
  - eexists _, s', []. split; [exact E |]. split; [exact Hp |]. split.
    + constructor.
    + repeat split; assumption.
Qed.

Ltac loader_step wh query w s r s' errs :=
  let E := fresh "E" in
  let P := fresh "P" in
  let F := fresh "F" in
  let L := fresh "L" in
  let T := fresh "T" in
  let Cf := fresh "Cf" in
  let Ch := fresh "Ch" in
  destruct (executor_shows wh query None w s)
    as (r & s' & errs & E & P & F & L & T & Cf & Ch);
  rewrite E; cbv beta iota.

Lemma fda_loaders_show w s :
  exists v t g tr sd s1 errors,
    App.fda_loaders w s = (inr (v, t, g, tr, sd), s1)
    /\ page s1 = (page s ++ errors)%list
    /\ Forall is_error errors
    /\ List.length errors = count_None [v; t; g; tr; sd]
    /\ timer s1 = timer s
    /\ cache_fda s1 = cache_fda s /\ cache_healthcare s1 = cache_healthcare s.
Proof.
  unfold App.fda_loaders, RedshiftConnection.load_fda_volume_analysis,
    RedshiftConnection.load_top_drugs_analysis,
    RedshiftConnection.load_global_adverse_distribution,
    RedshiftConnection.load_fda_safety_trends,
    RedshiftConnection.load_top_suspect_drugs, bind.
  change RedshiftConnection.execute_redshift_query with (executor_of Redshift).
  loader_step Redshift RedshiftConnection.volume_query w s r1 s1 e1.
  loader_step Redshift RedshiftConnection.top_drugs_query w s1 r2 s2 e2.
  loader_step Redshift RedshiftConnection.global_distribution_query w s2 r3 s3 e3.
  loader_step Redshift RedshiftConnection.safety_trends_query w s3 r4 s4 e4.
  loader_step Redshift RedshiftConnection.suspect_drugs_query w s4 r5 s5 e5.
  exists r1, r2, r3, r4, r5, s5, (e1 ++ e2 ++ e3 ++ e4 ++ e5)%list.
  split; [reflexivity |]. split; [| split; [| split; [| repeat split]]].
  - rewrite P3, P2, P1, P0, P, <- !app_assoc. reflexivity.
  - repeat (apply Forall_app; split); assumption.
  - rewrite !length_app. unfold count_None.
    destruct r1, r2, r3, r4, r5; simpl in *; lia.
  - congruence.
  - congruence.
  - congruence.
Qed.

Lemma healthcare_loaders_show w s :
  exists e p en c f g s1 errors,
    App.healthcare_loaders w s = (inr (e, p, en, c, f, g), s1)
    /\ page s1 = (page s ++ errors)%list
    /\ Forall is_error errors
    /\ List.length errors = count_None [e; p; en; c; f; g]
    /\ timer s1 = timer s
    /\ cache_fda s1 = cache_fda s /\ cache_healthcare s1 = cache_healthcare s.
Proof.
  unfold App.healthcare_loaders,
    SnowflakeConnection.load_executive_dashboard_data,
    SnowflakeConnection.load_patient_demographics_data,
    SnowflakeConnection.load_encounter_analysis_data,
    SnowflakeConnection.load_claims_management_data,
    SnowflakeConnection.load_financial_insights_data,
    SnowflakeConnection.load_geographic_analysis_data, bind.
  change SnowflakeConnection.execute_snowflake_query with (executor_of Snowflake).
  loader_step Snowflake SnowflakeConnection.executive_query w s r1 s1 e1.
  loader_step Snowflake SnowflakeConnection.patient_query w s1 r2 s2 e2.
  loader_step Snowflake SnowflakeConnection.encounter_query w s2 r3 s3 e3.
  loader_step Snowflake SnowflakeConnection.claims_query w s3 r4 s4 e4.
  loader_step Snowflake SnowflakeConnection.financial_query w s4 r5 s5 e5.
  loader_step Snowflake SnowflakeConnection.geographic_query w s5 r6 s6 e6.
  exists r1, r2, r3, r4, r5, r6, s6, (e1 ++ e2 ++ e3 ++ e4 ++ e5 ++ e6)%list.
  split; [reflexivity |]. split; [| split; [| split; [| repeat split]]].
  - rewrite P4, P3, P2, P1, P0, P, <- !app_assoc. reflexivity.
  - repeat (apply Forall_app; split); assumption.
  - rewrite !length_app. unfold count_None.
    destruct r1, r2, r3, r4, r5, r6; simpl in *; lia.
  - congruence.
  - congruence.
  - congruence.
Qed.


(** Neither body touches the timer or a memo table. *)
Lemma fda_body_frame w s :
  timer (snd (App.load_fda_dashboard_data_body w s)) = timer s
  /\ cache_fda (snd (App.load_fda_dashboard_data_body w s)) = cache_fda s
  /\ cache_healthcare (snd (App.load_fda_dashboard_data_body w s))
     = cache_healthcare s.
Proof.
  destruct (fda_loaders_show w s)
    as (v & t & g & tr & sd & s1 & errors & E & _ & _ & _ & Ht & Hf & Hh).
  destruct (fda_body_cases w s _ s1 E) as [[b ->] | ->].
  - cbn [snd]. auto.
  - destruct (fda_mock_data_frame w s1) as (_ & _ & _ & A4 & A5 & A6).
    rewrite A4, A5, A6. auto.
Qed.

Lemma healthcare_body_frame w s :
  timer (snd (App.load_healthcare_dashboard_data_body w s)) = timer s
  /\ cache_fda (snd (App.load_healthcare_dashboard_data_body w s)) = cache_fda s
  /\ cache_healthcare (snd (App.load_healthcare_dashboard_data_body w s))
     = cache_healthcare s.
Proof.
  destruct (healthcare_loaders_show w s)
    as (e & p & en & c & f & g & s1 & errors & E & _ & _ & _ & Ht & Hf & Hh).
  destruct (healthcare_body_cases w s _ s1 E) as [[b ->] | ->].
  - cbn [snd]. auto.
  - destruct (healthcare_mock_data_frame w s1) as (_ & _ & _ & A4 & A5 & A6).
    rewrite A4, A5, A6. auto.
Qed.


(** The two memo tables are independent: a call of one cached bundle loader,
    hit or miss, leaves the entry of the other loader and the timer as they
    were. *)
Theorem cached_loaders_leave_each_other_alone :
  forall w s,
    (cache_healthcare (snd (App.load_fda_dashboard_data w s))
     = cache_healthcare s
     /\ timer (snd (App.load_fda_dashboard_data w s)) = timer s)
    /\
    (cache_fda (snd (App.load_healthcare_dashboard_data w s)) = cache_fda s
     /\ timer (snd (App.load_healthcare_dashboard_data w s)) = timer s).
Proof.
  intros w s. split.
  - destruct (fda_body_frame w s) as (Ht & _ & Hh).
    unfold App.load_fda_dashboard_data, Streamlit.cache_data.
    destruct (Streamlit.slot_get Streamlit.fda_slot s) as [e |].
    + destruct (Streamlit.fresh (15 * 60) (timer s) e); [split; reflexivity |].
      destruct (App.load_fda_dashboard_data_body w s) as [[x | a] s'];
        cbn [snd] in *; split; assumption.
    + destruct (App.load_fda_dashboard_data_body w s) as [[x | a] s'];
        cbn [snd] in *; split; assumption.
  - destruct (healthcare_body_frame w s) as (Ht & Hf & _).
    unfold App.load_healthcare_dashboard_data, Streamlit.cache_data.
    destruct (Streamlit.slot_get Streamlit.healthcare_slot s) as [e |].
    + destruct (Streamlit.fresh (15 * 60) (timer s) e); [split; reflexivity |].
      destruct (App.load_healthcare_dashboard_data_body w s) as [[x | a] s'];
        cbn [snd] in *; split; assumption.
    + destruct (App.load_healthcare_dashboard_data_body w s) as [[x | a] s'];
        cbn [snd] in *; split; assumption.
Qed.

(* ===================================================================== *)
(** ** What the bundles can be *)
(* ===================================================================== *)

(** The Synthea bundle is all or nothing: as soon as one of the six loaders
    returned [None], the body returns the bundle that the fallback block
    builds from the state the loaders left, six mock tables of fixed shape;
    no table of a loader is in it. *)
Theorem healthcare_bundle_is_all_or_nothing
        w s s1 exec_df patient_df encounter_df claims_df financial_df geo_df :
  App.healthcare_loaders w s
  = (inr (exec_df, patient_df, encounter_df, claims_df, financial_df, geo_df),
     s1) ->
  In None [exec_df; patient_df; encounter_df; claims_df; financial_df; geo_df] ->
  exists b s',
    App.load_healthcare_dashboard_data_body w s = (inr b, s')
    /\ App.healthcare_mock_data w s1 = (inr b, s')
    /\ Schema.healthcare_shaped b.
Proof.
  intros H Hnone.
  rewrite (healthcare_fallback_all_or_nothing _ _ _ _ _ _ _ _ _ H Hnone).
  destruct (healthcare_mock_data_shaped w s1) as (b & s' & E & Hb).
  exists b, s'. rewrite E. auto.
Qed.

Lemma healthcare_bundle_is_all_or_nothing_witness :
  exists b s',
    App.load_healthcare_dashboard_data_body Examples.two_up_then_down
      Examples.start = (inr b, s')
    /\ App.healthcare_mock_data Examples.two_up_then_down
         (snd (App.healthcare_loaders Examples.two_up_then_down Examples.start))
       = (inr b, s')
    /\ Schema.healthcare_shaped b.
Proof.
  apply (healthcare_bundle_is_all_or_nothing Examples.two_up_then_down
           Examples.start
           (snd (App.healthcare_loaders Examples.two_up_then_down Examples.start))
           (Some Examples.sample_table) (Some Examples.sample_table)
           None None None None).
  - vm_compute. reflexivity.
  - simpl. tauto.
Defined.


(* ===================================================================== *)
(** ** The values in the mock tables *)
(* ===================================================================== *)

(** Every value of the dict [d] is as [P] asks of its key. *)
Definition values_ok (P : string -> cell -> Prop) (d : dict) : Prop :=
  forall k v, dict_get d k = Some v -> P k v.

(** A cell that holds an integer of [low, high). *)
Definition in_range (low high : Z) (c : cell) : Prop :=
  exists z, c = CInt z /\ low <= z < high.

Lemma returns_Numpy_randint low high :
  (low <? high) = true ->
  returns (Numpy.randint low high) (fun z => low <= z < high).
Proof.
  intros H w s. unfold Numpy.randint. rewrite H.
  eexists _, _. split; [reflexivity |].
  apply Z.ltb_lt in H.
  pose proof (Z.mod_pos_bound (Z.of_N (raw_draw w (draws s))) (high - low)).
  lia.
Qed.

Lemma returns_randint low high :
  (low <? high) = true -> returns (App.randint low high) (in_range low high).
Proof.
  intros H. eapply returns_bind; [apply returns_Numpy_randint, H |].
  intros z Hz. apply returns_ret. exists z. split; [reflexivity | exact Hz].
Qed.

Lemma returns_randint_id prefix n low high :
  (low <? high) = true ->
  returns (App.randint_id prefix n low high)
          (fun c => exists z, c = CStr (prefix ++ format_0d n z)
                              /\ low <= z < high).
Proof.
  intros H. eapply returns_bind; [apply returns_Numpy_randint, H |].
  intros z Hz. apply returns_ret. exists z. split; [reflexivity | exact Hz].
Qed.

Lemma returns_const c : returns (App.const c) (fun v => v = c).
Proof. apply returns_ret. reflexivity. Qed.

Lemma values_ok_set P (d : dict) k v :
  values_ok P d -> P k v -> values_ok P (dict_set d k v).
Proof.
  intros Hd Hv k' v'. unfold dict_get, dict_set.
  destruct (String.eqb k' k) eqn:E.
  - apply String.eqb_eq in E. subst k'. rewrite lookup_assign_same.
    intros [= <-]. exact Hv.
  - rewrite lookup_assign_other by exact E. apply Hd.
Qed.

(** A dict display whose value expressions return values as [P] asks of
    their keys: the dict has the display's keys and such values. *)
Lemma returns_dict_display_values P items labels :
  Forall (fun it => returns (snd it) (P (fst it))) items ->
  fold_left add_label (map fst items) [] = labels ->
  returns (dict_display items)
          (fun d => keys d = labels /\ values_ok P d).
Proof.
  intros Hi <-. unfold dict_display.
  assert (G : forall d, values_ok P d ->
              returns (dict_display_from d items)
                (fun d' => keys d'
                           = fold_left add_label (map fst items) (keys d)
                           /\ values_ok P d')).
  { induction Hi as [| [k e] items He _ IH]; intros d Hd; simpl.
    - apply returns_ret. split; [reflexivity | exact Hd].
    - eapply returns_bind; [exact He |]. intros v Hv.
      eapply returns_weaken; [apply IH, values_ok_set; [exact Hd | exact Hv] |].
      intros d' [E Hd']. rewrite E, keys_assign. split; [reflexivity | exact Hd']. }
  apply G. intros k v H. discriminate H.
Qed.

(** The plain loop of the fallback blocks, row by row: the rows it collects
    pair up with the elements it ran over. *)
Lemma returns_rows_loop_each {A} (R : A -> dict -> Prop) (xs : list A)
      (row : A -> M dict) :
  (forall x, returns (row x) (R x)) ->
  returns (for_in xs (fun x data => r <- row x ;; ret (append data r)) [])
          (fun data => Forall2 R xs data).
Proof.
  intros Hrow.
  assert (G : forall acc,
              returns (for_in xs (fun x data => r <- row x ;; ret (append data r)) acc)
                      (fun data => exists rows, data = (acc ++ rows)%list
                                                /\ Forall2 R xs rows)).
  { induction xs as [| x xs IH]; intros acc; simpl.
    - apply returns_ret. exists []. split; [symmetry; apply app_nil_r | constructor].
    - apply returns_bind
        with (Q := fun acc' => exists d, acc' = append acc d /\ R x d).
      + eapply returns_bind; [apply Hrow |]. intros d Hd.
        apply returns_ret. exists d. split; [reflexivity | exact Hd].
      + intros acc' (d & -> & Hd). eapply returns_weaken; [apply IH |].
        intros data (rows & -> & Hrows). exists (d :: rows)%list.
        split; [unfold append; rewrite <- app_assoc; reflexivity |].
        constructor; assumption. }
  eapply returns_weaken; [apply (G []) |].
  intros data (rows & -> & H). exact H.
Qed.

Lemma lookup_tabulate {A} (f : string -> A) label labels :
  In label labels ->
  lookup label (map (fun l => (l, f l)) labels) = Some (f label).
Proof.
  induction labels as [| l labels IH]; intros H; [destruct H |]. simpl.
  destruct (String.eqb label l) eqn:E.
  - apply String.eqb_eq in E. subst l. reflexivity.
  - destruct H as [-> | H]; [rewrite String.eqb_refl in E; discriminate E |].
    apply IH, H.
Qed.

(** The column that [pd.DataFrame(records)] makes of a key that every
    record has: the values of the key, record by record. *)
Lemma of_records_column {A} (R : A -> dict -> Prop) (Q : A -> cell -> Prop)
      ks label (xs : list A) (data : list dict) :
  Forall2 R xs data ->
  (forall x d, R x d ->
     keys d = ks /\ forall v, dict_get d label = Some v -> Q x v) ->
  In label ks ->
  xs <> [] ->
  exists vs,
    getitem (of_records data) label = inr vs /\ Forall2 Q xs vs.
Proof.
  intros HR Hrow Hin Hne.
  assert (Hk : Forall (fun d => keys d = ks) data).
  { clear Hne. induction HR as [| x d xs data Hd _ IH]; constructor.
    - apply (Hrow x d Hd).
    - exact IH. }
  assert (Hdata : data <> []).
  { intros ->. inversion HR. subst. congruence. }
  destruct (of_records_shape ks data Hk Hdata) as (Hc & _ & _).
  assert (Hu : union_keys data = labels_of ks).
  { rewrite <- Hc. unfold columns, of_records; cbn [cols].
    rewrite map_map; cbn [fst]. symmetry. apply map_id. }
  exists (map (fun d => match dict_get d label with
                        | Some v => v
                        | None => NaN
                        end) data).
  split.
  - unfold getitem, of_records; cbn [cols]. rewrite Hu.
    rewrite (lookup_tabulate
               (fun l => map (fun d => match dict_get d l with
                                       | Some v => v
                                       | None => NaN
                                       end) data)).
    + reflexivity.
    + apply (fold_add_label_incl ks []), Hin.
  - clear Hk Hdata Hc Hu Hne.
    induction HR as [| x d xs data Hd _ IH]; simpl; constructor; [| exact IH].
    destruct (Hrow x d Hd) as [Ek Hv].
    destruct (lookup_columns label d) as [v Ev]; [fold (keys d); rewrite Ek; exact Hin |].
    unfold dict_get. rewrite Ev. apply Hv. exact Ev.
Qed.

Lemma Forall2_length_eq {A B} (R : A -> B -> Prop) xs ys :
  Forall2 R xs ys -> List.length ys = List.length xs.
Proof. induction 1; simpl; congruence. Qed.

Lemma Forall2_forget {A B} (P : B -> Prop) (R : A -> B -> Prop) xs ys :
  Forall2 R xs ys -> (forall x y, R x y -> P y) -> Forall P ys.
Proof. induction 1; intros H'; constructor; eauto. Qed.

Lemma returns_conj {A} (m : M A) (P Q : A -> Prop) :
  returns m P -> returns m Q -> returns m (fun a => P a /\ Q a).
Proof.
  intros HP HQ w s.
  destruct (HP w s) as (a & s' & E & Pa).
  destruct (HQ w s) as (a' & s'' & E' & Qa).
  rewrite E in E'. injection E' as <- <-.
  exists a, s'. split; [exact E | split; assumption].
Qed.

Lemma Forall2_eq_map {A B} (f : A -> B) xs ys :
  Forall2 (fun x y => y = f x) xs ys -> ys = map f xs.
Proof. induction 1; simpl; congruence. Qed.

(** One value expression of a dict display, against what is asked of its
    key: a [randint] gives an integer of its range, an f-string around a
    [randint] the formatted integer, a constant itself; for every other
    expression it is enough that it returns. *)
Ltac item_value P :=
  cbn [fst snd];
  first
    [ eapply returns_weaken; [apply returns_randint; reflexivity |]
    | eapply returns_weaken; [apply returns_randint_id; reflexivity |]
    | eapply returns_weaken; [apply returns_const |]
    | apply (returns_weaken _ (fun _ => True));
      [match goal with |- returns ?m _ => change (total m) end;
       solve [auto with script] |] ];
  intros ? ?; unfold P;
  repeat match goal with |- _ /\ _ => split end;
  intros; try discriminate; try assumption.

Ltac all_values P :=
  repeat (apply Forall_cons; [item_value P |]); apply Forall_nil.

(** What the rows of two mock tables of the OpenFDA fallback hold. *)
Definition global_dist_row (country : string) (k : string) (v : cell) : Prop :=
  k = "occurcountry" -> v = CStr country.

Definition suspect_drugs_row (drug : string) (k : string) (v : cell) : Prop :=
  (k = "medicinalproduct" -> v = CStr drug)
  /\ (k = "report_count" -> in_range 80 800 v)
  /\ (k = "recovered_count" -> in_range 40 600 v).

(** A column of a member of a bundle. *)
Definition column_is (df : option DataFrame) (label : string)
           (P : Series -> Prop) : Prop :=
  match df with
  | Some d => exists vs, getitem d label = inr vs /\ P vs
  | None => False
  end.

Definition fda_mock_values (b : FdaBundle) : Prop :=
  let '(_, _, global_dist_df, _, suspect_drugs_df) := b in
  column_is global_dist_df "occurcountry" (eq (map CStr App.countries))
  /\ column_is suspect_drugs_df "medicinalproduct"
       (eq (map CStr (firstn 8 App.drugs)))
  /\ column_is suspect_drugs_df "report_count" (Forall (in_range 80 800))
  /\ column_is suspect_drugs_df "recovered_count" (Forall (in_range 40 600)).

Lemma fda_mock_data_values : returns App.fda_mock_data fda_mock_values.
Proof.
  unfold App.fda_mock_data.
  apply returns_bind with (Q := fun _ => True); [apply total_write | intros _ _].
  apply returns_bind with (Q := fun _ => True); [apply total_Timestamp_now | intros now _].
  cbv zeta.
  eapply returns_bind; [mock_rows Schema.volume_columns 12%nat | intros volume_data _].
  eapply returns_bind; [mock_rows Schema.top_drugs_columns 10%nat | intros top_drugs_data _].
  eapply returns_bind.
  { apply (returns_rows_loop_each
             (fun country d => keys d = Schema.global_dist_columns
                               /\ values_ok (global_dist_row country) d)).
    intros country. apply returns_dict_display_values;
      [all_values global_dist_row | vm_compute; reflexivity]. }
  intros global_dist_data Hg.
  apply returns_bind with (Q := fun _ => True); [apply total_Timestamp_now | intros now' _].
  eapply returns_bind; [mock_rows Schema.trends_columns 26%nat | intros trends_data _].
  eapply returns_bind.
  { apply (returns_rows_loop_each
             (fun drug d => keys d = Schema.suspect_drugs_columns
                            /\ values_ok (suspect_drugs_row drug) d)).
    intros drug. apply returns_dict_display_values;
      [all_values suspect_drugs_row | vm_compute; reflexivity]. }
  intros suspect_drugs_data Hs.
  apply returns_ret. unfold fda_mock_values, column_is.
  split; [| split; [| split]].
  - destruct (of_records_column _ (fun country v => v = CStr country)
                Schema.global_dist_columns "occurcountry" _ _ Hg)
      as (vs & E & H).
    + intros x d [Ek Hv]. split; [exact Ek |]. intros v Ev. exact (Hv _ _ Ev eq_refl).
    + simpl; tauto.
    + discriminate.
    + exists vs. split; [exact E |]. symmetry. apply Forall2_eq_map, H.
  - destruct (of_records_column _ (fun drug v => v = CStr drug)
                Schema.suspect_drugs_columns "medicinalproduct" _ _ Hs)
      as (vs & E & H).
    + intros x d [Ek Hv]. split; [exact Ek |]. intros v Ev.
      exact (proj1 (Hv _ _ Ev) eq_refl).
    + simpl; tauto.
    + discriminate.
    + exists vs. split; [exact E |]. symmetry. apply Forall2_eq_map, H.
  - destruct (of_records_column _ (fun _ v => in_range 80 800 v)
                Schema.suspect_drugs_columns "report_count" _ _ Hs)
      as (vs & E & H).
    + intros x d [Ek Hv]. split; [exact Ek |]. intros v Ev.
      exact (proj1 (proj2 (Hv _ _ Ev)) eq_refl).
    + simpl; tauto.
    + discriminate.
    + exists vs. split; [exact E |].
      apply (Forall2_forget _ _ _ _ H). intros x y Hy. exact Hy.
  - destruct (of_records_column _ (fun _ v => in_range 40 600 v)
                Schema.suspect_drugs_columns "recovered_count" _ _ Hs)
      as (vs & E & H).
    + intros x d [Ek Hv]. split; [exact Ek |]. intros v Ev.
      exact (proj2 (proj2 (Hv _ _ Ev)) eq_refl).
    + simpl; tauto.
    + discriminate.
    + exists vs. split; [exact E |].
      apply (Forall2_forget _ _ _ _ H). intros x y Hy. exact Hy.
Qed.

(** *** The recovery rates of the mock suspect drugs *)

(** A cell that holds a finite float of [low, high]. *)
Definition finite_within (low high : Q) (c : cell) : Prop :=
  exists q, c = CFloat (FFin q) /\ (low <= q <= high)%Q.

Lemma rint_bounds q lo hi :
  (inject_Z lo <= q)%Q -> (q <= inject_Z hi)%Q -> lo <= rint q <= hi.
Proof.
  unfold Qle, rint; cbn [Qnum Qden inject_Z]. intros Hlo Hhi.
  pose proof (Pos2Z.is_pos (Qden q)) as Hd.
  pose proof (Z.div_mod (Qnum q) (Zpos (Qden q))) as Hdm.
  pose proof (Z.mod_pos_bound (Qnum q) (Zpos (Qden q)) Hd) as Hm.
  set (d := Zpos (Qden q)) in *. set (n := Qnum q) in *.
  set (fl := n / d) in *.
  assert (Hn : n = d * fl + n mod d) by (apply Hdm; lia).
  assert (Hr : n - fl * d = n mod d) by lia.
  rewrite Hr. set (m := n mod d) in *.
  assert (lo <= fl) by nia.
  destruct (2 * m ?= d) eqn:E.
  - apply Z.compare_eq in E. destruct (Z.even fl); nia.
  - nia.
  - apply Z.compare_gt_iff in E. nia.
Qed.

Lemma recovery_rate_of_mock recovered reports :
  in_range 40 600 recovered -> in_range 80 800 reports ->
  finite_within 5 (7488 # 10) (recovery_rate_of recovered reports).
Proof.
  intros (a & -> & Ha) (b & -> & Hb).
  unfold recovery_rate_of, as_float, number_of, fdiv, Qsign, fmul, fround.
  cbn [Qnum inject_Z].
  replace (b ?= 0) with Gt by (symmetry; apply Z.compare_gt_iff; lia).
  eexists. split; [reflexivity |].
  set (x := (Qred (Qred (inject_Z a / inject_Z b) * 100)
             * inject_Z (10 ^ Z.of_nat 1))%Q).
  assert (Hx : (inject_Z 50 <= x)%Q /\ (x <= inject_Z 7488)%Q).
  { unfold x. rewrite !Qred_correct.
    destruct b as [| p | p]; try lia.
    unfold Qle, Qdiv, Qmult, Qinv; cbn [Qnum Qden inject_Z]. simpl. lia. }
  destruct (rint_bounds x 50 7488 (proj1 Hx) (proj2 Hx)) as [H1 H2].
  rewrite !Qred_correct.
  unfold Qle, Qdiv, Qmult, Qinv; simpl. lia.
Qed.

Lemma in_range_numeric low high vs :
  Forall (in_range low high) vs -> numeric_dtype vs = true.
Proof.
  unfold numeric_dtype. induction 1 as [| c vs (z & -> & _) _ IH]; simpl;
    [reflexivity | exact IH].
Qed.

Lemma Forall_firstn {A} (P : A -> Prop) n l :
  Forall P l -> Forall P (firstn n l).
Proof.
  intros H. revert n. induction H as [| x l Hx _ IH]; intros [| n]; simpl;
    constructor; auto.
Qed.

Lemma Forall_combine {A B} (P : A -> Prop) (Q : B -> Prop) l l' :
  Forall P l -> Forall Q l' ->
  Forall (fun p => P (fst p) /\ Q (snd p)) (combine l l').
Proof.
  intros H. revert l'. induction H as [| x l Hx _ IH]; intros l' H';
    [constructor |].
  destruct H' as [| y l' Hy H']; simpl; constructor; auto.
Qed.

(** On the fallback path the report counts of the suspect drugs are drawn
    from 80..799 and the recovered counts from 40..599: no divisor is zero,
    the "Suspect Drugs Recovery Rate" section completes on the mock table,
    and each of the eight rates of its chart is a finite number, between 5
    and 748.8 percent. *)
Theorem mock_recovery_rates_are_finite :
  forall w s,
  exists volume_df top_drugs_df global_dist_df trends_df suspects s1,
    App.fda_mock_data w s
    = (inr (volume_df, top_drugs_df, global_dist_df, trends_df,
            Some suspects), s1)
    /\ forall w' s', exists data rates,
         App.suspect_drugs_recovery_rate (Some suspects) w' s'
         = (inr tt,
            Streamlit.shown
              [Markdown "#### Suspect Drugs Recovery Rate";
               PlotlyChart (Bar data "medicinalproduct" ["recovery_rate"]
                                "Recovery Rate by Suspect Drug"
                                (Some "recovery_rate"))] s')
         /\ getitem data "recovery_rate" = inr rates
         /\ List.length rates = 8%nat
         /\ Forall (finite_within 5 (7488 # 10)) rates.
Proof.
  intros w s.
  destruct (returns_conj _ _ _ fda_mock_data_shaped fda_mock_data_values w s)
    as (b & s1 & E & Hshape & Hvalues).
  destruct b as [[[[v t] g] tr] sd].
  destruct Hshape as (_ & _ & _ & _ & Hsd).
  destruct Hvalues as (_ & Hp & Hn & Hr).
  destruct sd as [sd |]; [| destruct Hsd].
  destruct Hsd as (_ & Hrows & Hw).
  destruct Hp as (products & Ep & _).
  destruct Hn as (reports & En & Hn).
  destruct Hr as (recovered & Er & Hr).
  exists v, t, g, tr, sd, s1. split; [exact E |]. intros w' s'.
  eexists _, _. split; [| split; [| split]].
  - apply (recovery_rate_section_completes sd products recovered reports w' s'
             Hw Ep Er En (in_range_numeric _ _ _ Hr) (in_range_numeric _ _ _ Hn)).
  - unfold getitem; cbn [cols]. rewrite lookup_assign_same. reflexivity.
  - rewrite length_map, length_combine, !length_firstn.
    rewrite (getitem_length _ _ _ Hw Er), (getitem_length _ _ _ Hw En), Hrows.
    reflexivity.
  - apply Forall_map.
    eapply Forall_impl;
      [| apply (Forall_combine (in_range 40 600) (in_range 80 800));
         apply Forall_firstn; eassumption].
    intros [c c'] [H1 H2]. apply recovery_rate_of_mock; assumption.
Qed.

Lemma shaped_getitem labels n d label :
  Schema.shaped labels n (Some d) -> In label labels ->
  exists vs, getitem d label = inr vs.
Proof.
  intros (Hc & _ & _) Hin. unfold getitem.
  destruct (lookup_columns label (cols d)) as [vs ->];
    [fold (columns d); rewrite Hc; exact Hin | eauto].
Qed.

(** On the fallback path every country of the mock table is a key of the
    2-letter to 3-letter lookup table, so the "Global Report Distribution"
    section drops no row: the choropleth has the ten countries with their
    3-letter codes, in the order of the mock list, and the heatmap table is
    indexed by the same ten codes. *)
Theorem mock_countries_all_reach_the_map :
  forall w s,
  exists volume_df top_drugs_df global_dist trends_df suspect_drugs_df s1,
    App.fda_mock_data w s
    = (inr (volume_df, top_drugs_df, Some global_dist, trends_df,
            suspect_drugs_df), s1)
    /\ forall w' s', exists located view,
         App.global_report_distribution (Some global_dist) w' s'
         = (inr tt,
            Streamlit.shown
              [Markdown "#### Global Report Distribution";
               PlotlyChart (choropleth_of located);
               Markdown "Top 15 Countries by Report Metrics";
               StyledView view "Reds"] s')
         /\ getitem located "occurcountry" = inr (map CStr App.countries)
         /\ getitem located "iso_alpha"
            = inr (map CStr ["USA"; "GBR"; "CAN"; "AUS"; "DEU"; "FRA"; "JPN";
                             "ITA"; "ESP"; "BRA"])
         /\ index view = map CStr App.countries.
Proof.
  intros w s.
  destruct (returns_conj _ _ _ fda_mock_data_shaped fda_mock_data_values w s)
    as (b & s1 & E & Hshape & Hvalues).
  destruct b as [[[[v t] g] tr] sd].
  destruct Hshape as (_ & _ & Hg & _ & _).
  destruct Hvalues as (Hc & _).
  destruct g as [g |]; [| destruct Hg].
  destruct Hc as (codes & Ec & <-).
  destruct (shaped_getitem _ _ _ "report_count" Hg) as (counts & En);
    [simpl; tauto |].
  destruct (shaped_getitem _ _ _ "serious_reports" Hg) as (serious & Es);
    [simpl; tauto |].
  destruct (shaped_getitem _ _ _ "fatal_reports" Hg) as (fatal & Ef);
    [simpl; tauto |].
  exists v, t, g, tr, sd, s1. split; [exact E |]. intros w' s'.
  destruct (global_report_distribution_runs g _ counts serious fatal w' s'
              (proj2 (proj2 Hg)) Ec En Es Ef)
    as (located & view & Erun & Hi & Ho & Hx & _).
  exists located, view. split; [exact Erun |].
  split; [exact Ho |]. split; [exact Hi | exact Hx].
Qed.

(** *** The keys of the mock Synthea tables *)

(** A cell that holds the id of one of the thousand mock patients, as the
    f-string [f'P{np.random.randint(0, 1000):05d}'] makes it. *)
Definition patient_ref (v : cell) : Prop :=
  exists z, v = CStr ("P" ++ format_0d 5 z) /\ 0 <= z < 1000.

(** What the rows of the mock tables hold in their key columns; [i] is the
    loop variable. *)
Definition patient_row (i : Z) (k : string) (v : cell) : Prop :=
  k = "patient_id" -> v = CStr ("P" ++ format_0d 5 i).

Definition encounter_row (i : Z) (k : string) (v : cell) : Prop :=
  (k = "encounter_id" -> v = CStr ("E" ++ format_0d 5 i))
  /\ (k = "patient_id" -> patient_ref v).

Definition claims_row (i : Z) (k : string) (v : cell) : Prop :=
  (k = "claim_id" -> v = CStr ("C" ++ format_0d 5 i))
  /\ (k = "patient_id" -> patient_ref v).

Definition financial_row (i : Z) (k : string) (v : cell) : Prop :=
  k = "patient_id" -> patient_ref v.

(** The ids that a loop over [range(n)] gives its rows. *)
Definition loop_ids (prefix : string) (n : nat) : Series :=
  map (fun i => CStr (prefix ++ format_0d 5 i)) (range n).

Definition healthcare_mock_values (b : HealthcareBundle) : Prop :=
  let '(_, patient_df, encounter_df, claims_df, financial_df, _) := b in
  column_is patient_df "patient_id" (eq (loop_ids "P" 1000))
  /\ column_is encounter_df "encounter_id" (eq (loop_ids "E" 5000))
  /\ column_is claims_df "claim_id" (eq (loop_ids "C" 2000))
  /\ column_is encounter_df "patient_id" (Forall patient_ref)
  /\ column_is claims_df "patient_id" (Forall patient_ref)
  /\ column_is financial_df "patient_id" (Forall patient_ref).

Lemma range_nonempty n : n <> 0%nat -> range n <> [].
Proof. destruct n; [congruence | discriminate]. Qed.

Ltac valued_rows labels P :=
  apply (returns_rows_loop_each
           (fun i d => keys d = labels /\ values_ok (P i) d));
  intros ?; apply returns_dict_display_values;
  [all_values P | vm_compute; reflexivity].

Ltac column_of labels label H Q pick :=
  let vs := fresh "vs" in
  let E := fresh "E" in
  let HQ := fresh "HQ" in
  destruct (of_records_column _ Q labels label _ _ H) as (vs & E & HQ);
  [ let Hv := fresh "Hv" in
    let Ek := fresh "Ek" in
    intros ? ? [Ek Hv]; split; [exact Ek |];
    let Ev := fresh "Ev" in
    intros ? Ev; exact (pick _ _ (Hv _ _ Ev))
  | vm_compute; tauto
  | apply range_nonempty; discriminate
  | exists vs; split; [exact E |] ].

Lemma healthcare_mock_data_values :
  returns App.healthcare_mock_data healthcare_mock_values.
Proof.
  unfold App.healthcare_mock_data.
  apply returns_bind with (Q := fun _ => True); [apply total_write | intros _ _].
  cbv zeta.
  eapply returns_bind; [mock_rows Schema.exec_columns 24%nat | intros exec_data _].
  eapply returns_bind;
    [valued_rows Schema.patient_columns patient_row | intros patient_data Hp].
  eapply returns_bind;
    [valued_rows Schema.encounter_columns encounter_row | intros encounter_data He].
  eapply returns_bind;
    [valued_rows Schema.claims_columns claims_row | intros claims_data Hc].
  eapply returns_bind;
    [valued_rows Schema.financial_columns financial_row | intros financial_data Hf].
  apply returns_bind with (Q := fun _ => True).
  - apply returns_weaken
      with (P := fun data =>
                   List.length data = (0 + 25 * 5)%nat
                   /\ Forall (fun d => keys d = Schema.geo_columns) data);
      [| intros; exact I].
    apply (returns_block_loop Schema.geo_columns) with (c := 25%nat) (data := []);
      [| constructor].
    intros state data Hd. eapply returns_weaken.
    + apply (returns_block_loop Schema.geo_columns) with (c := 5%nat); [| exact Hd].
      intros county data1 Hd1. eapply returns_weaken.
      * apply (returns_block_loop Schema.geo_columns) with (c := 1%nat);
          [| exact Hd1].
        intros city data2 Hd2. apply returns_append_row; [| exact Hd2].
        apply returns_dict_display; [all_total | vm_compute; reflexivity].
      * simpl. intros d' H. exact H.
    + simpl. intros d' H. exact H.
  - intros geo_data _. apply returns_ret.
    unfold healthcare_mock_values, column_is.
    split; [| split; [| split; [| split; [| split]]]].
    + column_of Schema.patient_columns "patient_id" Hp
        (fun (i : Z) v => v = CStr ("P" ++ format_0d 5 i))
        (fun i v (H : patient_row i "patient_id" v) => H eq_refl).
      symmetry. apply Forall2_eq_map, HQ.
    + column_of Schema.encounter_columns "encounter_id" He
        (fun (i : Z) v => v = CStr ("E" ++ format_0d 5 i))
        (fun i v (H : encounter_row i "encounter_id" v) => proj1 H eq_refl).
      symmetry. apply Forall2_eq_map, HQ.
    + column_of Schema.claims_columns "claim_id" Hc
        (fun (i : Z) v => v = CStr ("C" ++ format_0d 5 i))
        (fun i v (H : claims_row i "claim_id" v) => proj1 H eq_refl).
      symmetry. apply Forall2_eq_map, HQ.
    + column_of Schema.encounter_columns "patient_id" He
        (fun (_ : Z) v => patient_ref v)
        (fun i v (H : encounter_row i "patient_id" v) => proj2 H eq_refl).
      apply (Forall2_forget _ _ _ _ HQ). intros x y Hy. exact Hy.
    + column_of Schema.claims_columns "patient_id" Hc
        (fun (_ : Z) v => patient_ref v)
        (fun i v (H : claims_row i "patient_id" v) => proj2 H eq_refl).
      apply (Forall2_forget _ _ _ _ HQ). intros x y Hy. exact Hy.
    + column_of Schema.financial_columns "patient_id" Hf
        (fun (_ : Z) v => patient_ref v)
        (fun i v (H : financial_row i "patient_id" v) => H eq_refl).
      apply (Forall2_forget _ _ _ _ HQ). intros x y Hy. exact Hy.
Qed.

(** The number that a string of decimal digits writes, and the number in an
    id after its one-letter prefix. *)
Fixpoint digits_value (acc : Z) (s : string) : Z :=
  match s with
  | EmptyString => acc
  | String c s' => digits_value (10 * acc + (Z.of_nat (nat_of_ascii c) - 48)) s'
  end.

Definition id_number (c : cell) : Z :=
  match c with
  | CStr (String _ digits) => digits_value 0 digits
  | _ => 0
  end.

Lemma NoDup_range n : NoDup (range n).
Proof.
  unfold range. apply NoDup_map_NoDup_ForallPairs; [| apply seq_NoDup].
  intros x y _ _. apply Nat2Z.inj.
Qed.

Lemma NoDup_map_decoded {A B} (f : A -> B) (g : B -> A) l :
  (forall x, In x l -> g (f x) = x) -> NoDup l -> NoDup (map f l).
Proof.
  intros Hg. apply NoDup_map_NoDup_ForallPairs.
  intros x y Hx Hy E. rewrite <- (Hg x Hx), <- (Hg y Hy), E. reflexivity.
Qed.

(** The ids of a loop over [range(n)] can be read back, for the three
    prefixes and row counts of the mock tables. *)
Lemma ids_read_back prefix n :
  forallb (fun i => id_number (CStr (prefix ++ format_0d 5 i)) =? i) (range n)
  = true ->
  NoDup (loop_ids prefix n) /\ List.length (loop_ids prefix n) = n.
Proof.
  intros H. split.
  - apply (NoDup_map_decoded _ id_number); [| apply NoDup_range].
    intros x Hx. apply Z.eqb_eq. revert x Hx. apply forallb_forall, H.
  - unfold loop_ids. rewrite length_map. apply length_range.
Qed.

Lemma patient_ref_known v : patient_ref v -> In v (loop_ids "P" 1000).
Proof.
  intros (z & -> & Hz). unfold loop_ids.
  apply (in_map (fun i => CStr ("P" ++ format_0d 5 i))).
  unfold range. apply in_map_iff. exists (Z.to_nat z).
  split; [lia | apply in_seq; lia].
Qed.

(** In the mock Synthea bundle the key columns hold no id twice: the
    thousand patient ids, the five thousand encounter ids and the two
    thousand claim ids are pairwise distinct, whatever is drawn. *)
Theorem mock_ids_are_unique :
  returns App.healthcare_mock_data
    (fun b =>
       let '(_, patient_df, encounter_df, claims_df, _, _) := b in
       column_is patient_df "patient_id"
         (fun ids => NoDup ids /\ List.length ids = 1000%nat)
       /\ column_is encounter_df "encounter_id"
            (fun ids => NoDup ids /\ List.length ids = 5000%nat)
       /\ column_is claims_df "claim_id"
            (fun ids => NoDup ids /\ List.length ids = 2000%nat)).
Proof.
  eapply returns_weaken; [apply healthcare_mock_data_values |].
  intros [[[[[e p] en] c] f] g] (Hp & He & Hc & _).
  unfold column_is in *.
  destruct p as [p |]; [| destruct Hp].
  destruct en as [en |]; [| destruct He].
  destruct c as [c |]; [| destruct Hc].
  destruct Hp as (ps & Ep & <-). destruct He as (es & Ee & <-).
  destruct Hc as (cs & Ec & <-).
  split; [| split]; eexists; (split; [eassumption |]);
    apply ids_read_back; vm_compute; reflexivity.
Qed.

(** In the mock Synthea bundle every [patient_id] of the encounter, the
    claims and the financial table is the id of a row of the mock patient
    table, whatever is drawn: the random ids are formatted as the patient
    ids are and drawn from the same range. *)
Theorem mock_rows_refer_to_mock_patients :
  returns App.healthcare_mock_data
    (fun b =>
       let '(_, patient_df, encounter_df, claims_df, financial_df, _) := b in
       exists patients,
         column_is patient_df "patient_id" (eq patients)
         /\ column_is encounter_df "patient_id"
              (Forall (fun id => In id patients))
         /\ column_is claims_df "patient_id"
              (Forall (fun id => In id patients))
         /\ column_is financial_df "patient_id"
              (Forall (fun id => In id patients))).
Proof.
  eapply returns_weaken; [apply healthcare_mock_data_values |].
  intros [[[[[e p] en] c] f] g] (Hp & _ & _ & He & Hc & Hf).
  exists (loop_ids "P" 1000). split; [exact Hp |].
  unfold column_is in *.
  destruct en as [en |]; [| destruct He].
  destruct c as [c |]; [| destruct Hc].
  destruct f as [f |]; [| destruct Hf].
  destruct He as (es & Ee & He). destruct Hc as (cs & Ec & Hc).
  destruct Hf as (fs & Ef & Hf).
  split; [| split]; eexists; (split; [eassumption |]);
    (eapply Forall_impl; [apply patient_ref_known | eassumption]).
Qed.

(* ===================================================================== *)
(** ** A warehouse without rows *)
(* ===================================================================== *)







(* ===================================================================== *)
(** ** What a cache hit shows *)
(* ===================================================================== *)






